(** * standup-copilot: the voice session bridge and the post-call summary pipeline

    A shallow embedding of
    - [app/services/standup_summary_service.py] (transcript merge, update
      extraction, per-update dispatch, summary and digest),
    - [app/services/elevenlabs_service.py] (the upstream handler: audio
      queueing, flushing, payload-format probing, callback registry, event
      handling, the listener, shutdown),
    - [app/services/voice_endpoint.py] (the voice-activity gate, the session
      and its two cooperating tasks, cleanup, the session registry),
    - [app/services/linear_service.py] (the tracker client),
    - [app/services/reasoning_service.py] (the reasoning client),
    followed by the properties established about them.

    Conventions.  Python exceptions are values of [Outcome]; every external
    collaborator (reasoning backend, tracker, messaging, upstream socket,
    clock) is a field of an environment record acting on an abstract
    [World], and each call is appended to a trace.  Python [str] is
    [string] holding the UTF-8 encoding of the text (so [len] counts
    characters, not bytes: [py_len]), [bytes] is [list Byte.byte],
    wall-clock readings are integers (milliseconds), and the energy figures
    of the gate are rationals.  Exception texts are those of CPython
    3.11. *)

From Stdlib Require Import ZArith QArith Lqa String Ascii List Bool Sorted Lia.
From stdpp Require Import gmap strings list.
Import ListNotations.

(** ** Python values and exceptions *)

Set Warnings "-register-all".

(** What [json.loads] produces.  Numbers are kept integral. *)
Inductive Json : Type :=
| JNull
| JBool (b : bool)
| JNum (n : Z)
| JStr (s : string)
| JArr (items : list Json)
| JObj (fields : list (string * Json)).

(** The result of a call that may raise; [Raise] carries [str(e)]. *)
Inductive Outcome (A : Type) : Type :=
| Ok (a : A)
| Raise (msg : string).
Arguments Ok {A} a.
Arguments Raise {A} msg.

(** Python truthiness, as used by [if x:] and [x or y]. *)
Definition truthy (v : Json) : bool :=
  match v with
  | JNull => false
  | JBool b => b
  | JNum n => negb (n =? 0)%Z
  | JStr s => negb (String.eqb s "")
  | JArr items => match items with [] => false | _ => true end
  | JObj fields => match fields with [] => false | _ => true end
  end.

Definition is_obj (v : Json) : bool :=
  match v with JObj _ => true | _ => false end.

Definition is_str (v : Json) : bool :=
  match v with JStr _ => true | _ => false end.

Fixpoint dict_lookup (k : string) (fields : list (string * Json)) : option Json :=
  match fields with
  | [] => None
  | (k', v) :: rest => if String.eqb k k' then Some v else dict_lookup k rest
  end.

(** [d.get(k, dflt)]: the default is used only when the key is absent. *)
Definition dict_get (k : string) (fields : list (string * Json)) (dflt : Json) : Json :=
  match dict_lookup k fields with
  | Some v => v
  | None => dflt
  end.

(** ** Exception texts *)

(** [type(v).__name__] *)
Definition type_name (v : Json) : string :=
  match v with
  | JNull => "NoneType"
  | JBool _ => "bool"
  | JNum _ => "int"
  | JStr _ => "str"
  | JArr _ => "list"
  | JObj _ => "dict"
  end.

(** [str(e)] for the [AttributeError] of [v.attr]. *)
Definition no_attribute (v : Json) (attr : string) : string :=
  ("'" ++ type_name v ++ "' object has no attribute '" ++ attr ++ "'")%string.

(** [str(e)] for the [TypeError] of using [v] as a dict key. *)
Definition unhashable (v : Json) : string :=
  ("unhashable type: '" ++ type_name v ++ "'")%string.

(** [str(e)] for the [TypeError] of [v[i]]. *)
Definition not_subscriptable (v : Json) : string :=
  ("'" ++ type_name v ++ "' object is not subscriptable")%string.

(** [str(e)] for the [TypeError] of [for x in v]. *)
Definition not_iterable (v : Json) : string :=
  ("'" ++ type_name v ++ "' object is not iterable")%string.

(** The first element that is no dict. *)
Fixpoint first_non_obj (l : list Json) : option Json :=
  match l with
  | [] => None
  | v :: rest => if is_obj v then first_non_obj rest else Some v
  end.

(** ** Strings: [len], [strip], [startswith], [endswith], slices *)

(** A continuation byte of a multi-byte character: [10xxxxxx]. *)
Definition is_continuation (c : ascii) : bool :=
  let n := nat_of_ascii c in (128 <=? n) && (n <? 192).

(** [len(s)]: every character is counted at its first byte. *)
Fixpoint py_len (s : string) : nat :=
  match s with
  | EmptyString => 0
  | String c rest => (if is_continuation c then 0 else 1) + py_len rest
  end.

Definition nl : string := String (ascii_of_nat 10) EmptyString.

(** [str.isspace] on the ASCII range: TAB..CR, FS..US and the blank. *)
Definition is_space (c : ascii) : bool :=
  let n := nat_of_ascii c in
  ((9 <=? n) && (n <=? 13)) || ((28 <=? n) && (n <=? 32)).

(** [str.isspace] beyond ASCII, on the bytes of the character: U+0085
    and U+00A0 take two bytes; U+1680, U+2000..U+200A, U+2028, U+2029,
    U+202F, U+205F and U+3000 take three. *)
Definition is_space2 (c1 c2 : ascii) : bool :=
  let b1 := N_of_ascii c1 in
  let b2 := N_of_ascii c2 in
  ((b1 =? 194) && ((b2 =? 133) || (b2 =? 160)))%N.

Definition is_space3 (c1 c2 c3 : ascii) : bool :=
  let b1 := N_of_ascii c1 in
  let b2 := N_of_ascii c2 in
  let b3 := N_of_ascii c3 in
  (((b1 =? 225) && (b2 =? 154) && (b3 =? 128))
   || ((b1 =? 226) && (b2 =? 128)
       && (((128 <=? b3) && (b3 <=? 138)) || (b3 =? 168) || (b3 =? 169) || (b3 =? 175)))
   || ((b1 =? 226) && (b2 =? 129) && (b3 =? 159))
   || ((b1 =? 227) && (b2 =? 128) && (b3 =? 128)))%N.

(** Dropping leading white space; [sp2] and [sp3] recognise the
    multi-byte characters in the order the bytes are met. *)
Fixpoint lstrip_with (sp2 : ascii -> ascii -> bool) (sp3 : ascii -> ascii -> ascii -> bool)
    (l : list ascii) : list ascii :=
  match l with
  | [] => []
  | c1 :: rest1 =>
      if is_space c1 then lstrip_with sp2 sp3 rest1
      else
        match rest1 with
        | [] => l
        | c2 :: rest2 =>
            if sp2 c1 c2 then lstrip_with sp2 sp3 rest2
            else
              match rest2 with
              | [] => l
              | c3 :: rest3 => if sp3 c1 c2 c3 then lstrip_with sp2 sp3 rest3 else l
              end
        end
  end.

Definition lstrip_chars (l : list ascii) : list ascii :=
  lstrip_with is_space2 is_space3 l.

(** The same from the end, on the reversed bytes. *)
Definition lstrip_reversed (l : list ascii) : list ascii :=
  lstrip_with (fun c1 c2 => is_space2 c2 c1) (fun c1 c2 c3 => is_space3 c3 c2 c1) l.

Definition strip (s : string) : string :=
  string_of_list_ascii
    (rev (lstrip_reversed (rev (lstrip_chars (list_ascii_of_string s))))).

Definition startswith (s pre : string) : bool := String.prefix pre s.

Definition endswith (s suf : string) : bool :=
  (String.length suf <=? String.length s) &&
  String.eqb (String.substring (String.length s - String.length suf) (String.length suf) s) suf.

(** [s[n:]] and [s[:-n]] *)
Definition slice_from (n : nat) (s : string) : string :=
  String.substring n (String.length s - n) s.

Definition slice_to_minus (n : nat) (s : string) : string :=
  String.substring 0 (String.length s - n) s.

(** ** Data model of the summary service *)

(** [IssueUpdate].  The fields filled from the decoded record hold whatever
    value the record carries, hence [Json]. *)
Record IssueUpdate : Type := {
  issue_identifier : Json;
  issue_id : Json;
  issue_title : Json;
  status : Json;
  blockers : Json;
  dependencies : Json;
  estimate_days : Json;
  eta : Json;
  next_steps : Json;
  escalation_needed : Json;
  escalation_reason : Json;
  new_assignee_email : Json;
  transcript_snippet : Json
}.

(** One escalation entry of [escalations_created]. *)
Record Escalation : Type := {
  esc_identifier : Json;
  esc_id : Json;
  esc_url : Json;
  esc_original_issue : Json
}.

(** A transcript entry [{text, timestamp}]; a field may be absent. *)
Record Transcript : Type := {
  tr_text : option string;
  tr_timestamp : option Z
}.

Record Message : Type := {
  speaker : string;
  text : string;
  timestamp : Z
}.

Record SummaryResult : Type := {
  standup_id : string;
  total_updates : nat;
  linear_comments_posted : nat;
  escalations_created : list Escalation;
  slack_posted : bool;
  summary_text : string;
  issue_updates : list IssueUpdate;
  errors : list string
}.

(** External calls, as recorded in the trace. *)
Inductive Call : Type :=
| CallLLM (conversation : string) (known : list Json)
| CallLookup (identifier : Json)
| CallComment (target : Json) (body : string)
| CallEstimate (target : Json) (days : Json)
| CallEscalation (team : string) (parent : IssueUpdate)
| CallSummary (updates : list IssueUpdate) (team : string)
| CallSlack (channel : string) (updates : list IssueUpdate) (escalations : list Escalation).

(** The collaborators of the pipeline and the two library functions it
    relies on.  [get_issue_by_identifier] answers [Some (id, title)] for a
    found issue; [add_comment] answers the truth value of
    [result.get("success")]; [create_escalation_issue] answers the created
    issue's [(identifier, id, url)] when the reply reports success;
    [send_message] answers [result.get("ok", False)]. *)
Record Env (World : Type) : Type := {
  json_loads : string -> option Json;
  py_str : Json -> string;
  call_llm : string -> list Json -> World -> Outcome string * World;
  get_issue_by_identifier : Json -> World -> Outcome (option (Json * Json)) * World;
  generate_linear_comment : IssueUpdate -> Outcome string;
  add_comment : Json -> string -> World -> Outcome bool * World;
  update_issue_estimate : Json -> Json -> World -> Outcome unit * World;
  create_escalation_issue :
    string -> IssueUpdate -> World -> Outcome (option (Json * Json * Json)) * World;
  generate_standup_summary : list IssueUpdate -> string -> World -> Outcome string * World;
  send_message :
    string -> list IssueUpdate -> list Escalation -> World -> Outcome bool * World;
  render_fallback : list IssueUpdate -> string
}.
Arguments json_loads {World} _ _.
Arguments py_str {World} _ _.
Arguments call_llm {World} _ _ _ _.
Arguments get_issue_by_identifier {World} _ _ _.
Arguments generate_linear_comment {World} _ _.
Arguments add_comment {World} _ _ _ _.
Arguments update_issue_estimate {World} _ _ _ _.
Arguments create_escalation_issue {World} _ _ _ _.
Arguments generate_standup_summary {World} _ _ _ _.
Arguments send_message {World} _ _ _ _ _.
Arguments render_fallback {World} _ _.

(** The state threaded through a run: the collaborators' world and the
    calls made so far, oldest first. *)
Record St (World : Type) : Type := {
  world : World;
  trace : list Call
}.
Arguments world {World} _.
Arguments trace {World} _.

(** The locals [errors], [escalations_created], [linear_comments]. *)
Record Acc : Type := {
  acc_errors : list string;
  acc_escalations : list Escalation;
  acc_comments : nat
}.

Definition acc0 : Acc :=
  {| acc_errors := []; acc_escalations := []; acc_comments := 0 |}.

Definition add_error (msg : string) (a : Acc) : Acc :=
  {| acc_errors := acc_errors a ++ [msg];
     acc_escalations := acc_escalations a;
     acc_comments := acc_comments a |}.

Definition add_escalation (e : Escalation) (a : Acc) : Acc :=
  {| acc_errors := acc_errors a;
     acc_escalations := acc_escalations a ++ [e];
     acc_comments := acc_comments a |}.

Definition bump_comments (a : Acc) : Acc :=
  {| acc_errors := acc_errors a;
     acc_escalations := acc_escalations a;
     acc_comments := S (acc_comments a) |}.

(** ** [StandupSummaryService._format_conversation] *)

Definition user_message (t : Transcript) : Message :=
  {| speaker := "Developer";
     text := match tr_text t with Some s => s | None => "" end;
     timestamp := match tr_timestamp t with Some z => z | None => 0%Z end |}.

Definition agent_message (t : Transcript) : Message :=
  {| speaker := "AI Moderator";
     text := match tr_text t with Some s => s | None => "" end;
     timestamp := match tr_timestamp t with Some z => z | None => 0%Z end |}.

(** [list.sort(key=...)] is stable: an entry goes before the first entry
    whose key is not smaller. *)
Fixpoint insert_by_timestamp (m : Message) (l : list Message) : list Message :=
  match l with
  | [] => [m]
  | x :: rest =>
      if (timestamp m <=? timestamp x)%Z then m :: l
      else x :: insert_by_timestamp m rest
  end.

Definition sort_by_timestamp (l : list Message) : list Message :=
  fold_right insert_by_timestamp [] l.

Definition message_line (m : Message) : string :=
  (speaker m ++ ": " ++ text m)%string.

Definition _format_conversation (user_transcripts agent_transcripts : list Transcript) : string :=
  let all_messages := map user_message user_transcripts ++ map agent_message agent_transcripts in
  let sorted := sort_by_timestamp all_messages in
  let lines := map message_line (filter (fun m => negb (String.eqb (text m) "")) sorted) in
  String.concat nl lines.

(** ** [StandupSummaryService._extract_issue_updates] *)

(** The response clean-up that precedes [json.loads]. *)
Definition clean_response (response : string) : string :=
  let r := strip response in
  let r := if startswith r "```json" then slice_from 7 r else r in
  let r := if startswith r "```" then slice_from 3 r else r in
  let r := if endswith r "```" then slice_to_minus 3 r else r in
  strip r.

(** The [IssueUpdate(...)] built from one decoded record; [None] stands for
    the [AttributeError] of [data.get] on a value that is no dict. *)
Definition make_update (data : Json) : option IssueUpdate :=
  match data with
  | JObj d =>
      Some {| issue_identifier := dict_get "issue_identifier" d (JStr "UNKNOWN");
              issue_id := JNull;
              issue_title := JNull;
              status := dict_get "status" d (JStr "progressing");
              blockers := dict_get "blockers" d JNull;
              dependencies := dict_get "dependencies" d JNull;
              estimate_days := dict_get "estimate_days" d JNull;
              eta := dict_get "eta" d JNull;
              next_steps := dict_get "next_steps" d JNull;
              escalation_needed := dict_get "escalation_needed" d (JBool false);
              escalation_reason := dict_get "escalation_reason" d JNull;
              new_assignee_email := JNull;
              transcript_snippet := dict_get "transcript_snippet" d JNull |}
  | _ => None
  end.

Fixpoint make_updates (items : list Json) : option (list IssueUpdate) :=
  match items with
  | [] => Some []
  | data :: rest =>
      match make_update data with
      | Some u =>
          match make_updates rest with
          | Some us => Some (u :: us)
          | None => None
          end
      | None => None
      end
  end.

(** [len(updates_data)] followed by the conversion loop; [None] when either
    raises.  Iterating a dict yields its keys and iterating a string its
    characters, on which [.get] fails; numbers, booleans and [None] have no
    [len]. *)
Definition updates_of_json (updates_data : Json) : option (list IssueUpdate) :=
  match updates_data with
  | JArr items => make_updates items
  | JObj [] => Some []
  | JStr EmptyString => Some []
  | _ => None
  end.

(** The status of the first update whose status is no string. *)
Fixpoint first_non_str_status (updates : list IssueUpdate) : option Json :=
  match updates with
  | [] => None
  | u :: rest => if is_str (status u) then first_non_str_status rest else Some (status u)
  end.

Section Pipeline.
Context {World : Type} (E : Env World).

(** One recorded collaborator call. *)
Definition call {A : Type} (c : Call) (f : World -> Outcome A * World)
    (st : St World) : Outcome A * St World :=
  let (r, w) := f (world st) in
  (r, {| world := w; trace := trace st ++ [c] |}).

(** The known-issue lines are formatted before the [try]: the first
    entry that is no dict raises out of the function ([i.get]).  Everything from the backend
    call to the conversion loop sits inside the [try], whose handler
    logs and returns the empty list. *)
Definition _extract_issue_updates (conversation : string) (known_issues : list Json)
    (st : St World) : Outcome (list IssueUpdate) * St World :=
  match first_non_obj known_issues with
  | None =>
      match call (CallLLM conversation known_issues)
                 (call_llm E conversation known_issues) st with
      | (Ok response, st1) =>
          match json_loads E (clean_response response) with
          | Some updates_data =>
              match updates_of_json updates_data with
              | Some updates => (Ok updates, st1)
              | None => (Ok [], st1)
              end
          | None => (Ok [], st1)
          end
      | (Raise _, st1) => (Ok [], st1)
      end
  | Some i => (Raise (no_attribute i "get"), st)
  end.

(** ** Step 3 of [process_session_end]: one update *)

(** [str(x)] inside an f-string. *)
Definition fmt (v : Json) : string :=
  match v with
  | JStr s => s
  | _ => py_str E v
  end.

Definition error_entry (u : IssueUpdate) (e : string) : string :=
  ("Error processing " ++ fmt (issue_identifier u) ++ ": " ++ e)%string.

Definition with_issue (u : IssueUpdate) (id title : Json) : IssueUpdate :=
  {| issue_identifier := issue_identifier u;
     issue_id := id;
     issue_title := title;
     status := status u;
     blockers := blockers u;
     dependencies := dependencies u;
     estimate_days := estimate_days u;
     eta := eta u;
     next_steps := next_steps u;
     escalation_needed := escalation_needed u;
     escalation_reason := escalation_reason u;
     new_assignee_email := new_assignee_email u;
     transcript_snippet := transcript_snippet u |}.

(** Lines 118-122: resolve the handle when it is missing. *)
Definition resolve_issue (u : IssueUpdate) (st : St World)
    : Outcome IssueUpdate * St World :=
  if negb (truthy (issue_id u)) && truthy (issue_identifier u) then
    match call (CallLookup (issue_identifier u))
               (get_issue_by_identifier E (issue_identifier u)) st with
    | (Ok (Some (id, title)), st1) => (Ok (with_issue u id title), st1)
    | (Ok None, st1) => (Ok u, st1)
    | (Raise e, st1) => (Raise e, st1)
    end
  else (Ok u, st).

(** [_create_escalation]: the entry returned when the reply succeeds. *)
Definition _create_escalation (team_id : string) (parent_issue : IssueUpdate)
    (st : St World) : Outcome (option Escalation) * St World :=
  match call (CallEscalation team_id parent_issue)
             (create_escalation_issue E team_id parent_issue) st with
  | (Ok (Some (identifier, id, url)), st1) =>
      (Ok (Some {| esc_identifier := identifier; esc_id := id; esc_url := url;
                   esc_original_issue := issue_identifier parent_issue |}), st1)
  | (Ok None, st1) => (Ok None, st1)
  | (Raise e, st1) => (Raise e, st1)
  end.

(** Lines 139-147. *)
Definition escalate (team_id : string) (u : IssueUpdate) (a : Acc) (st : St World)
    : Outcome Acc * St World :=
  if truthy (escalation_needed u) then
    match _create_escalation team_id u st with
    | (Ok (Some esc), st1) => (Ok (add_escalation esc a), st1)
    | (Ok None, st1) => (Ok a, st1)
    | (Raise e, st1) => (Raise e, st1)
    end
  else (Ok a, st).

(** Lines 132-137, then the escalation. *)
Definition estimate_then_escalate (team_id : string) (u : IssueUpdate) (a : Acc)
    (st : St World) : Outcome Acc * St World :=
  if truthy (estimate_days u) then
    match call (CallEstimate (issue_id u) (estimate_days u))
               (update_issue_estimate E (issue_id u) (estimate_days u)) st with
    | (Ok _, st1) => escalate team_id u a st1
    | (Raise e, st1) => (Raise e, st1)
    end
  else escalate team_id u a st.

(** Lines 124-147: comment, estimate, escalation.  A raise leaves the
    accumulator as it was when the raise happened. *)
Definition dispatch_update (team_id : string) (u : IssueUpdate) (a : Acc) (st : St World)
    : Acc * option string * St World :=
  if truthy (issue_id u) then
    match generate_linear_comment E u with
    | Ok comment =>
        match call (CallComment (issue_id u) comment)
                   (add_comment E (issue_id u) comment) st with
        | (Ok success, st1) =>
            let a1 := if success then bump_comments a else a in
            match estimate_then_escalate team_id u a1 st1 with
            | (Ok a2, st2) => (a2, None, st2)
            | (Raise e, st2) => (a1, Some e, st2)
            end
        | (Raise e, st1) => (a, Some e, st1)
        end
    | Raise e => (a, Some e, st)
    end
  else (a, None, st).

(** The body of the [for] loop with its [try]/[except]: the update as the
    loop leaves it (the handle assignment is kept even when a later step
    raises), the accumulator and the state. *)
Definition process_update (team_id : string) (u : IssueUpdate) (a : Acc) (st : St World)
    : IssueUpdate * Acc * St World :=
  match resolve_issue u st with
  | (Ok u1, st1) =>
      match dispatch_update team_id u1 a st1 with
      | (a1, None, st2) => (u1, a1, st2)
      | (a1, Some e, st2) => (u1, add_error (error_entry u1 e) a1, st2)
      end
  | (Raise e, st1) => (u, add_error (error_entry u e) a, st1)
  end.

Fixpoint process_updates (team_id : string) (us : list IssueUpdate) (a : Acc) (st : St World)
    : list IssueUpdate * Acc * St World :=
  match us with
  | [] => ([], a, st)
  | u :: rest =>
      let '(u1, a1, st1) := process_update team_id u a st in
      let '(rest1, a2, st2) := process_updates team_id rest a1 st1 in
      (u1 :: rest1, a2, st2)
  end.

(** ** Steps 4 and 5: summary text and digest *)

(** [_generate_fallback_summary]: the first status that is no string
    raises, as a dict key when it is a list or a dict, else at
    [status.title()]. *)
Definition _generate_fallback_summary (updates : list IssueUpdate) : Outcome string :=
  match updates with
  | [] => Ok "Standup completed. No specific issue updates were captured."
  | _ =>
      match first_non_str_status updates with
      | None => Ok (render_fallback E updates)
      | Some (JArr items) => Raise (unhashable (JArr items))
      | Some (JObj fields) => Raise (unhashable (JObj fields))
      | Some v => Raise (no_attribute v "title")
      end
  end.

(** [_post_slack_summary]: the digest lines are built first (the default
    argument [update.status.title()] is evaluated for every update, and
    raises at the first status that is no string), then the message is
    sent. *)
Definition _post_slack_summary (channel_id : string) (updates : list IssueUpdate)
    (escalations : list Escalation) (st : St World) : Outcome bool * St World :=
  match first_non_str_status updates with
  | None =>
      call (CallSlack channel_id updates escalations)
           (send_message E channel_id updates escalations) st
  | Some v => (Raise (no_attribute v "title"), st)
  end.

Definition too_short_result (sid : string) : SummaryResult :=
  {| standup_id := sid;
     total_updates := 0;
     linear_comments_posted := 0;
     escalations_created := [];
     slack_posted := false;
     summary_text := "Conversation was too short to extract meaningful updates.";
     issue_updates := [];
     errors := ["Conversation too short"] |}.

(** Step 2 with its handler. *)
Definition extract_step (conversation : string) (issues_discussed : list Json)
    (st : St World) : list IssueUpdate * Acc * St World :=
  match _extract_issue_updates conversation issues_discussed st with
  | (Ok updates, st1) => (updates, acc0, st1)
  | (Raise e, st1) => ([], add_error ("Extraction error: " ++ e)%string acc0, st1)
  end.

(** Step 4 with its handler; the fallback runs inside the handler, so a
    raise of the fallback leaves [process_session_end]. *)
Definition summary_step (updates : list IssueUpdate) (team_id : string) (a : Acc)
    (st : St World) : Outcome (string * Acc) * St World :=
  match call (CallSummary updates team_id) (generate_standup_summary E updates team_id) st with
  | (Ok summary, st1) => (Ok (summary, a), st1)
  | (Raise e, st1) =>
      match _generate_fallback_summary updates with
      | Ok summary => (Ok (summary, add_error ("Summary generation error: " ++ e)%string a), st1)
      | Raise e' => (Raise e', st1)
      end
  end.

(** Step 5 with its handler. *)
Definition slack_step (slack_channel_id : string) (updates : list IssueUpdate) (a : Acc)
    (st : St World) : bool * Acc * St World :=
  if negb (String.eqb slack_channel_id "") then
    match _post_slack_summary slack_channel_id updates (acc_escalations a) st with
    | (Ok posted, st1) => (posted, a, st1)
    | (Raise e, st1) => (false, add_error ("Slack error: " ++ e)%string a, st1)
    end
  else (false, a, st).

(** ** [StandupSummaryService.process_session_end] *)
Definition process_session_end (sid : string)
    (user_transcripts agent_transcripts : list Transcript)
    (team_id slack_channel_id : string) (issues_discussed : list Json)
    (st : St World) : Outcome SummaryResult * St World :=
  let conversation := _format_conversation user_transcripts agent_transcripts in
  if py_len conversation <? 50 then (Ok (too_short_result sid), st)
  else
    let '(extracted, a0, st1) := extract_step conversation issues_discussed st in
    let '(updates, a1, st2) := process_updates team_id extracted a0 st1 in
    match summary_step updates team_id a1 st2 with
    | (Raise e, st3) => (Raise e, st3)
    | (Ok (summary, a2), st3) =>
        let '(posted, a3, st4) := slack_step slack_channel_id updates a2 st3 in
        (Ok {| standup_id := sid;
               total_updates := length updates;
               linear_comments_posted := acc_comments a3;
               escalations_created := acc_escalations a3;
               slack_posted := posted;
               summary_text := summary;
               issue_updates := updates;
               errors := acc_errors a3 |}, st4)
    end.
End Pipeline.

(** ** The upstream handler ([ElevenLabsVoiceHandler]) *)

Definition Bytes : Type := list Byte.byte.

(** One outbound audio message: which of the four wire shapes of
    [variants] it uses, and the PCM bytes it carries (base64 and JSON
    encoding are injective and left out). *)
Record Payload : Type := {
  variant : nat;
  audio : Bytes
}.

(** A callback is known by its name; invoking it is recorded. *)
Definition Callback : Type := nat.

(** What a callback is handed. *)
Inductive EventData : Type :=
| EvJson (j : Json)
| EvAudio (pcm : Bytes)
| EvText (s : string).

Record Handler : Type := {
  is_connected : bool;
  websocket : bool;
  _conversation_ready : bool;
  response_callbacks : gmap string Callback;
  _pcm_buffer : Bytes;
  _flush_bytes : nat;
  _last_flush : Z;
  _pending_audio_before_ready : list Bytes;
  _successful_payload_format : option nat
}.

(** The handler as [__init__] leaves it, at clock reading [t]. *)
Definition new_handler (t : Z) : Handler :=
  {| is_connected := false;
     websocket := false;
     _conversation_ready := false;
     response_callbacks := ∅;
     _pcm_buffer := [];
     _flush_bytes := 3200;
     _last_flush := t;
     _pending_audio_before_ready := [];
     _successful_payload_format := None |}.

(** The outside of a session: the upstream socket, the client transport
    and the clock.  [ws_send] and [client_send] answer [false] when the
    send raises; [ws_connect] stands for the whole handshake of [connect]
    (signed URL, socket, initialisation message, listener task); [sleep]
    is [asyncio.sleep(0.05)], during which the listener task may receive
    the readiness event ([Some metadata]).  [sleep_advances] is the one law
    assumed of the clock. *)
Record Upstream (World : Type) : Type := {
  ws_send : Payload -> World -> bool * World;
  ws_connect : World -> bool * World;
  client_send : Json -> World -> bool * World;
  now : World -> Z;
  sleep : World -> option Json * World;
  sleep_advances : forall w, (now w + 50 <= now (snd (sleep w)))%Z
}.
Arguments ws_send {World} _ _ _.
Arguments ws_connect {World} _ _.
Arguments client_send {World} _ _ _.
Arguments now {World} _ _.
Arguments sleep {World} _ _.
Arguments sleep_advances {World} _ _.

(** The state threaded through handler and session code: the world, every
    upstream send attempted (with its success), every callback invoked,
    every message handed to the client transport (with its success). *)
Record USt (World : Type) : Type := {
  u_world : World;
  u_sent : list (Payload * bool);
  u_invoked : list (Callback * EventData);
  u_outbox : list (Json * bool)
}.
Arguments u_world {World} _.
Arguments u_sent {World} _.
Arguments u_invoked {World} _.
Arguments u_outbox {World} _.

Definition set_connected (b : bool) (h : Handler) : Handler :=
  {| is_connected := b;
     websocket := websocket h;
     _conversation_ready := _conversation_ready h;
     response_callbacks := response_callbacks h;
     _pcm_buffer := _pcm_buffer h;
     _flush_bytes := _flush_bytes h;
     _last_flush := _last_flush h;
     _pending_audio_before_ready := _pending_audio_before_ready h;
     _successful_payload_format := _successful_payload_format h |}.

Definition set_format (f : option nat) (h : Handler) : Handler :=
  {| is_connected := is_connected h;
     websocket := websocket h;
     _conversation_ready := _conversation_ready h;
     response_callbacks := response_callbacks h;
     _pcm_buffer := _pcm_buffer h;
     _flush_bytes := _flush_bytes h;
     _last_flush := _last_flush h;
     _pending_audio_before_ready := _pending_audio_before_ready h;
     _successful_payload_format := f |}.

Definition set_buffer (b : Bytes) (h : Handler) : Handler :=
  {| is_connected := is_connected h;
     websocket := websocket h;
     _conversation_ready := _conversation_ready h;
     response_callbacks := response_callbacks h;
     _pcm_buffer := b;
     _flush_bytes := _flush_bytes h;
     _last_flush := _last_flush h;
     _pending_audio_before_ready := _pending_audio_before_ready h;
     _successful_payload_format := _successful_payload_format h |}.

Definition set_pending (p : list Bytes) (h : Handler) : Handler :=
  {| is_connected := is_connected h;
     websocket := websocket h;
     _conversation_ready := _conversation_ready h;
     response_callbacks := response_callbacks h;
     _pcm_buffer := _pcm_buffer h;
     _flush_bytes := _flush_bytes h;
     _last_flush := _last_flush h;
     _pending_audio_before_ready := p;
     _successful_payload_format := _successful_payload_format h |}.

Definition set_last_flush (t : Z) (h : Handler) : Handler :=
  {| is_connected := is_connected h;
     websocket := websocket h;
     _conversation_ready := _conversation_ready h;
     response_callbacks := response_callbacks h;
     _pcm_buffer := _pcm_buffer h;
     _flush_bytes := _flush_bytes h;
     _last_flush := t;
     _pending_audio_before_ready := _pending_audio_before_ready h;
     _successful_payload_format := _successful_payload_format h |}.

Definition set_ready (b : bool) (h : Handler) : Handler :=
  {| is_connected := is_connected h;
     websocket := websocket h;
     _conversation_ready := b;
     response_callbacks := response_callbacks h;
     _pcm_buffer := _pcm_buffer h;
     _flush_bytes := _flush_bytes h;
     _last_flush := _last_flush h;
     _pending_audio_before_ready := _pending_audio_before_ready h;
     _successful_payload_format := _successful_payload_format h |}.

Definition set_socket (b : bool) (h : Handler) : Handler :=
  {| is_connected := is_connected h;
     websocket := b;
     _conversation_ready := _conversation_ready h;
     response_callbacks := response_callbacks h;
     _pcm_buffer := _pcm_buffer h;
     _flush_bytes := _flush_bytes h;
     _last_flush := _last_flush h;
     _pending_audio_before_ready := _pending_audio_before_ready h;
     _successful_payload_format := _successful_payload_format h |}.

(** [register_callback]: a dict assignment. *)
Definition register_callback (event : string) (cb : Callback) (h : Handler) : Handler :=
  {| is_connected := is_connected h;
     websocket := websocket h;
     _conversation_ready := _conversation_ready h;
     response_callbacks := <[event := cb]> (response_callbacks h);
     _pcm_buffer := _pcm_buffer h;
     _flush_bytes := _flush_bytes h;
     _last_flush := _last_flush h;
     _pending_audio_before_ready := _pending_audio_before_ready h;
     _successful_payload_format := _successful_payload_format h |}.

(** The four payload shapes, in probing order. *)
Definition variants (pcm16 : Bytes) : list Payload :=
  [ {| variant := 0; audio := pcm16 |};
    {| variant := 1; audio := pcm16 |};
    {| variant := 2; audio := pcm16 |};
    {| variant := 3; audio := pcm16 |} ].

(** "Ensure even byte length". *)
Definition pad_even (pcm16 : Bytes) : Bytes :=
  if Nat.odd (length pcm16) then pcm16 ++ [Byte.x00] else pcm16.

Section UpstreamHandler.
Context {World : Type} (U : Upstream World).

(** One [websocket.send] towards the upstream, recorded. *)
Definition send (p : Payload) (st : USt World) : bool * USt World :=
  let (ok, w) := ws_send U p (u_world st) in
  (ok, {| u_world := w; u_sent := u_sent st ++ [(p, ok)];
          u_invoked := u_invoked st; u_outbox := u_outbox st |}).

(** One [send_json] towards the client, recorded. *)
Definition to_client (m : Json) (st : USt World) : bool * USt World :=
  let (ok, w) := client_send U m (u_world st) in
  (ok, {| u_world := w; u_sent := u_sent st;
          u_invoked := u_invoked st; u_outbox := u_outbox st ++ [(m, ok)] |}).

(** [_notify]: look the callback up, invoke it if there is one; what the
    callback raises is swallowed. *)
Definition _notify (event : string) (payload : EventData) (h : Handler) (st : USt World)
    : USt World :=
  match response_callbacks h !! event with
  | Some cb =>
      {| u_world := u_world st; u_sent := u_sent st;
         u_invoked := u_invoked st ++ [(cb, payload)]; u_outbox := u_outbox st |}
  | None => st
  end.

(** The probing loop of [_send_chunk], from candidate [idx] on: the first
    candidate that is sent is cached; a failure of the last one is
    re-raised into the outer handler, which marks the connection dead. *)
Fixpoint try_variants (idx : nat) (vs : list Payload) (h : Handler) (st : USt World)
    : Handler * USt World :=
  match vs with
  | [] => (h, st)
  | p :: rest =>
      match send p st with
      | (true, st1) => (set_format (Some idx) h, st1)
      | (false, st1) =>
          match rest with
          | [] => (set_connected false h, st1)
          | _ => try_variants (S idx) rest h st1
          end
      end
  end.

Definition _send_chunk (pcm16 : Bytes) (h : Handler) (st : USt World)
    : Handler * USt World :=
  if negb (websocket h && is_connected h) then (h, st)
  else
    match pcm16 with
    | [] => (h, st)
    | _ =>
        let vs := variants (pad_even pcm16) in
        match _successful_payload_format h with
        | Some k =>
            match nth_error vs k with
            | Some payload =>
                match send payload st with
                | (true, st1) => (h, st1)
                | (false, st1) => try_variants 0 vs (set_format None h) st1
                end
            | None => try_variants 0 vs (set_format None h) st
            end
        | None => try_variants 0 vs h st
        end
    end.

Definition flush (h : Handler) (st : USt World) : Handler * USt World :=
  match _pcm_buffer h with
  | [] => (h, st)
  | chunk =>
      let (h1, st1) := _send_chunk chunk (set_buffer [] h) st in
      (set_last_flush (now U (u_world st1)) h1, st1)
  end.

(** [pending.append(pcm16)], then [pop(0)] once more than ten are held. *)
Definition push_pending (pcm16 : Bytes) (pending : list Bytes) : list Bytes :=
  let pending := pending ++ [pcm16] in
  if 10 <? length pending then tl pending else pending.

Definition queue_pcm (pcm16 : Bytes) (h : Handler) (st : USt World)
    : Handler * USt World :=
  if negb (is_connected h) || (match pcm16 with [] => true | _ => false end) then (h, st)
  else if negb (_conversation_ready h) then
    (set_pending (push_pending pcm16 (_pending_audio_before_ready h)) h, st)
  else
    let h1 := set_buffer (_pcm_buffer h ++ pcm16) h in
    let buffer_size := length (_pcm_buffer h1) in
    let time_since_flush := (now U (u_world st) - _last_flush h1)%Z in
    if (_flush_bytes h1 <=? buffer_size) || (100 <? time_since_flush)%Z
    then flush h1 st
    else (h1, st).

(** The [conversation_initiation_metadata] branch of [_handle_event]. *)
Definition on_ready (metadata : Json) (h : Handler) (st : USt World) : Handler * USt World :=
  let st1 := _notify "status" (EvJson metadata) h st in
  if _conversation_ready h then (h, st1)
  else
    let h1 := set_ready true h in
    match _pending_audio_before_ready h1 with
    | [] => (h1, st1)
    | pending =>
        let h2 := set_buffer (_pcm_buffer h1 ++ concat pending) h1 in
        flush (set_pending [] h2) st1
    end.

(** [connect]: nothing to do when already connected. *)
Definition connect (h : Handler) (st : USt World) : bool * Handler * USt World :=
  if is_connected h && websocket h then (true, h, st)
  else
    let (ok, w) := ws_connect U (u_world st) in
    let st1 := {| u_world := w; u_sent := u_sent st;
                  u_invoked := u_invoked st; u_outbox := u_outbox st |} in
    if ok then (true, set_connected true (set_socket true h), st1)
    else (false, set_connected false h, st1).

(** The readiness wait of [start_conversation]: poll the flag, sleep
    50 ms, give up once 5 s have passed since [start].  While the caller
    sleeps the listener task may handle the readiness event.  [fuel]
    bounds the number of polls; [None] is a model that ran out of it. *)
Fixpoint wait_ready (fuel : nat) (start : Z) (h : Handler) (st : USt World)
    : option (bool * Handler * USt World) :=
  match fuel with
  | O => None
  | S fuel' =>
      if (now U (u_world st) - start <? 5000)%Z then
        if _conversation_ready h then Some (true, h, st)
        else
          let (arrived, w) := sleep U (u_world st) in
          let st1 := {| u_world := w; u_sent := u_sent st;
                        u_invoked := u_invoked st; u_outbox := u_outbox st |} in
          let (h1, st2) :=
            match arrived with
            | Some metadata => on_ready metadata h st1
            | None => (h, st1)
            end in
          wait_ready fuel' start h1 st2
      else Some (false, h, st)
  end.

(** Polls that fit into five seconds of 50 ms sleeps, and one more. *)
Definition poll_fuel : nat := 101.

(** [ElevenLabsVoiceHandler.start_conversation] *)
Definition start_conversation (h : Handler) (st : USt World)
    : option (bool * Handler * USt World) :=
  let '(connected, h1, st1) :=
    if negb (is_connected h) then connect h st else (true, h, st) in
  if negb connected then Some (false, h1, st1)
  else wait_ready poll_fuel (now U (u_world st1)) h1 st1.
End UpstreamHandler.

(** ** Upstream events ([_handle_event], [_listen]) *)

(** [k in d] *)
Definition has_key (k : string) (d : list (string * Json)) : bool :=
  match dict_lookup k d with Some _ => true | None => false end.

(** [x or d] *)
Definition py_or (x d : Json) : Json := if truthy x then x else d.

(** [evt_type == name] *)
Definition type_is (name : string) (d : list (string * Json)) : bool :=
  match dict_get "type" d JNull with
  | JStr t => String.eqb t name
  | _ => false
  end.

(** A decoded value as a callback receives it: a [str] as text. *)
Definition payload_of (v : Json) : EventData :=
  match v with
  | JStr s => EvText s
  | _ => EvJson v
  end.

(** The characters of a [str]: each byte that starts an encoding, with
    the continuation bytes after it. *)
Fixpoint utf8_chars (s : string) : list string :=
  match s with
  | EmptyString => []
  | String c rest =>
      let chars := utf8_chars rest in
      match rest with
      | String d _ =>
          if is_continuation d then
            match chars with
            | x :: xs => String c x :: xs
            | [] => [String c EmptyString]
            end
          else String c EmptyString :: chars
      | EmptyString => [String c EmptyString]
      end
  end.

(** [for x in v]: a list yields its items, a dict its keys, a string its
    characters; nothing else can be iterated. *)
Definition py_iter (v : Json) : Outcome (list Json) :=
  match v with
  | JArr items => Ok items
  | JObj fields => Ok (map (fun kv => JStr (fst kv)) fields)
  | JStr s => Ok (map JStr (utf8_chars s))
  | _ => Raise (not_iterable v)
  end.

(** One [_notify] call to come: the event name and the payload. *)
Definition Notification : Type := (string * EventData)%type.

(** The notifications of a run of steps, up to the first step that
    raises: the handler of [_handle_event] ends the method there. *)
Fixpoint until_raise (steps : list (Outcome (list Notification))) : list Notification :=
  match steps with
  | [] => []
  | Ok ns :: rest => ns ++ until_raise rest
  | Raise _ :: _ => []
  end.

Section UpstreamEvents.
Context {World : Type} (U : Upstream World) (b64decode : string -> option Bytes).

(** Lines 266-273: where the audio is looked for. *)
Definition audio_b64_of (data : list (string * Json)) : Outcome Json :=
  if has_key "audio_event" data then
    match dict_get "audio_event" data JNull with
    | JObj ev =>
        Ok (py_or (dict_get "audio_base64" ev JNull)
              (py_or (dict_get "audio" ev JNull) (dict_get "audio_base_64" ev JNull)))
    | ev => Raise (no_attribute ev "get")
    end
  else if has_key "audio_base64" data then Ok (dict_get "audio_base64" data JNull)
  else if has_key "audio" data && is_str (dict_get "audio" data JNull)
  then Ok (dict_get "audio" data JNull)
  else Ok JNull.

(** Lines 275-281: decoding sits in a [try] of its own. *)
Definition audio_step (data : list (string * Json)) : Outcome (list Notification) :=
  match audio_b64_of data with
  | Ok (JStr s) =>
      if truthy (JStr s) then
        match b64decode s with
        | Some pcm => Ok [("audio_response"%string, EvAudio pcm)]
        | None => Ok []
        end
      else Ok []
  | Ok _ => Ok []
  | Raise e => Raise e
  end.

(** Lines 284-292.  The log line slices the text, which only a string
    or a list allows: a dict refuses the slice as a key, anything else
    the subscript. *)
Definition text_step (data : list (string * Json)) : Outcome (list Notification) :=
  if has_key "agent_response_event" data then
    match dict_get "agent_response_event" data JNull with
    | JObj ev =>
        let text := py_or (dict_get "agent_response" ev JNull) (dict_get "text" ev JNull) in
        if truthy text then
          match text with
          | JStr _ | JArr _ => Ok [("text_response"%string, payload_of text)]
          | JObj _ => Raise "unhashable type: 'slice'"
          | _ => Raise (not_subscriptable text)
          end
        else Ok []
    | ev => Raise (no_attribute ev "get")
    end
  else
    match dict_get "text" data JNull with
    | JStr s => Ok [("text_response"%string, EvText s)]
    | _ => Ok []
    end.

(** Lines 295-296. *)
Definition ping_step (data : list (string * Json)) : Outcome (list Notification) :=
  if type_is "ping" data then Ok [("ping"%string, EvJson (JObj data))] else Ok [].

(** Lines 299-309. *)
Definition user_step (data : list (string * Json)) : Outcome (list Notification) :=
  let user_text :=
    if has_key "user_transcript" data then Ok (dict_get "user_transcript" data JNull)
    else if has_key "user_transcription_event" data then
      match dict_get "user_transcription_event" data JNull with
      | JObj ev => Ok (py_or (dict_get "user_transcript" ev JNull) (dict_get "text" ev JNull))
      | ev => Raise (no_attribute ev "get")
      end
    else if type_is "user_transcript" data
    then Ok (py_or (dict_get "text" data JNull) (dict_get "transcript" data JNull))
    else Ok JNull in
  match user_text with
  | Ok v => if truthy v then Ok [("user_transcript"%string, payload_of v)] else Ok []
  | Raise e => Raise e
  end.

Definition tool_calls_of (v : Json) : Outcome (list Notification) :=
  match py_iter v with
  | Ok items => Ok (map (fun x => ("tool_call"%string, payload_of x)) items)
  | Raise e => Raise e
  end.

(** Lines 312-329.  The last branch is only reached with a dict: on
    anything else the text step has raised already. *)
Definition tool_step (data : list (string * Json)) : Outcome (list Notification) :=
  if has_key "tool_call" data
  then Ok [("tool_call"%string, payload_of (dict_get "tool_call" data JNull))]
  else if has_key "tool_calls" data then tool_calls_of (dict_get "tool_calls" data JNull)
  else if has_key "function_call" data
  then Ok [("tool_call"%string, payload_of (dict_get "function_call" data JNull))]
  else if has_key "function_calls" data then tool_calls_of (dict_get "function_calls" data JNull)
  else if has_key "agent_response_event" data then
    match dict_get "agent_response_event" data JNull with
    | JObj agent_event =>
        if has_key "tool_call" agent_event
        then Ok [("tool_call"%string, payload_of (dict_get "tool_call" agent_event JNull))]
        else if has_key "tool_calls" agent_event
        then tool_calls_of (dict_get "tool_calls" agent_event JNull)
        else Ok []
    | agent_event => Raise (no_attribute agent_event "get")
    end
  else Ok [].

(** Lines 332-333. *)
Definition error_step (data : list (string * Json)) : Outcome (list Notification) :=
  if has_key "error" data
  then Ok [("error"%string, payload_of (dict_get "error" data JNull))]
  else Ok [].

(** What an event other than the readiness event notifies, in order. *)
Definition notifications (data : list (string * Json)) : list Notification :=
  until_raise [audio_step data; text_step data; ping_step data;
               user_step data; tool_step data; error_step data].

Definition notify_all (ns : list Notification) (h : Handler) (st : USt World) : USt World :=
  fold_left (fun st n => _notify (fst n) (snd n) h st) ns st.

(** [ElevenLabsVoiceHandler._handle_event]: the whole body sits in a
    [try]; on a value without [.get] the first line raises. *)
Definition _handle_event (data : Json) (h : Handler) (st : USt World)
    : Handler * USt World :=
  match data with
  | JObj d =>
      if type_is "conversation_initiation_metadata" d then on_ready U data h st
      else (h, notify_all (notifications d) h st)
  | _ => (h, st)
  end.

(** One frame of the listener's loop. *)
Definition on_frame (json_loads : string -> option Json) (raw : string)
    (hs : Handler * USt World) : Handler * USt World :=
  match json_loads raw with
  | Some data => _handle_event data (fst hs) (snd hs)
  | None => hs
  end.

(** [ElevenLabsVoiceHandler._listen] over the text frames received until
    the socket closes; the [finally] clause marks the handler
    disconnected. *)
Definition _listen (json_loads : string -> option Json) (frames : list string)
    (h : Handler) (st : USt World) : Handler * USt World :=
  if negb (websocket h) then (h, st)
  else
    let (h1, st1) := fold_left (fun hs raw => on_frame json_loads raw hs) frames (h, st) in
    (set_connected false h1, st1).
End UpstreamEvents.

(** ** The bridge ([JitsiElevenLabsBridge]) *)

Record Bridge : Type := {
  handler : Handler;
  _started : bool
}.

Definition has_started (b : Bridge) : bool := _started b.

Section BridgeAndSession.
Context {World : Type} (U : Upstream World).

(** [JitsiElevenLabsBridge.start_conversation] *)
Definition bridge_start_conversation (b : Bridge) (st : USt World)
    : option (bool * Bridge * USt World) :=
  if negb (_started b) then
    match start_conversation U (handler b) st with
    | Some (ok, h, st1) => Some (ok, {| handler := h; _started := ok |}, st1)
    | None => None
    end
  else Some (true, b, st).

Definition process_audio_chunk (pcm16 : Bytes) (b : Bridge) (st : USt World)
    : Bridge * USt World :=
  if negb (_started b) then (b, st)
  else
    let (h, st1) := queue_pcm U pcm16 (handler b) st in
    ({| handler := h; _started := _started b |}, st1).
End BridgeAndSession.

(** ** The session ([StandupVoiceSession]) and its voice-activity gate *)

Definition Qltb (x y : Q) : bool := negb (Qle_bool y x).

(** A client audio frame: its bytes and the energy figure
    [math.sqrt(total / used) / 32768.0] that [_is_speech] computes from
    them.  The floating-point square root is not re-derived; what the
    figure stands for is fixed by [energy_matches] below. *)
Record AudioFrame : Type := {
  pcm : Bytes;
  energy : Q
}.

Definition byte_at (pcm16 : Bytes) (i : nat) : Z :=
  Z.of_N (Byte.to_N (nth i pcm16 Byte.x00)).

(** Lines 242-246: one little-endian 16-bit sample, sign-extended. *)
Definition sample_at (pcm16 : Bytes) (i : nat) : Z :=
  let lo := byte_at pcm16 (2 * i) in
  let hi := byte_at pcm16 (2 * i + 1) in
  let val := Z.lor (Z.shiftl hi 8) lo in
  if (Z.land val 32768 =? 0)%Z then val
  else (- (Z.land (Z.lnot val) 65535 + 1))%Z.

(** The loop of lines 241-247 from sample [i] on, [count] strides of 4. *)
Fixpoint sum_squares (pcm16 : Bytes) (i count : nat) : Z :=
  match count with
  | O => 0%Z
  | S count' => (sample_at pcm16 i * sample_at pcm16 i + sum_squares pcm16 (i + 4) count')%Z
  end.

(** [used]: the number of samples the loop visits. *)
Definition samples_used (pcm16 : Bytes) : nat :=
  let sample_count := length pcm16 / 2 in
  let step := 4 in
  let limit := sample_count - sample_count mod step in
  limit / step.

(** The frame's energy figure is the exact value of
    [sqrt(total / used) / 32768]. *)
Definition energy_matches (f : AudioFrame) : Prop :=
  (0 <= energy f)%Q /\
  (energy f * energy f * inject_Z (Z.of_nat (samples_used (pcm f)) * 32768 * 32768)
   == inject_Z (sum_squares (pcm f) 0 (samples_used (pcm f))))%Q.

(** [_is_speech(pcm16, return_rms=True)] *)
Definition _is_speech (f : AudioFrame) : bool * Q :=
  match pcm f with
  | [] => (false, 0%Q)
  | _ =>
      let sample_count := length (pcm f) / 2 in
      if sample_count =? 0 then (false, 0%Q)
      else
        let step := 4 in
        let limit := sample_count - sample_count mod step in
        let used := limit / step in
        if used =? 0 then (false, 0%Q)
        else
          let rms := energy f in
          (Qltb 0.002 rms, rms)
  end.

Record Session : Type := {
  is_active : bool;
  bridge : option Bridge;
  _pre_start_chunks : nat;
  _rms_accum : Q;
  _rms_samples : nat;
  _conversation_started : bool;
  _start_time : option Z;
  user_transcripts : list Transcript;
  agent_transcripts : list Transcript
}.

(** Lines 190-193: count the frame and return the running average. *)
Definition observe (rms : Q) (s : Session) : Session * Q :=
  let chunks := S (_pre_start_chunks s) in
  let accum := (_rms_accum s + rms)%Q in
  let samples := S (_rms_samples s) in
  let avg_rms := if samples =? 0 then 0%Q else (accum / inject_Z (Z.of_nat samples))%Q in
  ({| is_active := is_active s;
      bridge := bridge s;
      _pre_start_chunks := chunks;
      _rms_accum := accum;
      _rms_samples := samples;
      _conversation_started := _conversation_started s;
      _start_time := _start_time s;
      user_transcripts := user_transcripts s;
      agent_transcripts := agent_transcripts s |}, avg_rms).

(** Lines 197-201. *)
Definition should_start (speech : bool) (chunks : nat) (avg_rms : Q) : bool :=
  speech || ((30 <=? chunks) && Qltb 0.008 avg_rms) || (100 <=? chunks).

(** Line 209. *)
Definition start_reason (speech : bool) (avg_rms : Q) : string :=
  if speech then "speech" else if Qltb 0.008 avg_rms then "avg_rms" else "auto".

(** What the gate decides on one pre-start frame: the counters after the
    frame and, when it signals start, the reason it would report. *)
Definition gate (f : AudioFrame) (s : Session) : Session * option string :=
  let (speech, rms) := _is_speech f in
  let (s1, avg_rms) := observe rms s in
  (s1, if should_start speech (_pre_start_chunks s1) avg_rms
       then Some (start_reason speech avg_rms) else None).

(** The gate over a run of pre-start frames during which no start has
    succeeded yet: the 1-based position of the first frame at which it
    signals, with the reason. *)
Fixpoint first_signal (n : nat) (frames : list AudioFrame) (s : Session)
    : option (nat * string) :=
  match frames with
  | [] => None
  | f :: rest =>
      match gate f s with
      | (_, Some reason) => Some (n, reason)
      | (s1, None) => first_signal (S n) rest s1
      end
  end.

Definition set_bridge (b : Bridge) (s : Session) : Session :=
  {| is_active := is_active s;
     bridge := Some b;
     _pre_start_chunks := _pre_start_chunks s;
     _rms_accum := _rms_accum s;
     _rms_samples := _rms_samples s;
     _conversation_started := _conversation_started s;
     _start_time := _start_time s;
     user_transcripts := user_transcripts s;
     agent_transcripts := agent_transcripts s |}.

Definition mark_started (t : Z) (s : Session) : Session :=
  {| is_active := is_active s;
     bridge := bridge s;
     _pre_start_chunks := _pre_start_chunks s;
     _rms_accum := _rms_accum s;
     _rms_samples := _rms_samples s;
     _conversation_started := true;
     _start_time := Some t;
     user_transcripts := user_transcripts s;
     agent_transcripts := agent_transcripts s |}.

(** The status message of lines 210-216. *)
Definition started_status (reason : string) : Json :=
  JObj [("type", JStr "status"); ("message", JStr "Conversation started");
        ("status", JStr "started"); ("started", JBool true); ("reason", JStr reason)].

(** The status message of the [force_start] branch, lines 525-530. *)
Definition force_status (ok : bool) : Json :=
  JObj [("type", JStr "status"); ("status", JStr (if ok then "started" else "error"));
        ("started", JBool ok); ("reason", JStr "force")].

Definition is_status_event (m : Json) : bool :=
  match m with
  | JObj d => match dict_lookup "type" d with
              | Some (JStr t) => String.eqb t "status"
              | _ => false
              end
  | _ => false
  end.

(** How a branch of the message loop of [handle_voice_websocket] ends:
    the loop takes the next message, or it is left ([break], also from
    the handlers that catch what the branch raises) for the [finally]
    clause, which ends and cleans up the session. *)
Inductive LoopStep : Type := Continue | Break.

Section SessionAudio.
Context {World : Type} (U : Upstream World).

Definition forward_audio (f : AudioFrame) (b : Bridge) (s : Session) (st : USt World)
    : Session * USt World :=
  let (b1, st1) := process_audio_chunk U (pcm f) b st in
  (set_bridge b1 s, st1).

(** [StandupVoiceSession.process_audio].  Whatever is raised inside is
    caught and printed by the method; a client send that fails ends the
    method before the frame is forwarded. *)
Definition process_audio (f : AudioFrame) (s : Session) (st : USt World)
    : option (Session * USt World) :=
  if negb (is_active s) then Some (s, st)
  else
    match bridge s with
    | None => Some (s, st)
    | Some b =>
        if negb (has_started b) then
          let (speech, rms) := _is_speech f in
          let (s1, avg_rms) := observe rms s in
          if should_start speech (_pre_start_chunks s1) avg_rms then
            match bridge_start_conversation U b st with
            | None => None
            | Some (ok, b1, st1) =>
                let s2 := set_bridge b1 s1 in
                if ok then
                  let s3 := mark_started (now U (u_world st1)) s2 in
                  match to_client U (started_status (start_reason speech avg_rms)) st1 with
                  | (true, st2) => Some (forward_audio f b1 s3 st2)
                  | (false, st2) => Some (s3, st2)
                  end
                else Some (s2, st1)
            end
          else Some (s1, st)
        else Some (forward_audio f b s st)
    end.

(** The [force_start] branch of the message loop, lines 522-530.  A
    client send that fails raises into the handlers of the loop, which
    leave it. *)
Definition force_start (s : Session) (st : USt World)
    : option (LoopStep * Session * USt World) :=
  match bridge s with
  | Some b =>
      if negb (has_started b) then
        match bridge_start_conversation U b st with
        | None => None
        | Some (ok, b1, st1) =>
            match to_client U (force_status ok) st1 with
            | (true, st2) => Some (Continue, set_bridge b1 s, st2)
            | (false, st2) => Some (Break, set_bridge b1 s, st2)
            end
        end
      else Some (Continue, s, st)
  | None => Some (Continue, s, st)
  end.
End SessionAudio.

(** ** Shutdown ([disconnect], the two [cleanup] methods) *)

Definition set_inactive (s : Session) : Session :=
  {| is_active := false;
     bridge := bridge s;
     _pre_start_chunks := _pre_start_chunks s;
     _rms_accum := _rms_accum s;
     _rms_samples := _rms_samples s;
     _conversation_started := _conversation_started s;
     _start_time := _start_time s;
     user_transcripts := user_transcripts s;
     agent_transcripts := agent_transcripts s |}.

Section Shutdown.
Context {World : Type} (U : Upstream World) (ws_close : World -> World).

(** [ElevenLabsVoiceHandler.disconnect]: what closing the socket raises
    is swallowed; the [websocket] attribute is kept. *)
Definition disconnect (h : Handler) (st : USt World) : Handler * USt World :=
  let st1 :=
    if websocket h
    then {| u_world := ws_close (u_world st); u_sent := u_sent st;
            u_invoked := u_invoked st; u_outbox := u_outbox st |}
    else st in
  (set_ready false (set_connected false h), st1).

(** [JitsiElevenLabsBridge.cleanup] *)
Definition bridge_cleanup (b : Bridge) (st : USt World) : Bridge * USt World :=
  let (h1, st1) := flush U (handler b) st in
  let (h2, st2) := disconnect h1 st1 in
  ({| handler := h2; _started := _started b |}, st2).

(** [StandupVoiceSession.cleanup] *)
Definition session_cleanup (s : Session) (st : USt World) : Session * USt World :=
  let s1 := set_inactive s in
  match bridge s1 with
  | Some b =>
      let (b1, st1) := bridge_cleanup b st in
      (set_bridge b1 s1, st1)
  | None => (s1, st)
  end.
End Shutdown.

(** ** The registry of sessions ([active_voice_sessions]) *)

Abbreviation Registry := (gmap string Session).

(** Line 487 of [handle_voice_websocket]. *)
Definition register_session (standup_id : string) (s : Session) (reg : Registry) : Registry :=
  <[standup_id := s]> reg.

(** Lines 570-571. *)
Definition unregister_session (standup_id : string) (reg : Registry) : Registry :=
  match reg !! standup_id with
  | Some _ => delete standup_id reg
  | None => reg
  end.

Definition get_active_voice_session_count (reg : Registry) : nat := size reg.

(** [get_voice_session_status] at clock reading [t]: the values of
    ["active"], ["started"] and ["duration"]. *)
Definition get_voice_session_status (standup_id : string) (t : Z) (reg : Registry)
    : option (bool * bool * Z) :=
  match reg !! standup_id with
  | Some session =>
      Some (is_active session, _conversation_started session,
            match _start_time session with
            | Some t0 => if (t0 =? 0)%Z then 0%Z else (t - t0)%Z
            | None => 0%Z
            end)
  | None => None
  end.

(** ** Session end: the two tasks of one session

    One session is served by two cooperating tasks: the client-facing
    message loop of [handle_voice_websocket] and the upstream listener
    [_listen], whose [tool_call] callback is [_on_tool_call].  Either may
    call [_end_session], which awaits [process_session_end] and clears
    [is_active] only after that call has returned.  The model keeps the
    flags [_end_session] reads and writes, counts the invocations of the
    pipeline, and records where each task is suspended. *)

Inductive MainPc : Type :=
| MRecv       (* awaiting [websocket.receive()] inside the loop *)
| MEndStop    (* inside [_end_session("user_stopped")], awaiting the pipeline *)
| MEndFinal   (* inside [_end_session("websocket_disconnect")] of the [finally] block *)
| MDone.      (* after [cleanup] *)

Inductive ListenerPc : Type :=
| LIdle       (* awaiting the next upstream frame *)
| LEnd        (* inside [_end_session("ai_requested")], awaiting the pipeline *)
| LDone.      (* the socket is closed *)

Record Life : Type := {
  l_active : bool;            (* [session.is_active] *)
  l_started : bool;           (* [session._conversation_started] *)
  l_transcripts : bool;       (* [user_transcripts or agent_transcripts] *)
  l_pipeline_calls : nat;     (* invocations of [process_session_end] so far *)
  l_main : MainPc;
  l_listener : ListenerPc
}.

Inductive Event : Type :=
| ClientStop                (* the client sends [{"type": "stop"}] *)
| ClientDisconnect          (* the client transport disconnects *)
| ClientStarts              (* a client message or frame whose handling starts the conversation *)
| ClientOther               (* any other client message *)
| UpstreamEndCall           (* the upstream sends an [end_call] tool invocation *)
| UpstreamTranscript        (* the upstream sends agent text or a user transcript *)
| PipelineReturnsMain       (* the pipeline awaited by the message loop returns *)
| PipelineReturnsListener.  (* the pipeline awaited by the listener returns *)

Definition set_active (b : bool) (s : Life) : Life :=
  {| l_active := b; l_started := l_started s; l_transcripts := l_transcripts s;
     l_pipeline_calls := l_pipeline_calls s; l_main := l_main s;
     l_listener := l_listener s |}.

Definition set_main (pc : MainPc) (s : Life) : Life :=
  {| l_active := l_active s; l_started := l_started s; l_transcripts := l_transcripts s;
     l_pipeline_calls := l_pipeline_calls s; l_main := pc;
     l_listener := l_listener s |}.

Definition set_listener (pc : ListenerPc) (s : Life) : Life :=
  {| l_active := l_active s; l_started := l_started s; l_transcripts := l_transcripts s;
     l_pipeline_calls := l_pipeline_calls s; l_main := l_main s;
     l_listener := pc |}.

Definition invoke_pipeline (s : Life) : Life :=
  {| l_active := l_active s; l_started := l_started s; l_transcripts := l_transcripts s;
     l_pipeline_calls := S (l_pipeline_calls s); l_main := l_main s;
     l_listener := l_listener s |}.

Definition note_started (s : Life) : Life :=
  {| l_active := l_active s; l_started := true; l_transcripts := l_transcripts s;
     l_pipeline_calls := l_pipeline_calls s; l_main := l_main s;
     l_listener := l_listener s |}.

Definition note_transcript (s : Life) : Life :=
  {| l_active := l_active s; l_started := l_started s; l_transcripts := true;
     l_pipeline_calls := l_pipeline_calls s; l_main := l_main s;
     l_listener := l_listener s |}.

(** [_end_session] up to its first suspension: the guard on [is_active],
    then either the call of the pipeline (the coroutine is now suspended:
    [true]) or, with nothing to summarise, the rest of the method. *)
Definition end_session_begin (s : Life) : Life * bool :=
  if negb (l_active s) then (s, false)
  else if l_transcripts s && l_started s then (invoke_pipeline s, true)
  else (set_active false s, false).

(** [_end_session] after the pipeline has returned: the reply to the
    client, then [self.is_active = False]. *)
Definition end_session_finish (s : Life) : Life := set_active false s.

(** [cleanup]: clears [is_active] and closes the upstream socket, which
    ends an idle listener. *)
Definition cleanup (s : Life) : Life :=
  let s1 := set_main MDone (set_active false s) in
  match l_listener s1 with
  | LIdle => set_listener LDone s1
  | _ => s1
  end.

(** The [finally] block of [handle_voice_websocket]. *)
Definition main_finally (s : Life) : Life :=
  if l_active s && l_started s then
    let (s1, suspended) := end_session_begin s in
    if suspended then set_main MEndFinal s1 else cleanup s1
  else cleanup s.

(** One scheduling step.  An event that the task it addresses cannot take
    in its current place leaves the state as it is. *)
Definition step (ev : Event) (s : Life) : Life :=
  match ev, l_main s, l_listener s with
  | ClientStop, MRecv, _ =>
      let (s1, suspended) := end_session_begin s in
      if suspended then set_main MEndStop s1 else main_finally s1
  | ClientDisconnect, MRecv, _ => main_finally s
  | ClientStarts, MRecv, _ =>
      if l_active s then note_started s else main_finally (note_started s)
  | ClientOther, MRecv, _ => if l_active s then s else main_finally s
  | PipelineReturnsMain, MEndStop, _ => main_finally (end_session_finish s)
  | PipelineReturnsMain, MEndFinal, _ => cleanup (end_session_finish s)
  | UpstreamEndCall, _, LIdle =>
      let (s1, suspended) := end_session_begin s in
      if suspended then set_listener LEnd s1 else s1
  | UpstreamTranscript, _, LIdle => if l_active s then note_transcript s else s
  | PipelineReturnsListener, _, LEnd =>
      let s1 := end_session_finish s in
      match l_main s1 with
      | MDone => set_listener LDone s1
      | _ => set_listener LIdle s1
      end
  | _, _, _ => s
  end.

Definition run (evs : list Event) (s : Life) : Life := fold_left (fun s ev => step ev s) evs s.

(** A session in its ACTIVE state: the conversation has started, both
    tasks are waiting for input, the pipeline has not been invoked. *)
Definition active_session (transcripts : bool) : Life :=
  {| l_active := true; l_started := true; l_transcripts := transcripts;
     l_pipeline_calls := 0; l_main := MRecv; l_listener := LIdle |}.

(** A schedule is serial when every invocation of the pipeline returns
    before the next event is taken: while a task is suspended in
    [_end_session], the only event permitted is the return of the pipeline
    it awaits. *)
Definition permitted (ev : Event) (s : Life) : bool :=
  match l_main s, l_listener s with
  | (MEndStop | MEndFinal), _ =>
      match ev with PipelineReturnsMain => true | _ => false end
  | _, LEnd =>
      match ev with PipelineReturnsListener => true | _ => false end
  | _, _ => true
  end.

Fixpoint serial (evs : list Event) (s : Life) : bool :=
  match evs with
  | [] => true
  | ev :: rest => permitted ev s && serial rest (step ev s)
  end.

(** ** Agent audio over a client transport that is gone

    The listener also relays the agent's audio: [_on_audio_response]
    sends it to the client and, when that send raises
    [WebSocketDisconnect] or [RuntimeError], clears [is_active] itself. *)

Inductive Signal : Type :=
| Scheduled (ev : Event)               (* one of the events above *)
| UpstreamAudio (delivered : bool).    (* agent audio; was the send to the client made? *)

(** [_on_audio_response] *)
Definition _on_audio_response (delivered : bool) (s : Life) : Life :=
  if negb (l_active s) then s
  else if delivered then s
  else set_active false s.

Definition step_signal (sig : Signal) (s : Life) : Life :=
  match sig with
  | Scheduled ev => step ev s
  | UpstreamAudio delivered =>
      match l_listener s with
      | LIdle => _on_audio_response delivered s
      | _ => s
      end
  end.

Definition run_signals (sigs : list Signal) (s : Life) : Life :=
  fold_left (fun s sig => step_signal sig s) sigs s.

(** * The collaborators' clients

    The pipeline above treats the tracker and the reasoning backend as
    fields of [Env].  What follows embeds the clients themselves,
    [app/services/linear_service.py] and
    [app/services/reasoning_service.py], over one lower oracle each (the
    HTTP exchange), and plugs them into [Env]. *)

(** ** More of Python: [str.split], [int], [.get] on a decoded value *)

(** [s.split(sep)] for a one-character separator. *)
Fixpoint split_on (sep : ascii) (s : string) : list string :=
  match s with
  | EmptyString => [EmptyString]
  | String c rest =>
      if Ascii.eqb c sep then EmptyString :: split_on sep rest
      else match split_on sep rest with
           | [] => [String c EmptyString]
           | w :: ws => String c w :: ws
           end
  end.

Definition is_digit (c : ascii) : bool :=
  let n := nat_of_ascii c in (48 <=? n) && (n <=? 57).

Definition digit_value (c : ascii) : Z := Z.of_nat (nat_of_ascii c - 48).

(** The digits of an integer literal: at least one digit, single
    underscores allowed between digits only. *)
Fixpoint read_digits (after_digit : bool) (acc : Z) (l : list ascii) : option Z :=
  match l with
  | [] => if after_digit then Some acc else None
  | c :: rest =>
      if is_digit c then read_digits true (10 * acc + digit_value c) rest
      else if Ascii.eqb c "_" then
        if after_digit then read_digits false acc rest else None
      else None
  end.

(** [sys.int_info.default_max_str_digits] *)
Definition max_str_digits : nat := 4300.

(** The white space [int] skips around an ASCII literal: TAB..CR and the
    blank (not FS..US, which [str.strip] removes). *)
Definition is_c_space (c : ascii) : bool :=
  let n := nat_of_ascii c in
  ((9 <=? n) && (n <=? 13)) || (n =? 32).

Fixpoint lstrip_c_space (l : list ascii) : list ascii :=
  match l with
  | [] => []
  | c :: rest => if is_c_space c then lstrip_c_space rest else l
  end.

Definition is_ascii_text (s : string) : bool :=
  forallb (fun c => nat_of_ascii c <? 128) (list_ascii_of_string s).

(** [int(s)] in base 10 on ASCII text; [None] stands for [ValueError]. *)
Definition py_int_ascii (s : string) : option Z :=
  let body := rev (lstrip_c_space (rev (lstrip_c_space (list_ascii_of_string s)))) in
  let '(negative, digits) :=
    match body with
    | c :: rest =>
        if Ascii.eqb c "+" then (false, rest)
        else if Ascii.eqb c "-" then (true, rest)
        else (false, body)
    | [] => (false, body)
    end in
  if max_str_digits <? length (filter (fun c => is_digit c) digits) then None
  else
    match read_digits false 0 digits with
    | Some n => Some (if negative then (- n)%Z else n)
    | None => None
    end.

(** [int(s)]: text with characters beyond ASCII (other scripts' digits
    and white space) is left to [int_of_wide]. *)
Definition py_int (int_of_wide : string -> option Z) (s : string) : option Z :=
  if is_ascii_text s then py_int_ascii s else int_of_wide s.

(** [v.get(k, dflt)] on a decoded value: only a dict has [.get]. *)
Definition py_get (v : Json) (k : string) (dflt : Json) : Outcome Json :=
  match v with
  | JObj d => Ok (dict_get k d dflt)
  | _ => Raise (no_attribute v "get")
  end.

(** The first character of a text: its first byte and the continuation
    bytes that follow it. *)
Fixpoint continuation_bytes (s : string) : string :=
  match s with
  | String c rest => if is_continuation c then String c (continuation_bytes rest) else EmptyString
  | EmptyString => EmptyString
  end.

(** [nodes[0] if nodes else None]; a decoded dict has no key [0]. *)
Definition first_or_none (nodes : Json) : Outcome Json :=
  if truthy nodes then
    match nodes with
    | JArr (x :: _) => Ok x
    | JStr (String c rest) => Ok (JStr (String c (continuation_bytes rest)))
    | JObj _ => Raise "0"
    | _ => Raise (not_subscriptable nodes)
    end
  else Ok JNull.

(** The least magnitude an integer must have for [float] to overflow:
    half-way between the largest double and [2^1024]. *)
Definition float_overflow : Z := (2 ^ 1024 - 2 ^ 970)%Z.

(** [float(v)] as far as it can fail; [float] of a string, with the text
    of its [ValueError], is left to [float_of_str]. *)
Definition py_float_check (float_of_str : string -> Outcome unit) (v : Json) : Outcome unit :=
  match v with
  | JNum n =>
      if (Z.abs n <? float_overflow)%Z then Ok tt
      else Raise "int too large to convert to float"
  | JBool _ => Ok tt
  | JStr s => float_of_str s
  | _ =>
      Raise ("float() argument must be a string or a real number, not '"
             ++ type_name v ++ "'")%string
  end.

(** ** The tracker client ([LinearService]) *)

(** The GraphQL operations the client sends, with their variables. *)
Inductive GraphQL : Type :=
| IssueByNumber (team_key : string) (number : Z)
| CommentCreate (target : Json) (body : string)
| IssueUpdateEstimate (target : Json) (estimate : Json)
| IssueCreate (team_id title description : string) (parent_id : Json) (priority : Z)
| TeamIssues (team_id : string) (active_only : bool).

(** [_execute_query]: the HTTP exchange, [raise_for_status] and
    [response.json()] in one oracle.  The other two fields stand for
    library code that is not re-implemented: [float] of a string and
    [int] of text beyond ASCII. *)
Record Tracker (World : Type) : Type := {
  _execute_query : GraphQL -> World -> Outcome Json * World;
  float_of_str : string -> Outcome unit;
  int_of_wide : string -> option Z
}.
Arguments _execute_query {World} _ _ _.
Arguments float_of_str {World} _ _.
Arguments int_of_wide {World} _ _.

Section LinearService.
Context {World : Type} (T : Tracker World).

(** [result.get("data", {}).get(k1, {}) ...]: every step but the last
    defaults to the empty dict. *)
Fixpoint dig (keys : list string) (last_default : Json) (v : Json) : Outcome Json :=
  match keys with
  | [] => Ok v
  | [k] => py_get v k last_default
  | k :: rest =>
      match py_get v k (JObj []) with
      | Ok v1 => dig rest last_default v1
      | Raise e => Raise e
      end
  end.

(** [LinearService.get_issue_by_identifier] *)
Definition linear_get_issue_by_identifier (identifier : Json) (w : World)
    : Outcome Json * World :=
  match identifier with
  | JStr s =>
      match split_on "-" s with
      | [team_key; number] =>
          match py_int (int_of_wide T) number with
          | Some num_val =>
              match _execute_query T (IssueByNumber team_key num_val) w with
              | (Ok result, w1) =>
                  match dig ["data"; "issues"; "nodes"] (JArr []) result with
                  | Ok nodes => (first_or_none nodes, w1)
                  | Raise e => (Raise e, w1)
                  end
              | (Raise e, w1) => (Raise e, w1)
              end
          | None => (Ok JNull, w)
          end
      | _ => (Ok JNull, w)
      end
  | _ => (Raise (no_attribute identifier "split"), w)
  end.

(** [LinearService.add_comment] *)
Definition linear_add_comment (target : Json) (comment : string) (w : World)
    : Outcome Json * World :=
  match _execute_query T (CommentCreate target comment) w with
  | (Ok result, w1) => (dig ["data"; "commentCreate"] (JObj []) result, w1)
  | (Raise e, w1) => (Raise e, w1)
  end.

(** [LinearService.update_issue_estimate]: [float(estimate_days)] is
    evaluated while the variables are built, before anything is sent. *)
Definition linear_update_issue_estimate (target estimate_days : Json) (w : World)
    : Outcome Json * World :=
  match py_float_check (float_of_str T) estimate_days with
  | Ok _ =>
      match _execute_query T (IssueUpdateEstimate target estimate_days) w with
      | (Ok result, w1) => (dig ["data"; "issueUpdate"] (JObj []) result, w1)
      | (Raise e, w1) => (Raise e, w1)
      end
  | Raise e => (Raise e, w)
  end.

(** [LinearService.create_escalation_issue] *)
Definition linear_create_escalation_issue (team_id title description : string)
    (parent_issue_id : Json) (priority : Z) (w : World) : Outcome Json * World :=
  match _execute_query T (IssueCreate team_id title description parent_issue_id priority) w with
  | (Ok result, w1) => (dig ["data"; "issueCreate"] (JObj []) result, w1)
  | (Raise e, w1) => (Raise e, w1)
  end.

(** [LinearService.get_team_issues] *)
Definition linear_get_team_issues (team_id : string) (active_only : bool) (w : World)
    : Outcome Json * World :=
  match _execute_query T (TeamIssues team_id active_only) w with
  | (Ok result, w1) => (dig ["data"; "team"; "issues"; "nodes"] (JArr []) result, w1)
  | (Raise e, w1) => (Raise e, w1)
  end.
End LinearService.

(** ** The pipeline over the tracker client *)

Section PipelineOverLinear.
Context {World : Type} (T : Tracker World) (E : Env World).

(** Lines 119-122 of the pipeline on what the client returns: a truthy
    issue must be a dict to be asked for its ["id"] and ["title"]. *)
Definition lookup_step (identifier : Json) (w : World)
    : Outcome (option (Json * Json)) * World :=
  match linear_get_issue_by_identifier T identifier w with
  | (Ok issue, w1) =>
      if truthy issue then
        match issue with
        | JObj d => (Ok (Some (dict_get "id" d JNull, dict_get "title" d JNull)), w1)
        | _ => (Raise (no_attribute issue "get"), w1)
        end
      else (Ok None, w1)
  | (Raise e, w1) => (Raise e, w1)
  end.

(** Lines 127-128: the truth value of [result.get("success")]. *)
Definition comment_step (target : Json) (comment : string) (w : World)
    : Outcome bool * World :=
  match linear_add_comment T target comment w with
  | (Ok result, w1) =>
      match py_get result "success" JNull with
      | Ok success => (Ok (truthy success), w1)
      | Raise e => (Raise e, w1)
      end
  | (Raise e, w1) => (Raise e, w1)
  end.

(** Lines 133-137: the reply is not looked at. *)
Definition estimate_step (target estimate_days : Json) (w : World)
    : Outcome unit * World :=
  match linear_update_issue_estimate T target estimate_days w with
  | (Ok _, w1) => (Ok tt, w1)
  | (Raise e, w1) => (Raise e, w1)
  end.

(** The title and the description [_create_escalation] builds. *)
Definition escalation_title (parent_issue : IssueUpdate) : string :=
  ("[ESCALATION] " ++ fmt E (issue_identifier parent_issue) ++ ": "
   ++ fmt E (py_or (escalation_reason parent_issue) (JStr "Requires attention")))%string.

Definition escalation_description (parent_issue : IssueUpdate) : string :=
  ("## Escalation from Standup" ++ nl ++ nl
   ++ "**Original Issue:** " ++ fmt E (issue_identifier parent_issue) ++ " - "
   ++ fmt E (py_or (issue_title parent_issue) (JStr "N/A")) ++ nl ++ nl
   ++ "**Reason for Escalation:**" ++ nl
   ++ fmt E (py_or (escalation_reason parent_issue) (JStr "Issue requires immediate attention"))
   ++ nl ++ nl
   ++ "**Current Status:** " ++ fmt E (status parent_issue) ++ nl ++ nl
   ++ "**Blockers:**" ++ nl
   ++ fmt E (py_or (blockers parent_issue) (JStr "None specified")) ++ nl ++ nl
   ++ "**Dependencies:**" ++ nl
   ++ fmt E (py_or (dependencies parent_issue) (JStr "None specified")) ++ nl ++ nl
   ++ "---" ++ nl
   ++ "*This ticket was automatically created by StandupAI*" ++ nl)%string.

(** Lines 371-388 of [_create_escalation]: the request, then the reading
    of the reply. *)
Definition escalation_step (team_id : string) (parent_issue : IssueUpdate) (w : World)
    : Outcome (option (Json * Json * Json)) * World :=
  match linear_create_escalation_issue T team_id (escalation_title parent_issue)
          (escalation_description parent_issue) (issue_id parent_issue) 1 w with
  | (Ok result, w1) =>
      match py_get result "success" JNull with
      | Ok success =>
          if truthy success then
            match py_get result "issue" (JObj []) with
            | Ok (JObj issue) =>
                (Ok (Some (dict_get "identifier" issue JNull, dict_get "id" issue JNull,
                           dict_get "url" issue JNull)), w1)
            | Ok issue => (Raise (no_attribute issue "get"), w1)
            | Raise e => (Raise e, w1)
            end
          else (Ok None, w1)
      | Raise e => (Raise e, w1)
      end
  | (Raise e, w1) => (Raise e, w1)
  end.

(** The environment [E] with its tracker fields taken from the client. *)
Definition over_linear : Env World :=
  {| json_loads := json_loads E;
     py_str := py_str E;
     call_llm := call_llm E;
     get_issue_by_identifier := lookup_step;
     generate_linear_comment := generate_linear_comment E;
     add_comment := comment_step;
     update_issue_estimate := estimate_step;
     create_escalation_issue := escalation_step;
     generate_standup_summary := generate_standup_summary E;
     send_message := send_message E;
     render_fallback := render_fallback E |}.
End PipelineOverLinear.

(** A tracker that writes down every request it is sent. *)
Definition recording {World : Type} (T : Tracker World) : Tracker (World * list GraphQL) :=
  {| _execute_query := fun q w =>
       let (r, w1) := _execute_query T q (fst w) in (r, (w1, snd w ++ [q]));
     float_of_str := float_of_str T;
     int_of_wide := int_of_wide T |}.

(** ** The reasoning client ([ReasoningService]) *)

(** What a prompt is built from: the f-strings of
    [_extract_issue_updates] and of [generate_standup_summary] turn these
    data into the text handed to the provider. *)
Inductive Prompt : Type :=
| ExtractionPrompt (conversation : string) (known_issues : list Json)
| SummaryPrompt (issue_updates : list IssueUpdate) (team_name : string).

(** The settings read by [__init__] and the two provider calls (request,
    [raise_for_status], the indexing into the reply). *)
Record Reasoner (World : Type) : Type := {
  provider : string;
  openai_key : string;
  anthropic_key : string;
  _call_openai : Prompt -> World -> Outcome string * World;
  _call_anthropic : Prompt -> World -> Outcome string * World
}.
Arguments provider {World} _.
Arguments openai_key {World} _.
Arguments anthropic_key {World} _.
Arguments _call_openai {World} _ _ _.
Arguments _call_anthropic {World} _ _ _.

Definition no_key_message : string :=
  "No LLM API key configured. Please set ANTHROPIC_API_KEY or OPENAI_API_KEY in your .env file.".

(** The emoji table of [generate_linear_comment]. *)
Definition comment_emoji (s : string) : string :=
  if String.eqb s "progressing" then "🟢"
  else if String.eqb s "blocked" then "🔴"
  else if String.eqb s "completed" then "✅"
  else if String.eqb s "at_risk" then "⚠️"
  else "⚪".

Section ReasoningService.
Context {World : Type} (R : Reasoner World).

(** [ReasoningService._call_llm] *)
Definition _call_llm (p : Prompt) (w : World) : Outcome string * World :=
  if String.eqb (provider R) "anthropic" && negb (String.eqb (anthropic_key R) "")
  then _call_anthropic R p w
  else if String.eqb (provider R) "openai" && negb (String.eqb (openai_key R) "")
  then _call_openai R p w
  else if negb (String.eqb (anthropic_key R) "") then _call_anthropic R p w
  else if negb (String.eqb (openai_key R) "") then _call_openai R p w
  else (Raise no_key_message, w).

(** [ReasoningService.generate_standup_summary]: the provider call sits in
    a [try] whose handler answers a fixed sentence. *)
Definition reasoning_generate_standup_summary (issue_updates : list IssueUpdate)
    (team_name : string) (w : World) : Outcome string * World :=
  match _call_llm (SummaryPrompt issue_updates team_name) w with
  | (Ok summary, w1) => (Ok summary, w1)
  | (Raise _, w1) =>
      (Ok ("Standup completed for " ++ team_name
           ++ ". Please review individual issue updates for details.")%string, w1)
  end.

(** [ReasoningService.generate_linear_comment].  [title] is [str.title],
    [str_of] the [str()] of an f-string field and [stamp] the formatted
    clock reading.  The status is first used as a dict key (a list or a
    dict is unhashable), then asked for [.title()]. *)
Definition reasoning_generate_linear_comment (title : string -> string)
    (str_of : Json -> string) (stamp : string)
    (status blockers dependencies eta next_steps escalation_needed escalation_reason : Json)
    : Outcome string :=
  match status with
  | JArr _ | JObj _ => Raise (unhashable status)
  | JStr s =>
      let comment_parts :=
        [("🤖 **Standup Update** - " ++ stamp)%string;
         ""%string;
         ("**Status:** " ++ title s ++ " " ++ comment_emoji s)%string]
        ++ (if truthy blockers then [("**Blockers:** " ++ str_of blockers)%string] else [])
        ++ (if truthy dependencies
            then [("**Dependencies:** " ++ str_of dependencies)%string] else [])
        ++ (if truthy eta then [("**ETA:** " ++ str_of eta)%string] else [])
        ++ (if truthy next_steps then [("**Next Steps:** " ++ str_of next_steps)%string] else [])
        ++ (if truthy escalation_needed
            then [""%string; ("⚠️ **Escalation Required:** " ++ str_of escalation_reason)%string]
            else []) in
      Ok (String.concat nl comment_parts)
  | _ => Raise (no_attribute status "title")
  end.

(** [StandupSummaryService._generate_linear_comment] *)
Definition _generate_linear_comment (title : string -> string) (str_of : Json -> string)
    (stamp : string) (update : IssueUpdate) : Outcome string :=
  reasoning_generate_linear_comment title str_of stamp
    (status update) (blockers update) (dependencies update) (eta update)
    (next_steps update) (escalation_needed update) (escalation_reason update).
End ReasoningService.

Section PipelineOverReasoning.
Context {World : Type} (R : Reasoner World) (title : string -> string) (stamp : string)
  (E : Env World).

(** The environment [E] with its reasoning fields taken from the client. *)
Definition over_reasoning : Env World :=
  {| json_loads := json_loads E;
     py_str := py_str E;
     call_llm := fun conversation known => _call_llm R (ExtractionPrompt conversation known);
     get_issue_by_identifier := get_issue_by_identifier E;
     generate_linear_comment := _generate_linear_comment title (fmt E) stamp;
     add_comment := add_comment E;
     update_issue_estimate := update_issue_estimate E;
     create_escalation_issue := create_escalation_issue E;
     generate_standup_summary := reasoning_generate_standup_summary R;
     send_message := send_message E;
     render_fallback := render_fallback E |}.
End PipelineOverReasoning.

(** * Vocabulary of the statements *)

(** The trace only grows. *)
Definition grows {World : Type} (st st' : St World) : Prop :=
  exists l, trace st' = trace st ++ l.

(** The calls a fully processed update makes, in order. *)
Definition calls_of_update (team : string) (u : IssueUpdate) (id title : Json)
    (comment : string) : list Call :=
  [CallLookup (issue_identifier u); CallComment id comment]
  ++ (if truthy (estimate_days u) then [CallEstimate id (estimate_days u)] else [])
  ++ (if truthy (escalation_needed u)
      then [CallEscalation team (with_issue u id title)] else []).

(** The entry of [escalations_created] an escalation reply gives. *)
Definition escalation_of (u : IssueUpdate) (esc : option (Json * Json * Json))
    : list Escalation :=
  match esc with
  | Some (identifier, id, url) =>
      [{| esc_identifier := identifier; esc_id := id; esc_url := url;
          esc_original_issue := issue_identifier u |}]
  | None => []
  end.

Section PipelineScenarios.
Context {World : Type} (E : Env World).

(** What it takes for one update to reach the comment post: it arrives
    without a handle, its identifier is looked up and found, and the
    comment text is generated. *)
Definition reaches_comment (u : IssueUpdate) (id title : Json) (comment : string) : Prop :=
  issue_id u = JNull /\
  truthy (issue_identifier u) = true /\
  truthy id = true /\
  (forall w, exists w', get_issue_by_identifier E (issue_identifier u) w
                        = (Ok (Some (id, title)), w')) /\
  generate_linear_comment E (with_issue u id title) = Ok comment.

Definition comment_post_succeeds (id : Json) (comment : string) : Prop :=
  forall w, exists w', add_comment E id comment w = (Ok true, w').

(** One update processed in full between the worlds [w] and [w']: it
    arrives without a handle, its identifier is looked up at [w] and
    found, its comment is generated, posted and acknowledged, its estimate
    is sent when it carries one, and its escalation is requested when it
    asks for one; [esc] is what the escalation request returned.  Every
    call is taken at the world the call before it left. *)
Definition fully_processed (team : string) (u : IssueUpdate) (id title : Json)
    (comment : string) (esc : option (Json * Json * Json)) (w w' : World) : Prop :=
  issue_id u = JNull /\
  truthy (issue_identifier u) = true /\
  truthy id = true /\
  generate_linear_comment E (with_issue u id title) = Ok comment /\
  exists w1 w2 w3,
    get_issue_by_identifier E (issue_identifier u) w = (Ok (Some (id, title)), w1) /\
    add_comment E id comment w1 = (Ok true, w2) /\
    (if truthy (estimate_days u)
     then update_issue_estimate E id (estimate_days u) w2 = (Ok tt, w3)
     else w3 = w2) /\
    (if truthy (escalation_needed u)
     then create_escalation_issue E team (with_issue u id title) w3 = (Ok esc, w')
     else w' = w3 /\ esc = None).

(** One update whose comment post raises [e]: looked up at [w] and found,
    comment generated, and the post, taken at the world the look-up left,
    raises and leaves [w']. *)
Definition comment_post_raises (u : IssueUpdate) (id title : Json) (comment e : string)
    (w w' : World) : Prop :=
  issue_id u = JNull /\
  truthy (issue_identifier u) = true /\
  truthy id = true /\
  generate_linear_comment E (with_issue u id title) = Ok comment /\
  exists w1,
    get_issue_by_identifier E (issue_identifier u) w = (Ok (Some (id, title)), w1) /\
    add_comment E id comment w1 = (Raise e, w').

(** Summary and digest succeed from world [w] on: the summary call at
    [w], and, with a channel, the post at the world the summary left. *)
Definition report_succeeds (team slack : string) (us : list IssueUpdate)
    (escs : list Escalation) (w : World) : Prop :=
  exists summary w1,
    generate_standup_summary E us team w = (Ok summary, w1) /\
    (slack <> ""%string ->
     exists posted w2, send_message E slack us escs w1 = (Ok posted, w2)).
End PipelineScenarios.

Definition register_all (regs : list (string * Callback)) (h : Handler) : Handler :=
  fold_left (fun h r => register_callback (fst r) (snd r) h) regs h.

Section UpstreamScenarios.
Context {World : Type} (U : Upstream World).

(** Sending a run of chunks, one [_send_chunk] each. *)
Fixpoint send_chunks (chunks : list Bytes) (h : Handler) (st : USt World)
    : Handler * USt World :=
  match chunks with
  | [] => (h, st)
  | c :: rest =>
      let (h1, st1) := _send_chunk U c h st in
      send_chunks rest h1 st1
  end.

(** From world [w] on, the upstream accepts each of [chunks] in shape
    [k]: the sends keep succeeding. *)
Fixpoint keep_succeeding (k : nat) (chunks : list Bytes) (w : World) : Prop :=
  match chunks with
  | [] => True
  | c :: rest =>
      exists w', ws_send U {| variant := k; audio := pad_even c |} w = (true, w') /\
                 keep_succeeding k rest w'
  end.

(** Queueing a run of chunks, one [queue_pcm] each. *)
Fixpoint queue_all (chunks : list Bytes) (h : Handler) (st : USt World)
    : Handler * USt World :=
  match chunks with
  | [] => (h, st)
  | c :: rest =>
      let (h1, st1) := queue_pcm U c h st in
      queue_all rest h1 st1
  end.

(** The upstream stays silent: no sleep sees the readiness event. *)
Definition upstream_silent : Prop := forall w, fst (sleep U w) = None.

Definition same_logs (st st' : USt World) : Prop :=
  u_sent st' = u_sent st /\ u_invoked st' = u_invoked st /\ u_outbox st' = u_outbox st.
End UpstreamScenarios.

Definition suspended (s : Life) : bool :=
  match l_main s, l_listener s with
  | (MEndStop | MEndFinal), _ => true
  | _, LEnd => true
  | _, _ => false
  end.

(** What serial schedules preserve: the pipeline has run at most once; a
    session that is still active and in which no task is suspended has not
    run it; and only one task at a time is suspended in [_end_session]. *)
Definition serial_invariant (s : Life) : Prop :=
  l_pipeline_calls s <= 1 /\
  (suspended s = false -> l_active s = true -> l_pipeline_calls s = 0) /\
  (suspended s = true -> l_pipeline_calls s = 1) /\
  (l_listener s = LEnd -> l_main s <> MEndStop /\ l_main s <> MEndFinal).

(** The counters of a session that has heard no speech so far: one energy
    sample per frame, none above the speech threshold. *)
Definition quiet_counters (s : Session) : Prop :=
  _rms_samples s = _pre_start_chunks s /\
  (_rms_accum s <= 0.002 * inject_Z (Z.of_nat (_rms_samples s)))%Q.

(** Closed: the message loop has run [cleanup]. *)
Definition closed (s : Life) : Prop := l_main s = MDone /\ l_active s = false.

Definition by_timestamp (a b : Message) : Prop := (timestamp a <= timestamp b)%Z.

(** How often [c] occurs in [s]. *)
Fixpoint count_char (c : ascii) (s : string) : nat :=
  match s with
  | EmptyString => 0
  | String a rest => (if Ascii.eqb a c then 1 else 0) + count_char c rest
  end.

(** An error entry that was not written by the step-4 handler. *)
Definition not_from_summary (e : string) : Prop :=
  startswith e "Summary generation error" = false.

(** A frame the listener can read: it decodes, and to a JSON object. *)
Definition readable (json_loads : string -> option Json) (raw : string) : bool :=
  match json_loads raw with
  | Some (JObj _) => true
  | _ => false
  end.

(** The event carries a part that makes its handling raise before the
    error report is reached. *)
Definition malformed_part (b64decode : string -> option Bytes)
    (data : list (string * Json)) : Prop :=
  exists e, In (Raise e) [audio_step b64decode data; text_step data; ping_step data;
                          user_step data; tool_step data].

(** The bit operations of lines 244-246 agree with two's complement on
    the byte values [lo] and [hi]. *)
Definition decoding_agrees (lo hi : Z) : bool :=
  let val := Z.lor (Z.shiftl hi 8) lo in
  let decoded := if (Z.land val 32768 =? 0)%Z then val
                 else (- (Z.land (Z.lnot val) 65535 + 1))%Z in
  let v := (lo + 256 * hi)%Z in
  (decoded =? (if v <? 32768 then v else v - 65536))%Z.

(** * Scripted environments for the concrete runs *)

Definition dquote : string := String (ascii_of_nat 34) EmptyString.

Definition json_record (identifier : string) : string :=
  ("{" ++ dquote ++ "issue_identifier" ++ dquote ++ ": " ++ dquote ++ identifier ++ dquote ++ "}")%string.

(** A backend answer naming three issues, wrapped in a code fence. *)
Definition three_updates_text : string :=
  ("[" ++ json_record "A-1" ++ ", " ++ json_record "A-2" ++ ", " ++ json_record "A-3" ++ "]")%string.

Definition fenced_response : string :=
  ("```json" ++ nl ++ three_updates_text ++ nl ++ "```")%string.

Definition three_updates_json : Json :=
  JArr [JObj [("issue_identifier", JStr "A-1")];
        JObj [("issue_identifier", JStr "A-2")];
        JObj [("issue_identifier", JStr "A-3")]].

(** [json.loads] on the texts that occur below: the array above decodes,
    prose does not. *)
Definition scripted_loads (s : string) : option Json :=
  if String.eqb s three_updates_text then Some three_updates_json else None.

(** A tracker that knows every issue, posts every comment except those on
    the issue whose handle is [failing], a reasoning backend that answers
    [response] to the extraction request, and a channel that accepts every
    post. *)
Definition scripted_env (response : string) (failing : string) : Env unit :=
  {| json_loads := scripted_loads;
     py_str := fun _ => "<value>";
     call_llm := fun _ _ w => (Ok response, w);
     get_issue_by_identifier := fun identifier w =>
       match identifier with
       | JStr s => (Ok (Some (JStr ("id-of-" ++ s), JStr "title")), w)
       | _ => (Raise (no_attribute identifier "split"), w)
       end;
     generate_linear_comment := fun _ => Ok "Standup Update";
     add_comment := fun target _ w =>
       match target with
       | JStr s => if String.eqb s failing then (Raise "500 Server Error", w) else (Ok true, w)
       | _ => (Ok false, w)
       end;
     update_issue_estimate := fun _ _ w => (Ok tt, w);
     create_escalation_issue := fun _ _ w => (Ok None, w);
     generate_standup_summary := fun _ _ w => (Ok "Executive summary", w);
     send_message := fun _ _ _ w => (Ok true, w);
     render_fallback := fun _ => "Standup completed" |}.

Definition st0 : St unit := {| world := tt; trace := [] |}.

Definition said (s : string) (t : Z) : Transcript :=
  {| tr_text := Some s; tr_timestamp := Some t |}.

(** A short answer with accented letters: 47 characters with the
    speaker's name, 58 bytes. *)
Definition accented_user : list Transcript :=
  [said "été à l'école, déjà réglé, très gêné" 1].

(** A conversation long enough to be processed. *)
Definition long_user : list Transcript :=
  [said "I am blocked on A-2 because staging is down" 2].

Definition long_agent : list Transcript :=
  [said "Good morning, what is the status of A-1, A-2 and A-3?" 1].

(** The update the conversion builds from a record that only names its
    issue. *)
Definition named_update (identifier : string) : IssueUpdate :=
  {| issue_identifier := JStr identifier; issue_id := JNull; issue_title := JNull;
     status := JStr "progressing"; blockers := JNull; dependencies := JNull;
     estimate_days := JNull; eta := JNull; next_steps := JNull;
     escalation_needed := JBool false; escalation_reason := JNull;
     new_assignee_email := JNull; transcript_snippet := JNull |}.

(** A backend answer with three entries on one issue: the first carries
    an estimate and asks for an escalation, the third carries an
    estimate. *)
Definition first_entry_text : string :=
  ("{" ++ dquote ++ "issue_identifier" ++ dquote ++ ": " ++ dquote ++ "A-1" ++ dquote
   ++ ", " ++ dquote ++ "estimate_days" ++ dquote ++ ": 3"
   ++ ", " ++ dquote ++ "escalation_needed" ++ dquote ++ ": true}")%string.

Definition third_entry_text : string :=
  ("{" ++ dquote ++ "issue_identifier" ++ dquote ++ ": " ++ dquote ++ "A-1" ++ dquote
   ++ ", " ++ dquote ++ "estimate_days" ++ dquote ++ ": 2}")%string.

Definition one_issue_text : string :=
  ("[" ++ first_entry_text ++ ", " ++ json_record "A-1" ++ ", " ++ third_entry_text ++ "]")%string.

Definition one_issue_json : Json :=
  JArr [JObj [("issue_identifier", JStr "A-1"); ("estimate_days", JNum 3);
              ("escalation_needed", JBool true)];
        JObj [("issue_identifier", JStr "A-1")];
        JObj [("issue_identifier", JStr "A-1"); ("estimate_days", JNum 2)]].

Definition first_entry : IssueUpdate :=
  {| issue_identifier := JStr "A-1"; issue_id := JNull; issue_title := JNull;
     status := JStr "progressing"; blockers := JNull; dependencies := JNull;
     estimate_days := JNum 3; eta := JNull; next_steps := JNull;
     escalation_needed := JBool true; escalation_reason := JNull;
     new_assignee_email := JNull; transcript_snippet := JNull |}.

Definition second_entry : IssueUpdate := named_update "A-1".

Definition third_entry : IssueUpdate :=
  {| issue_identifier := JStr "A-1"; issue_id := JNull; issue_title := JNull;
     status := JStr "progressing"; blockers := JNull; dependencies := JNull;
     estimate_days := JNum 2; eta := JNull; next_steps := JNull;
     escalation_needed := JBool false; escalation_reason := JNull;
     new_assignee_email := JNull; transcript_snippet := JNull |}.

(** A tracker with a transient fault.  The world counts the comment
    posts attempted so far; the second post raises, whatever it is
    about. *)
Definition flaky_env : Env nat :=
  {| json_loads := fun s => if String.eqb s one_issue_text then Some one_issue_json else None;
     py_str := fun _ => "<value>";
     call_llm := fun _ _ w => (Ok one_issue_text, w);
     get_issue_by_identifier := fun identifier w =>
       match identifier with
       | JStr s => (Ok (Some (JStr ("id-of-" ++ s), JStr "title")), w)
       | _ => (Raise (no_attribute identifier "split"), w)
       end;
     generate_linear_comment := fun _ => Ok "Standup Update";
     add_comment := fun _ _ w =>
       if w =? 1 then (Raise "500 Server Error", S w) else (Ok true, S w);
     update_issue_estimate := fun _ _ w => (Ok tt, w);
     create_escalation_issue := fun _ _ w =>
       (Ok (Some (JStr "A-9", JStr "id-of-A-9", JStr "https://tracker/A-9")), w);
     generate_standup_summary := fun _ _ w => (Ok "Executive summary", w);
     send_message := fun _ _ _ w => (Ok true, w);
     render_fallback := fun _ => "Standup completed" |}.

(** The kind of a recorded call, by number. *)
Definition call_kind (c : Call) : nat :=
  match c with
  | CallLLM _ _ => 1
  | CallLookup _ => 2
  | CallComment _ _ => 3
  | CallEstimate _ _ => 4
  | CallEscalation _ _ => 5
  | CallSummary _ _ => 6
  | CallSlack _ _ _ => 7
  end.

Definition tracker_down_for_A2 : Env unit := scripted_env fenced_response "id-of-A-2".

Definition prose_answer : string := "I could not find any issue updates in this conversation.".

(** A scripted outside: the upstream accepts the payload shapes selected by
    [accepts], the handshake and the client transport always succeed, the
    world is the clock reading, every sleep lasts exactly 50 ms, and the
    readiness event is handled during the sleep that starts at a reading
    for which [readiness] answers. *)
Definition scripted_upstream (accepts : nat -> bool) (readiness : Z -> option Json)
    : Upstream Z :=
  {| ws_send := fun p w => (accepts (variant p), w);
     ws_connect := fun w => (true, w);
     client_send := fun _ w => (true, w);
     now := fun w => w;
     sleep := fun w => (readiness w, (w + 50)%Z);
     sleep_advances := fun w => Z.le_refl (w + 50) |}.

Definition ust0 : USt Z :=
  {| u_world := 0%Z; u_sent := []; u_invoked := []; u_outbox := [] |}.

Definition connected_handler : Handler :=
  set_connected true (set_socket true (new_handler 0)).

(** Four samples of value 4096: energy 4096 / 32768. *)
Definition loud_frame : AudioFrame :=
  {| pcm := [Byte.x00; Byte.x10; Byte.x00; Byte.x10; Byte.x00; Byte.x10; Byte.x00; Byte.x10];
     energy := 1 # 8 |}.

(** Four samples of value 32: energy 32 / 32768. *)
Definition quiet_frame : AudioFrame :=
  {| pcm := [Byte.x20; Byte.x00; Byte.x20; Byte.x00; Byte.x20; Byte.x00; Byte.x20; Byte.x00];
     energy := 1 # 1024 |}.

Definition session_with (b : option Bridge) (chunks : nat) (accum : Q) : Session :=
  {| is_active := true; bridge := b;
     _pre_start_chunks := chunks; _rms_accum := accum; _rms_samples := chunks;
     _conversation_started := false; _start_time := None;
     user_transcripts := []; agent_transcripts := [] |}.

(** 20 ms of digital silence. *)
Definition zero_frame : AudioFrame :=
  {| pcm := repeat Byte.x00 640; energy := 0 |}.

(** A session whose bridge is connected but never hears from the
    upstream. *)
Definition silent_upstream : Upstream Z := scripted_upstream (fun _ => true) (fun _ => None).

Definition waiting_bridge : Bridge := {| handler := connected_handler; _started := false |}.

Definition waiting_session : Session := session_with (Some waiting_bridge) 0 0.

(** A tracker that answers every request by [reply] and accepts the
    usual decimal spellings as floats. *)
Definition scripted_tracker (reply : GraphQL -> Outcome Json) : Tracker unit :=
  {| _execute_query := fun q w => (reply q, w);
     float_of_str := fun s =>
       match py_int_ascii s with
       | Some _ => Ok tt
       | None => Raise ("could not convert string to float: '" ++ s ++ "'")%string
       end;
     int_of_wide := fun _ => None |}.

(** The reply of a tracker in good order. *)
Definition healthy_reply (q : GraphQL) : Outcome Json :=
  match q with
  | IssueByNumber team_key number =>
      Ok (JObj [("data", JObj [("issues", JObj [("nodes",
            JArr [JObj [("id", JStr "uuid-1"); ("title", JStr "Fix login")]])])])])
  | CommentCreate _ _ =>
      Ok (JObj [("data", JObj [("commentCreate", JObj [("success", JBool true)])])])
  | IssueUpdateEstimate _ _ =>
      Ok (JObj [("data", JObj [("issueUpdate", JObj [("success", JBool true)])])])
  | IssueCreate _ _ _ _ _ =>
      Ok (JObj [("data", JObj [("issueCreate",
            JObj [("success", JBool true);
                  ("issue", JObj [("identifier", JStr "ENG-99"); ("id", JStr "uuid-99");
                                  ("url", JStr "https://linear.app/ENG-99")])])])])
  | TeamIssues _ _ =>
      Ok (JObj [("data", JObj [("team", JObj [("issues", JObj [("nodes", JArr [])])])])])
  end.

Definition rst0 : St (unit * list GraphQL) := {| world := (tt, []); trace := [] |}.

(** A reasoning client without any key: neither provider call must ever
    be reached, so both are scripted to answer. *)
Definition keyless_reasoner : Reasoner unit :=
  {| provider := "anthropic"; openai_key := ""; anthropic_key := "";
     _call_openai := fun _ w => (Ok three_updates_text, w);
     _call_anthropic := fun _ w => (Ok three_updates_text, w) |}.

(** An update that asks for an estimate the tracker cannot read and for an
    escalation. *)
Definition vague_estimate_update : IssueUpdate :=
  {| issue_identifier := JStr "ENG-123"; issue_id := JNull; issue_title := JNull;
     status := JStr "blocked"; blockers := JStr "staging is down"; dependencies := JNull;
     estimate_days := JStr "a few days"; eta := JNull; next_steps := JNull;
     escalation_needed := JBool true; escalation_reason := JStr "release at risk";
     new_assignee_email := JNull; transcript_snippet := JNull |}.

(** The update built from a record whose status is an explicit null. *)
Definition null_status_update : IssueUpdate :=
  {| issue_identifier := JStr "ENG-123"; issue_id := JNull; issue_title := JNull;
     status := JNull; blockers := JNull; dependencies := JNull;
     estimate_days := JNull; eta := JNull; next_steps := JNull;
     escalation_needed := JBool false; escalation_reason := JNull;
     new_assignee_email := JNull; transcript_snippet := JNull |}.

(** A tracker in good order, except that it answers a comment request by
    [reply]. *)
Definition comment_answered (reply : Json) (q : GraphQL) : Outcome Json :=
  match q with
  | CommentCreate _ _ => Ok reply
  | _ => healthy_reply q
  end.

(** Eleven two-byte chunks, numbered in arrival order. *)
Definition eleven_chunks : list Bytes :=
  map (fun b => [b; Byte.x00])
    [Byte.x01; Byte.x02; Byte.x03; Byte.x04; Byte.x05; Byte.x06; Byte.x07; Byte.x08;
     Byte.x09; Byte.x0a; Byte.x0b].

(** Base64 is not re-implemented: the scripted decoder knows one text. *)
Definition scripted_b64decode (s : string) : option Bytes :=
  if String.eqb s "AAE=" then Some [Byte.x00; Byte.x01] else None.

(** The handler of a session: the five callbacks of [initialize], by
    number. *)
Definition session_handler : Handler :=
  register_all [("audio_response"%string, 0); ("text_response"%string, 1);
                ("error"%string, 2); ("tool_call"%string, 3);
                ("user_transcript"%string, 4)] connected_handler.

(** A started bridge that still holds two buffered bytes. *)
Definition buffered_bridge : Bridge :=
  {| handler := set_buffer [Byte.x01; Byte.x02] (set_ready true connected_handler);
     _started := true |}.

(** Two replies to a comment request: a GraphQL error, which carries
    a null ["data"], and a mutation that reports no success. *)
Definition reply_with_errors : list (string * Json) :=
  [("errors", JArr [JStr "Entity not found"]); ("data", JNull)].

Definition reply_not_posted : list (string * Json) :=
  [("data", JObj [("commentCreate", JObj [("success", JBool false)])])].

(** The text of byte 0x1c (the file separator) followed by "5". *)
Definition file_separator_5 : string := String (ascii_of_nat 28) "5".

(** * Properties *)

(** ** The transcript merge *)

Example format_conversation_orders_by_timestamp :
  _format_conversation long_user long_agent =
  ("AI Moderator: Good morning, what is the status of A-1, A-2 and A-3?" ++ nl ++
   "Developer: I am blocked on A-2 because staging is down")%string.
Proof. reflexivity. Qed.

Example clean_response_strips_fence :
  clean_response fenced_response = three_updates_text.
Proof. vm_compute. reflexivity. Qed.

(** ** The short-circuit on short conversations *)

Section PipelineFacts.
Context {World : Type} (E : Env World).

(** C4.  When the merged conversation text is shorter than 50
    characters (characters, not bytes: accented letters count once),
    [process_session_end] returns a result with no update
    (count 0, empty list), the marker "Conversation too short" as only
    error and the fixed too-short summary text, and it leaves the state
    untouched: the world is the same and no call was added to the
    trace, so neither the reasoning backend nor the tracker nor the
    messaging collaborator was called. *)
Theorem short_conversation_short_circuits
    (sid : string) (user agent : list Transcript) (team_id slack_channel_id : string)
    (issues_discussed : list Json) (st : St World) :
  py_len (_format_conversation user agent) < 50 ->
  exists r,
    process_session_end E sid user agent team_id slack_channel_id issues_discussed st
      = (Ok r, st) /\
    issue_updates r = [] /\
    total_updates r = 0 /\
    linear_comments_posted r = 0 /\
    escalations_created r = [] /\
    slack_posted r = false /\
    errors r = ["Conversation too short"] /\
    summary_text r = "Conversation was too short to extract meaningful updates.".
Proof.
  intros Hshort.
  exists (too_short_result sid).
  unfold process_session_end.
  apply Nat.ltb_lt in Hshort. rewrite Hshort.
  repeat split; reflexivity.
Qed.
End PipelineFacts.

Lemma short_conversation_short_circuits_witness :
  py_len (_format_conversation accented_user []) < 50 /\
  exists r,
    process_session_end (scripted_env fenced_response "none") "standup-1"
      accented_user [] "T1" "C1" [] st0 = (Ok r, st0) /\
    issue_updates r = [] /\
    total_updates r = 0 /\
    linear_comments_posted r = 0 /\
    escalations_created r = [] /\
    slack_posted r = false /\
    errors r = ["Conversation too short"] /\
    summary_text r = "Conversation was too short to extract meaningful updates.".
Proof.
  split.
  - vm_compute. lia.
  - apply (short_conversation_short_circuits (scripted_env fenced_response "none")).
    vm_compute. lia.
Defined.

(** The conversation of the run above has 47 characters in 58 bytes. *)
Example len_counts_characters :
  py_len (_format_conversation accented_user []) = 47 /\
  String.length (_format_conversation accented_user []) = 58.
Proof. split; vm_compute; reflexivity. Qed.

(** ** Defaults of a constructed update *)

Lemma make_updates_Forall2 (items : list Json) (us : list IssueUpdate) :
  make_updates items = Some us ->
  Forall2 (fun item u => make_update item = Some u) items us.
Proof.
  revert us. induction items as [|item items IH]; intros us Hmk; simpl in Hmk.
  - injection Hmk as <-. constructor.
  - destruct (make_update item) as [u|] eqn:Hu; [|discriminate].
    destruct (make_updates items) as [us'|] eqn:Hus; [|discriminate].
    injection Hmk as <-. constructor; [exact Hu | apply IH; reflexivity].
Qed.

Lemma make_update_fields (d : list (string * Json)) (u : IssueUpdate) :
  make_update (JObj d) = Some u ->
  issue_identifier u = dict_get "issue_identifier" d (JStr "UNKNOWN") /\
  status u = dict_get "status" d (JStr "progressing") /\
  escalation_needed u = dict_get "escalation_needed" d (JBool false) /\
  issue_id u = JNull.
Proof. intros H. injection H as <-. repeat split. Qed.

(** C10, as stated, fails: a record that carries the keys with an explicit
    [null] yields an update of the returned list whose identifier and
    status are null. *)
Lemma explicit_null_is_kept :
  exists u,
    updates_of_json (JArr [JObj [("issue_identifier", JNull); ("status", JNull)]]) = Some [u] /\
    issue_identifier u = JNull /\
    status u = JNull.
Proof. eexists. repeat split. Qed.

(** C10, amended.  For every decoded list of update records that the
    conversion accepts, each constructed update takes, field by field,
    the record's value when the key is present and a fixed default when
    the key is omitted: "UNKNOWN" for [issue_identifier], "progressing"
    for [status], [False] for [escalation_needed].  Hence an update has a
    non-null identifier (status) whenever its record does not carry the
    key with an explicit null. *)
Theorem omitted_fields_get_defaults (items : list Json) (us : list IssueUpdate) :
  updates_of_json (JArr items) = Some us ->
  Forall2 (fun item u =>
    exists d, item = JObj d /\
      (dict_lookup "issue_identifier" d = None -> issue_identifier u = JStr "UNKNOWN") /\
      (dict_lookup "status" d = None -> status u = JStr "progressing") /\
      (dict_lookup "escalation_needed" d = None -> escalation_needed u = JBool false) /\
      (forall v, dict_lookup "issue_identifier" d = Some v -> issue_identifier u = v) /\
      (forall v, dict_lookup "status" d = Some v -> status u = v) /\
      (forall v, dict_lookup "escalation_needed" d = Some v -> escalation_needed u = v) /\
      (dict_lookup "issue_identifier" d <> Some JNull -> issue_identifier u <> JNull) /\
      (dict_lookup "status" d <> Some JNull -> status u <> JNull)) items us.
Proof.
  intros Hconv. simpl in Hconv. apply make_updates_Forall2 in Hconv.
  induction Hconv as [|item u items us Hu _ IH]; constructor; [|exact IH].
  destruct item as [| | | | |d]; try discriminate.
  exists d. split; [reflexivity|].
  destruct (make_update_fields d u Hu) as (Hid & Hst & Hesc & _).
  rewrite Hid, Hst, Hesc. unfold dict_get.
  repeat split.
  - intros ->. reflexivity.
  - intros ->. reflexivity.
  - intros ->. reflexivity.
  - intros v ->. reflexivity.
  - intros v ->. reflexivity.
  - intros v ->. reflexivity.
  - destruct (dict_lookup "issue_identifier" d) as [v|]; [|discriminate].
    intros Hne ->. apply Hne. reflexivity.
  - destruct (dict_lookup "status" d) as [v|]; [|discriminate].
    intros Hne ->. apply Hne. reflexivity.
Qed.

Lemma omitted_fields_get_defaults_witness :
  updates_of_json (JArr [JObj [("blockers", JStr "staging is down")]])
    = Some [{| issue_identifier := JStr "UNKNOWN"; issue_id := JNull; issue_title := JNull;
               status := JStr "progressing"; blockers := JStr "staging is down";
               dependencies := JNull; estimate_days := JNull; eta := JNull;
               next_steps := JNull; escalation_needed := JBool false;
               escalation_reason := JNull; new_assignee_email := JNull;
               transcript_snippet := JNull |}] /\
  Forall2 (fun item u =>
    exists d, item = JObj d /\
      (dict_lookup "issue_identifier" d = None -> issue_identifier u = JStr "UNKNOWN") /\
      (dict_lookup "status" d = None -> status u = JStr "progressing") /\
      (dict_lookup "escalation_needed" d = None -> escalation_needed u = JBool false) /\
      (forall v, dict_lookup "issue_identifier" d = Some v -> issue_identifier u = v) /\
      (forall v, dict_lookup "status" d = Some v -> status u = v) /\
      (forall v, dict_lookup "escalation_needed" d = Some v -> escalation_needed u = v) /\
      (dict_lookup "issue_identifier" d <> Some JNull -> issue_identifier u <> JNull) /\
      (dict_lookup "status" d <> Some JNull -> status u <> JNull))
    [JObj [("blockers", JStr "staging is down")]]
    [{| issue_identifier := JStr "UNKNOWN"; issue_id := JNull; issue_title := JNull;
        status := JStr "progressing"; blockers := JStr "staging is down";
        dependencies := JNull; estimate_days := JNull; eta := JNull;
        next_steps := JNull; escalation_needed := JBool false;
        escalation_reason := JNull; new_assignee_email := JNull;
        transcript_snippet := JNull |}].
Proof.
  split; [reflexivity|].
  apply omitted_fields_get_defaults. reflexivity.
Defined.

(** ** Fault isolation in the dispatch loop *)

Lemma grows_refl {World : Type} (st : St World) : grows st st.
Proof. exists []. symmetry. apply app_nil_r. Qed.

Lemma grows_trans {World : Type} (a b c : St World) : grows a b -> grows b c -> grows a c.
Proof.
  intros [l1 H1] [l2 H2]. exists (l1 ++ l2).
  rewrite H2, H1. symmetry. apply app_assoc.
Qed.

Lemma grows_In {World : Type} (st st' : St World) (c : Call) :
  grows st st' -> In c (trace st) -> In c (trace st').
Proof. intros [l ->] Hin. apply in_or_app. left. exact Hin. Qed.

Section DispatchFacts.
Context {World : Type} (E : Env World).

Lemma call_spec {A : Type} (c : Call) (f : World -> Outcome A * World) (st : St World) :
  call c f st =
    (fst (f (world st)), {| world := snd (f (world st)); trace := trace st ++ [c] |}).
Proof. unfold call. destruct (f (world st)); reflexivity. Qed.

Lemma call_grows {A : Type} (c : Call) (f : World -> Outcome A * World) (st : St World) :
  grows st (snd (call c f st)) /\ In c (trace (snd (call c f st))).
Proof.
  rewrite call_spec. simpl. split.
  - exists [c]. reflexivity.
  - apply in_or_app. right. left. reflexivity.
Qed.

Lemma resolve_issue_found (u : IssueUpdate) (id title : Json) (comment : string) (st : St World) :
  reaches_comment E u id title comment ->
  exists st1, resolve_issue E u st = (Ok (with_issue u id title), st1) /\ grows st st1.
Proof.
  intros (Hnull & Hident & _ & Hfind & _).
  unfold resolve_issue. rewrite Hnull, Hident. simpl.
  pose proof (call_grows (CallLookup (issue_identifier u))
                (get_issue_by_identifier E (issue_identifier u)) st) as [Hg _].
  rewrite call_spec in *. destruct (Hfind (world st)) as [w' Hw]. rewrite Hw in *.
  simpl in *. eexists. split; [reflexivity | exact Hg].
Qed.

Lemma first_non_str_status_none (us : list IssueUpdate) :
  forallb (fun u => is_str (status u)) us = true -> first_non_str_status us = None.
Proof.
  induction us as [|u rest IH]; [reflexivity|]. simpl.
  destruct (is_str (status u)); [exact IH | discriminate].
Qed.

(** A fully processed update: its comment is counted, its escalation is
    recorded, no error is added, and the calls it makes are exactly
    [calls_of_update], each at the world the one before it left. *)
Lemma process_update_full (team : string) (u : IssueUpdate) (id title : Json)
    (comment : string) (esc : option (Json * Json * Json)) (w w' : World)
    (a : Acc) (calls : list Call) :
  fully_processed E team u id title comment esc w w' ->
  process_update E team u a {| world := w; trace := calls |}
  = (with_issue u id title,
     {| acc_errors := acc_errors a;
        acc_escalations := acc_escalations a ++ escalation_of u esc;
        acc_comments := S (acc_comments a) |},
     {| world := w'; trace := calls ++ calls_of_update team u id title comment |}).
Proof.
  intros (Hnull & Hident & Hid & Hgen & w1 & w2 & w3 & Hfind & Hpost & Hest & Hesc).
  unfold process_update, resolve_issue. rewrite Hnull, Hident. cbn [truthy negb andb].
  rewrite call_spec. cbn [world trace]. rewrite Hfind. cbn [fst snd].
  unfold dispatch_update. cbn [issue_id with_issue]. rewrite Hid, Hgen.
  rewrite call_spec. cbn [world trace]. rewrite Hpost. cbn [fst snd].
  unfold estimate_then_escalate, escalate, _create_escalation, calls_of_update.
  cbn [issue_id estimate_days escalation_needed with_issue issue_identifier].
  destruct (truthy (estimate_days u)); destruct (truthy (escalation_needed u)).
  - rewrite call_spec. cbn [world trace]. rewrite Hest. cbn [fst snd].
    rewrite call_spec. cbn [world trace]. rewrite Hesc. cbn [fst snd].
    destruct esc as [[[identifier eid] url]|]; cbn [escalation_of];
      rewrite ?app_nil_r, <- !app_assoc; reflexivity.
  - rewrite call_spec. cbn [world trace]. rewrite Hest. cbn [fst snd].
    destruct Hesc as [-> ->]. cbn [escalation_of].
    rewrite ?app_nil_r, <- !app_assoc. reflexivity.
  - subst w3. rewrite call_spec. cbn [world trace]. rewrite Hesc. cbn [fst snd].
    destruct esc as [[[identifier eid] url]|]; cbn [escalation_of];
      rewrite ?app_nil_r, <- !app_assoc; reflexivity.
  - subst w3. destruct Hesc as [-> ->]. cbn [escalation_of].
    rewrite ?app_nil_r, <- ?app_assoc. reflexivity.
Qed.

(** An update whose comment post raises: one error entry, which names the
    update; nothing counted; no follow-up call. *)
Lemma process_update_post_raises (team : string) (u : IssueUpdate) (id title : Json)
    (comment e : string) (w w' : World) (a : Acc) (calls : list Call) :
  comment_post_raises E u id title comment e w w' ->
  process_update E team u a {| world := w; trace := calls |}
  = (with_issue u id title,
     add_error (error_entry E u e) a,
     {| world := w';
        trace := calls ++ [CallLookup (issue_identifier u); CallComment id comment] |}).
Proof.
  intros (Hnull & Hident & Hid & Hgen & w1 & Hfind & Hpost).
  unfold process_update, resolve_issue. rewrite Hnull, Hident. cbn [truthy negb andb].
  rewrite call_spec. cbn [world trace]. rewrite Hfind. cbn [fst snd].
  unfold dispatch_update. cbn [issue_id with_issue]. rewrite Hid, Hgen.
  rewrite call_spec. cbn [world trace]. rewrite Hpost. cbn [fst snd].
  rewrite <- app_assoc. reflexivity.
Qed.
End DispatchFacts.

Section IsolationTheorem.
Context {World : Type} (E : Env World).

(** C2.  The extraction yields three updates.  The first is processed in
    full, the comment post of the second raises [e], the third is
    processed in full, each call taken at the world the call before it
    left (so the failure may be transient, and the three entries may name
    one issue).  Summary and digest succeed.  Then [process_session_end]
    returns a result; the first and the third update are fully
    processed: both comments are counted, the estimate of each is sent
    when it carries one, the escalation of each is requested when it asks
    for one and recorded in [escalations_created], and the calls of the
    run are exactly the calls of the first update, the look-up and the
    failed post of the second, the calls of the third, the summary and
    the digest; the error list holds exactly one entry, "Error processing
    <identifier of the second>: <e>". *)
Theorem failing_comment_post_is_isolated
    (sid : string) (user agent : list Transcript) (team slack : string)
    (issues : list Json) (st st1 : St World)
    (u1 u2 u3 : IssueUpdate) (id1 id2 id3 title1 title2 title3 : Json)
    (c1 c2 c3 name2 e : string) (esc1 esc3 : option (Json * Json * Json))
    (w1 w2 w3 : World) :
  50 <= py_len (_format_conversation user agent) ->
  extract_step E (_format_conversation user agent) issues st = ([u1; u2; u3], acc0, st1) ->
  fully_processed E team u1 id1 title1 c1 esc1 (world st1) w1 ->
  comment_post_raises E u2 id2 title2 c2 e w1 w2 ->
  fully_processed E team u3 id3 title3 c3 esc3 w2 w3 ->
  issue_identifier u2 = JStr name2 ->
  forallb (fun u => is_str (status u)) [u1; u2; u3] = true ->
  report_succeeds E team slack
    [with_issue u1 id1 title1; with_issue u2 id2 title2; with_issue u3 id3 title3]
    (escalation_of u1 esc1 ++ escalation_of u3 esc3) w3 ->
  exists r st',
    process_session_end E sid user agent team slack issues st = (Ok r, st') /\
    errors r = [("Error processing " ++ name2 ++ ": " ++ e)%string] /\
    total_updates r = 3 /\
    linear_comments_posted r = 2 /\
    issue_updates r =
      [with_issue u1 id1 title1; with_issue u2 id2 title2; with_issue u3 id3 title3] /\
    escalations_created r = escalation_of u1 esc1 ++ escalation_of u3 esc3 /\
    trace st' =
      trace st1
      ++ calls_of_update team u1 id1 title1 c1
      ++ [CallLookup (issue_identifier u2); CallComment id2 c2]
      ++ calls_of_update team u3 id3 title3 c3
      ++ [CallSummary
            [with_issue u1 id1 title1; with_issue u2 id2 title2; with_issue u3 id3 title3]
            team]
      ++ (if negb (slack =? "")%string
          then [CallSlack slack
                  [with_issue u1 id1 title1; with_issue u2 id2 title2;
                   with_issue u3 id3 title3]
                  (escalation_of u1 esc1 ++ escalation_of u3 esc3)]
          else []).
Proof.
  intros Hlen Hext F1 R2 F3 Hname Hstatus (summary & w4 & Hsum & Hslack).
  unfold process_session_end.
  replace (py_len (_format_conversation user agent) <? 50) with false
    by (symmetry; apply Nat.ltb_ge; exact Hlen).
  rewrite Hext. cbn [process_updates].
  destruct st1 as [w0 calls]. cbn [world trace] in *.
  rewrite (process_update_full E team u1 id1 title1 c1 esc1 w0 w1 _ _ F1).
  rewrite (process_update_post_raises E team u2 id2 title2 c2 e w1 w2 _ _ R2).
  rewrite (process_update_full E team u3 id3 title3 c3 esc3 w2 w3 _ _ F3).
  set (us := [with_issue u1 id1 title1; with_issue u2 id2 title2; with_issue u3 id3 title3])
    in *.
  unfold summary_step. rewrite call_spec. cbn [world trace acc_escalations acc0 add_error].
  rewrite Hsum. cbn [fst snd app].
  assert (Hst : first_non_str_status us = None)
    by (apply first_non_str_status_none; exact Hstatus).
  unfold slack_step, _post_slack_summary. rewrite Hst.
  cbn [acc_escalations acc_errors acc_comments add_error acc0 app].
  unfold error_entry, fmt. rewrite Hname.
  destruct (negb (slack =? "")%string) eqn:Hch.
  - rewrite call_spec. cbn [world trace].
    destruct Hslack as (posted & w5 & Hw5).
    { intros ->. discriminate. }
    rewrite Hw5. cbn [fst snd].
    eexists _, _. split; [reflexivity|]. cbn [errors total_updates linear_comments_posted
      issue_updates escalations_created trace length].
    repeat split. rewrite <- ?app_assoc. reflexivity.
  - eexists _, _. split; [reflexivity|]. cbn [errors total_updates linear_comments_posted
      issue_updates escalations_created trace length].
    repeat split. rewrite <- ?app_assoc, ?app_nil_r. reflexivity.
Qed.
End IsolationTheorem.

Lemma failing_comment_post_is_isolated_witness :
  exists r st',
    process_session_end flaky_env "standup-1" long_user long_agent "T1" "C1" []
      {| world := 0; trace := [] |} = (Ok r, st') /\
    errors r = [("Error processing " ++ "A-1" ++ ": " ++ "500 Server Error")%string] /\
    total_updates r = 3 /\
    linear_comments_posted r = 2 /\
    issue_updates r =
      [with_issue first_entry (JStr "id-of-A-1") (JStr "title");
       with_issue second_entry (JStr "id-of-A-1") (JStr "title");
       with_issue third_entry (JStr "id-of-A-1") (JStr "title")] /\
    escalations_created r
    = escalation_of first_entry (Some (JStr "A-9", JStr "id-of-A-9", JStr "https://tracker/A-9"))
      ++ escalation_of third_entry None /\
    trace st' =
      trace {| world := 0; trace := [CallLLM (_format_conversation long_user long_agent) []] |}
      ++ calls_of_update "T1" first_entry (JStr "id-of-A-1") (JStr "title") "Standup Update"
      ++ [CallLookup (issue_identifier second_entry);
          CallComment (JStr "id-of-A-1") "Standup Update"]
      ++ calls_of_update "T1" third_entry (JStr "id-of-A-1") (JStr "title") "Standup Update"
      ++ [CallSummary
            [with_issue first_entry (JStr "id-of-A-1") (JStr "title");
             with_issue second_entry (JStr "id-of-A-1") (JStr "title");
             with_issue third_entry (JStr "id-of-A-1") (JStr "title")]
            "T1"]
      ++ (if negb ("C1" =? "")%string
          then [CallSlack "C1"
                  [with_issue first_entry (JStr "id-of-A-1") (JStr "title");
                   with_issue second_entry (JStr "id-of-A-1") (JStr "title");
                   with_issue third_entry (JStr "id-of-A-1") (JStr "title")]
                  (escalation_of first_entry
                     (Some (JStr "A-9", JStr "id-of-A-9", JStr "https://tracker/A-9"))
                   ++ escalation_of third_entry None)]
          else []).
Proof.
  apply (failing_comment_post_is_isolated flaky_env
           "standup-1" long_user long_agent "T1" "C1" []
           {| world := 0; trace := [] |}
           {| world := 0; trace := [CallLLM (_format_conversation long_user long_agent) []] |}
           first_entry second_entry third_entry
           (JStr "id-of-A-1") (JStr "id-of-A-1") (JStr "id-of-A-1")
           (JStr "title") (JStr "title") (JStr "title")
           "Standup Update" "Standup Update" "Standup Update" "A-1" "500 Server Error"
           (Some (JStr "A-9", JStr "id-of-A-9", JStr "https://tracker/A-9")) None
           1 2 3).
  - vm_compute. lia.
  - vm_compute. reflexivity.
  - repeat split; try reflexivity. exists 0, 1, 1. repeat split; reflexivity.
  - repeat split; try reflexivity. exists 1. split; reflexivity.
  - repeat split; try reflexivity. exists 2, 3, 3. repeat split; reflexivity.
  - reflexivity.
  - reflexivity.
  - exists "Executive summary"%string, 3. split; [reflexivity|].
    intros _. exists true, 3. reflexivity.
Defined.

(** The run of the witness, computed: the escalation of the first entry
    is recorded, the estimates of the first and the third are sent. *)
Example flaky_run :
  let '(r, st') := process_session_end flaky_env "standup-1" long_user long_agent "T1" "C1" []
                     {| world := 0; trace := [] |} in
  match r with
  | Ok r =>
      errors r = ["Error processing A-1: 500 Server Error"%string] /\
      linear_comments_posted r = 2 /\
      length (escalations_created r) = 1 /\
      count_occ Nat.eq_dec (map call_kind (trace st')) 4 = 2 /\
      count_occ Nat.eq_dec (map call_kind (trace st')) 5 = 1
  | Raise _ => False
  end.
Proof. vm_compute. repeat split. Qed.

(** ** An undecodable answer of the reasoning backend *)

Lemma first_non_obj_none (l : list Json) :
  forallb is_obj l = true -> first_non_obj l = None.
Proof.
  induction l as [|v rest IH]; [reflexivity|]. simpl.
  destruct (is_obj v); [exact IH | discriminate].
Qed.

Lemma first_non_obj_some (l : list Json) :
  forallb is_obj l = false ->
  exists v, first_non_obj l = Some v /\ In v l /\ is_obj v = false.
Proof.
  induction l as [|v rest IH]; [discriminate|]. simpl.
  destruct (is_obj v) eqn:Hv; simpl.
  - intros H. destruct (IH H) as (x & Hx & Hin & Hno).
    exists x. repeat split; [exact Hx | right; exact Hin | exact Hno].
  - intros _. exists v. repeat split; [left; reflexivity | exact Hv].
Qed.

Section ExtractionFacts.
Context {World : Type} (E : Env World).

(** Whatever the backend answers or raises, [_extract_issue_updates]
    itself raises only for a malformed known-issue list. *)
Lemma extract_never_raises_on_backend (conversation : string) (known : list Json)
    (st : St World) :
  forallb is_obj known = true ->
  exists us st1, _extract_issue_updates E conversation known st = (Ok us, st1).
Proof.
  intros Hk. unfold _extract_issue_updates. rewrite (first_non_obj_none _ Hk).
  destruct (call _ _ st) as [[response|e] st1]; [|eexists _, _; reflexivity].
  destruct (json_loads E (clean_response response)) as [data|]; [|eexists _, _; reflexivity].
  destruct (updates_of_json data); eexists _, _; reflexivity.
Qed.

(** A decode failure yields the empty update list and is not recorded:
    the accumulator that leaves step 2 carries no error. *)
Lemma decode_failure_is_not_recorded (conversation response : string) (known : list Json)
    (st : St World) (w : World) :
  forallb is_obj known = true ->
  call_llm E conversation known (world st) = (Ok response, w) ->
  json_loads E (clean_response response) = None ->
  extract_step E conversation known st
    = ([], acc0, {| world := w; trace := trace st ++ [CallLLM conversation known] |}).
Proof.
  intros Hk Hllm Hdec. unfold extract_step, _extract_issue_updates.
  rewrite (first_non_obj_none _ Hk), call_spec, Hllm. simpl. rewrite Hdec. reflexivity.
Qed.
End ExtractionFacts.

(** C3, at a failing input.  The backend answers with prose, which does
    not decode.  [process_session_end] returns a result with an empty
    update list and raises nothing, but its error list is empty: the
    decode error is swallowed inside [_extract_issue_updates] and never
    reaches the handler of step 2 that would record it. *)
Lemma undecodable_answer_leaves_no_error :
  json_loads (scripted_env prose_answer "none") (clean_response prose_answer) = None /\
  exists r st',
    process_session_end (scripted_env prose_answer "none") "standup-1"
      long_user long_agent "T1" "C1" [] st0 = (Ok r, st') /\
    issue_updates r = [] /\
    total_updates r = 0 /\
    errors r = [].
Proof.
  split; [reflexivity|].
  eexists _, _. split; [vm_compute; reflexivity|].
  repeat split.
Qed.

(** ** The callback registry *)

Section CallbackFacts.
Context {World : Type} (U : Upstream World).

Lemma register_all_other (regs : list (string * Callback)) (h : Handler) (event : string) :
  Forall (fun r => fst r <> event) regs ->
  response_callbacks (register_all regs h) !! event = response_callbacks h !! event.
Proof.
  revert h. induction regs as [|[e cb] regs IH]; intros h Hne; [reflexivity|].
  apply Forall_cons in Hne as [Hhead Htail]. simpl in *.
  rewrite IH by exact Htail. simpl.
  apply lookup_insert_ne. exact Hhead.
Qed.

(** C8.  The registry maps an event type to one callback.  Registering
    [new] for an event type that already has [old] replaces it: the
    registry is the one that would result had [old] never been
    registered for that type, the lookup for the type answers [new],
    and, whatever is registered afterwards for other event types, a
    later notification of that type invokes [new] once and nothing
    else. *)
Theorem later_registration_replaces
    (h : Handler) (event : string) (old new : Callback)
    (others : list (string * Callback)) (payload : EventData) (st : USt World) :
  Forall (fun r => fst r <> event) others ->
  response_callbacks (register_callback event new (register_callback event old h))
    = response_callbacks (register_callback event new h) /\
  response_callbacks
    (register_all others (register_callback event new (register_callback event old h)))
    !! event = Some new /\
  u_invoked
    (_notify event payload
       (register_all others (register_callback event new (register_callback event old h))) st)
    = u_invoked st ++ [(new, payload)].
Proof.
  intros Hothers.
  assert (Hlook : response_callbacks
            (register_all others
               (register_callback event new (register_callback event old h)))
            !! event = Some new).
  { rewrite register_all_other by exact Hothers. simpl. apply lookup_insert_eq. }
  split; [|split].
  - simpl. apply insert_insert_eq.
  - exact Hlook.
  - unfold _notify. rewrite Hlook. reflexivity.
Qed.
End CallbackFacts.

(** ** Dropped and buffered audio *)

Section QueueFacts.
Context {World : Type} (U : Upstream World).

(** C9.  A frame offered to [queue_pcm] while the handler is not
    connected, or an empty frame, changes nothing: handler (pending
    queue and accumulation buffer included) and outside state are
    returned as they were.  A non-empty frame offered to a connected
    handler that is not ready yet goes to the pending queue (which
    keeps the ten most recent) and to nothing else. *)
Theorem queue_pcm_drops_or_buffers (pcm16 : Bytes) (h : Handler) (st : USt World) :
  (is_connected h = false \/ pcm16 = [] -> queue_pcm U pcm16 h st = (h, st)) /\
  (is_connected h = true -> pcm16 <> [] -> _conversation_ready h = false ->
     queue_pcm U pcm16 h st
       = (set_pending (push_pending pcm16 (_pending_audio_before_ready h)) h, st) /\
     _pcm_buffer (fst (queue_pcm U pcm16 h st)) = _pcm_buffer h /\
     last (_pending_audio_before_ready (fst (queue_pcm U pcm16 h st))) = Some pcm16).
Proof.
  split.
  - intros [Hc | ->]; unfold queue_pcm.
    + rewrite Hc. reflexivity.
    + rewrite orb_true_r. reflexivity.
  - intros Hc Hne Hr.
    assert (Hq : queue_pcm U pcm16 h st
                 = (set_pending (push_pending pcm16 (_pending_audio_before_ready h)) h, st)).
    { unfold queue_pcm. rewrite Hc, Hr. destruct pcm16; [contradiction|reflexivity]. }
    rewrite Hq. split; [reflexivity|]. split; [reflexivity|].
    simpl. unfold push_pending.
    destruct (10 <? length (_pending_audio_before_ready h ++ [pcm16])) eqn:Hlen.
    + destruct (_pending_audio_before_ready h) as [|x rest]; simpl.
      * simpl in Hlen. discriminate.
      * apply last_snoc.
    + apply last_snoc.
Qed.
End QueueFacts.

Lemma later_registration_replaces_witness :
  response_callbacks (register_callback "tool_call" 2 (register_callback "tool_call" 1 (new_handler 0)))
    = response_callbacks (register_callback "tool_call" 2 (new_handler 0)) /\
  response_callbacks
    (register_all [("error", 3)]
       (register_callback "tool_call" 2 (register_callback "tool_call" 1 (new_handler 0))))
    !! "tool_call" = Some 2 /\
  u_invoked
    (_notify "tool_call" (EvJson (JObj [("name", JStr "end_call")]))
       (register_all [("error", 3)]
          (register_callback "tool_call" 2 (register_callback "tool_call" 1 (new_handler 0))))
       ust0)
    = u_invoked ust0 ++ [(2, EvJson (JObj [("name", JStr "end_call")]))].
Proof.
  apply (later_registration_replaces (new_handler 0) "tool_call" 1 2 [("error", 3)]
           (EvJson (JObj [("name", JStr "end_call")])) ust0).
  constructor; [discriminate | constructor].
Defined.

Lemma queue_pcm_drops_or_buffers_witness :
  queue_pcm (scripted_upstream (fun _ => true) (fun _ => None))
    [Byte.x01; Byte.x02] (new_handler 0) ust0 = (new_handler 0, ust0) /\
  queue_pcm (scripted_upstream (fun _ => true) (fun _ => None))
    [] connected_handler ust0 = (connected_handler, ust0) /\
  _pending_audio_before_ready
    (fst (queue_pcm (scripted_upstream (fun _ => true) (fun _ => None))
            [Byte.x01; Byte.x02] connected_handler ust0)) = [[Byte.x01; Byte.x02]].
Proof.
  split; [|split].
  - apply (proj1 (queue_pcm_drops_or_buffers
                    (scripted_upstream (fun _ => true) (fun _ => None))
                    [Byte.x01; Byte.x02] (new_handler 0) ust0)).
    left. reflexivity.
  - apply (proj1 (queue_pcm_drops_or_buffers
                    (scripted_upstream (fun _ => true) (fun _ => None))
                    [] connected_handler ust0)).
    right. reflexivity.
  - rewrite (proj1 (proj2 (queue_pcm_drops_or_buffers
                      (scripted_upstream (fun _ => true) (fun _ => None))
                      [Byte.x01; Byte.x02] connected_handler ust0)
                    eq_refl ltac:(discriminate) eq_refl)).
    reflexivity.
Defined.

(** ** Payload-format negotiation *)

Section FormatFacts.
Context {World : Type} (U : Upstream World).

Lemma send_spec (p : Payload) (st : USt World) :
  send U p st =
    (fst (ws_send U p (u_world st)),
     {| u_world := snd (ws_send U p (u_world st));
        u_sent := u_sent st ++ [(p, fst (ws_send U p (u_world st)))];
        u_invoked := u_invoked st; u_outbox := u_outbox st |}).
Proof. unfold send. destruct (ws_send U p (u_world st)); reflexivity. Qed.

(** With a cached format whose sends succeed, every chunk costs one
    attempt, in the cached shape, and the cache is left alone. *)
Lemma cached_sends (k : nat) (chunks : list Bytes) (h : Handler) (st : USt World) :
  k < 4 ->
  websocket h = true -> is_connected h = true ->
  _successful_payload_format h = Some k ->
  Forall (fun c => c <> []) chunks ->
  keep_succeeding U k chunks (u_world st) ->
  exists st',
    send_chunks U chunks h st = (h, st') /\
    u_sent st' = u_sent st ++ map (fun c => ({| variant := k; audio := pad_even c |}, true)) chunks.
Proof.
  intros Hk Hws Hconn Hfmt. revert st.
  induction chunks as [|c rest IH]; intros st Hne Hkeep.
  - exists st. split; [reflexivity|]. simpl. symmetry. apply app_nil_r.
  - apply Forall_cons in Hne as [Hc Hrest].
    destruct Hkeep as (w' & Hsend & Hkeep).
    simpl. unfold _send_chunk. rewrite Hws, Hconn, Hfmt. simpl.
    destruct c as [|b c']; [contradiction|].
    assert (Hnth : nth_error (variants (pad_even (b :: c'))) k
                   = Some {| variant := k; audio := pad_even (b :: c') |}).
    { destruct k as [|[|[|[|k]]]]; try reflexivity. lia. }
    rewrite Hnth, send_spec, Hsend. simpl.
    destruct (IH {| u_world := w';
                    u_sent := u_sent st ++ [({| variant := k; audio := pad_even (b :: c') |}, true)];
                    u_invoked := u_invoked st; u_outbox := u_outbox st |} Hrest Hkeep)
      as (st' & Hrun & Hlog).
    exists st'. split; [exact Hrun|].
    rewrite Hlog. simpl. rewrite <- app_assoc. reflexivity.
Qed.

(** C7.  On a live connection with nothing cached, the first chunk is
    refused in shape 0 and accepted in shape 1.  Then shape 1 is cached,
    and for as long as the sends keep succeeding every later chunk is
    sent in exactly one attempt, in shape 1: the attempts recorded for
    the later chunks are one accepted shape-1 payload per chunk, and the
    cache and the connection flag are unchanged at the end. *)
Theorem cached_format_is_reused
    (h : Handler) (st : USt World) (chunk : Bytes) (later : list Bytes) (w1 w2 : World) :
  websocket h = true ->
  is_connected h = true ->
  _successful_payload_format h = None ->
  chunk <> [] ->
  Forall (fun c => c <> []) later ->
  ws_send U {| variant := 0; audio := pad_even chunk |} (u_world st) = (false, w1) ->
  ws_send U {| variant := 1; audio := pad_even chunk |} w1 = (true, w2) ->
  keep_succeeding U 1 later w2 ->
  exists st1 st2,
    _send_chunk U chunk h st = (set_format (Some 1) h, st1) /\
    u_sent st1 = u_sent st ++ [({| variant := 0; audio := pad_even chunk |}, false);
                               ({| variant := 1; audio := pad_even chunk |}, true)] /\
    send_chunks U later (set_format (Some 1) h) st1 = (set_format (Some 1) h, st2) /\
    u_sent st2 = u_sent st1
                 ++ map (fun c => ({| variant := 1; audio := pad_even c |}, true)) later /\
    _successful_payload_format (fst (send_chunks U later (set_format (Some 1) h) st1)) = Some 1 /\
    is_connected (fst (send_chunks U later (set_format (Some 1) h) st1)) = true.
Proof.
  intros Hws Hconn Hnone Hchunk Hlater Hfail Hok Hkeep.
  assert (Hfirst : exists st1,
            _send_chunk U chunk h st = (set_format (Some 1) h, st1) /\
            u_world st1 = w2 /\
            u_sent st1 = u_sent st ++ [({| variant := 0; audio := pad_even chunk |}, false);
                                       ({| variant := 1; audio := pad_even chunk |}, true)]).
  { unfold _send_chunk. rewrite Hws, Hconn, Hnone. simpl.
    destruct chunk as [|b c']; [contradiction|].
    simpl try_variants. rewrite send_spec, Hfail. simpl.
    rewrite send_spec. simpl. rewrite Hok. simpl.
    eexists. split; [reflexivity|]. split; [reflexivity|].
    simpl. rewrite <- app_assoc. reflexivity. }
  destruct Hfirst as (st1 & Hsend1 & Hw & Hlog1).
  destruct (cached_sends 1 later (set_format (Some 1) h) st1) as (st2 & Hrun & Hlog2);
    try assumption; try reflexivity; [lia | rewrite Hw; exact Hkeep |].
  exists st1, st2. rewrite Hrun. simpl.
  repeat split; assumption.
Qed.
End FormatFacts.

Lemma cached_format_is_reused_witness :
  exists st1 st2,
    _send_chunk (scripted_upstream (fun k => negb (k =? 0)) (fun _ => None))
      [Byte.x01; Byte.x02] connected_handler ust0
      = (set_format (Some 1) connected_handler, st1) /\
    u_sent st1 = u_sent ust0 ++ [({| variant := 0; audio := pad_even [Byte.x01; Byte.x02] |}, false);
                                 ({| variant := 1; audio := pad_even [Byte.x01; Byte.x02] |}, true)] /\
    send_chunks (scripted_upstream (fun k => negb (k =? 0)) (fun _ => None))
      [[Byte.x03]; [Byte.x04; Byte.x05]] (set_format (Some 1) connected_handler) st1
      = (set_format (Some 1) connected_handler, st2) /\
    u_sent st2 = u_sent st1
                 ++ map (fun c => ({| variant := 1; audio := pad_even c |}, true))
                      [[Byte.x03]; [Byte.x04; Byte.x05]] /\
    _successful_payload_format
      (fst (send_chunks (scripted_upstream (fun k => negb (k =? 0)) (fun _ => None))
              [[Byte.x03]; [Byte.x04; Byte.x05]] (set_format (Some 1) connected_handler) st1))
      = Some 1 /\
    is_connected
      (fst (send_chunks (scripted_upstream (fun k => negb (k =? 0)) (fun _ => None))
              [[Byte.x03]; [Byte.x04; Byte.x05]] (set_format (Some 1) connected_handler) st1))
      = true.
Proof.
  apply (cached_format_is_reused (scripted_upstream (fun k => negb (k =? 0)) (fun _ => None))
           connected_handler ust0 [Byte.x01; Byte.x02] [[Byte.x03]; [Byte.x04; Byte.x05]]
           0%Z 0%Z).
  - reflexivity.
  - reflexivity.
  - reflexivity.
  - discriminate.
  - repeat constructor; discriminate.
  - reflexivity.
  - reflexivity.
  - simpl. exists 0%Z. split; [reflexivity|]. exists 0%Z. split; [reflexivity|]. exact I.
Defined.

(** ** The voice-activity gate *)

Lemma Qltb_lt (x y : Q) : Qltb x y = true <-> (x < y)%Q.
Proof.
  unfold Qltb. rewrite negb_true_iff. split.
  - intros H. apply Qnot_le_lt. intros Hle. apply Qle_bool_iff in Hle. congruence.
  - intros H. destruct (Qle_bool y x) eqn:Hle; [|reflexivity].
    apply Qle_bool_iff in Hle. lra.
Qed.

(** A frame for which [_is_speech] reports an energy above 0.008 is
    classified as speech. *)
Lemma sustained_frame_is_speech (f : AudioFrame) :
  (0.008 < snd (_is_speech f))%Q -> fst (_is_speech f) = true.
Proof.
  unfold _is_speech.
  destruct (pcm f); simpl; [lra|].
  destruct (_ =? 0); simpl; [lra|].
  destruct (_ =? 0); simpl; [lra|].
  intros H. apply Qltb_lt. lra.
Qed.

Lemma gate_on_speech (f : AudioFrame) (s : Session) :
  fst (_is_speech f) = true -> snd (gate f s) = Some "speech".
Proof.
  unfold gate. destruct (_is_speech f) as [speech rms]. simpl. intros ->.
  reflexivity.
Qed.

(** C6.  Over any run of at least 30 pre-start frames whose reported
    energy is above 0.008 throughout, and from any state of the counters,
    the gate signals start at some frame no later than the 30th; the
    reason is "speech" when the speech condition holds on that frame and
    "avg_rms" otherwise. *)
Theorem sustained_energy_starts_by_frame_30 (frames : list AudioFrame) (s : Session) :
  Forall (fun f => (0.008 < snd (_is_speech f))%Q) frames ->
  30 <= length frames ->
  exists n reason f,
    first_signal 1 frames s = Some (n, reason) /\
    1 <= n <= 30 /\
    nth_error frames (n - 1) = Some f /\
    ((fst (_is_speech f) = true /\ reason = "speech"%string) \/
     (fst (_is_speech f) = false /\ reason = "avg_rms"%string)).
Proof.
  intros Hall Hlen.
  destruct frames as [|f rest]; [simpl in Hlen; lia|].
  apply Forall_cons in Hall as [Hf _].
  pose proof (sustained_frame_is_speech f Hf) as Hspeech.
  pose proof (gate_on_speech f s Hspeech) as Hgate.
  exists 1, "speech"%string, f. simpl.
  destruct (gate f s) as [s1 signal]. simpl in Hgate. rewrite Hgate.
  repeat split; try lia. left. split; [exact Hspeech | reflexivity].
Qed.

(** Under the hypothesis of C6 the speech condition already holds on the
    first frame. *)
Lemma sustained_energy_is_speech_at_once (f : AudioFrame) (rest : list AudioFrame) (s : Session) :
  (0.008 < snd (_is_speech f))%Q ->
  first_signal 1 (f :: rest) s = Some (1, "speech"%string).
Proof.
  intros Hf. simpl.
  pose proof (gate_on_speech f s (sustained_frame_is_speech f Hf)) as Hgate.
  destruct (gate f s) as [s1 signal]. simpl in Hgate. rewrite Hgate. reflexivity.
Qed.

Lemma repeat_Forall {A : Type} (P : A -> Prop) (x : A) (n : nat) :
  P x -> Forall P (repeat x n).
Proof. intros H. induction n; simpl; constructor; assumption. Qed.

Lemma sustained_energy_starts_by_frame_30_witness :
  exists n reason f,
    first_signal 1 (repeat loud_frame 30) (session_with None 0 0) = Some (n, reason) /\
    1 <= n <= 30 /\
    nth_error (repeat loud_frame 30) (n - 1) = Some f /\
    ((fst (_is_speech f) = true /\ reason = "speech"%string) \/
     (fst (_is_speech f) = false /\ reason = "avg_rms"%string)).
Proof.
  apply (sustained_energy_starts_by_frame_30 (repeat loud_frame 30) (session_with None 0 0)).
  - apply repeat_Forall. reflexivity.
  - simpl. lia.
Defined.

(** The other two reasons are produced as well: after 29 loud frames whose
    start attempts failed, a quiet 30th frame signals with "avg_rms"; on
    silence the gate waits for the 100th frame and signals with "auto". *)
Example scripted_frames_energy : energy_matches loud_frame /\ energy_matches quiet_frame.
Proof. repeat split; try reflexivity; unfold Qle; simpl; lia. Qed.

Example quiet_frame_after_loud_ones :
  snd (gate quiet_frame (session_with None 29 (29 * (1 # 8)))) = Some "avg_rms"%string.
Proof. reflexivity. Qed.

Example silence_starts_at_frame_100 :
  first_signal 1 (repeat quiet_frame 120) (session_with None 0 0) = Some (100, "auto"%string).
Proof. vm_compute. reflexivity. Qed.

(** ** The readiness wait *)

Section ReadinessFacts.
Context {World : Type} (U : Upstream World).

(** With a silent upstream the wait ends by the deadline, not by the poll
    budget, and answers [False]; nothing is sent meanwhile. *)
Lemma wait_ready_times_out (fuel : nat) (start : Z) (h : Handler) (st : USt World) :
  upstream_silent U ->
  _conversation_ready h = false ->
  1 <= fuel ->
  (start + 5000 - now U (u_world st) <= 50 * (Z.of_nat fuel - 1))%Z ->
  exists st', wait_ready U fuel start h st = Some (false, h, st') /\ same_logs st st'.
Proof.
  intros Hsilent Hready. revert st.
  induction fuel as [|fuel IH]; intros st Hfuel Hbudget; [lia|].
  simpl. destruct (now U (u_world st) - start <? 5000)%Z eqn:Hin.
  - rewrite Hready.
    pose proof (Hsilent (u_world st)) as Hs.
    pose proof (sleep_advances U (u_world st)) as Hadv.
    destruct (sleep U (u_world st)) as [arrived w]. simpl in Hs, Hadv. subst arrived.
    apply Z.ltb_lt in Hin.
    destruct (IH {| u_world := w; u_sent := u_sent st;
                    u_invoked := u_invoked st; u_outbox := u_outbox st |})
      as (st' & Hrun & Hlogs); [lia | simpl; lia |].
    exists st'. split; [exact Hrun | exact Hlogs].
  - exists st. split; [reflexivity|]. repeat split.
Qed.

Lemma connect_logs (h : Handler) (st : USt World) :
  same_logs st (snd (connect U h st)) /\
  _conversation_ready (snd (fst (connect U h st))) = _conversation_ready h.
Proof.
  unfold connect. destruct (is_connected h && websocket h); [repeat split|].
  destruct (ws_connect U (u_world st)) as [[|] w]; repeat split.
Qed.

(** [start_conversation] on a silent upstream: it returns, and what it
    returns is [False], whether or not the handler was connected and
    whether or not the handshake succeeds. *)
Lemma start_conversation_times_out (h : Handler) (st : USt World) :
  upstream_silent U ->
  _conversation_ready h = false ->
  exists h' st',
    start_conversation U h st = Some (false, h', st') /\
    same_logs st st' /\ _conversation_ready h' = false.
Proof.
  intros Hsilent Hready. unfold start_conversation.
  destruct (negb (is_connected h)).
  - pose proof (connect_logs h st) as [Hlogs Hr].
    destruct (connect U h st) as [[connected h1] st1]. simpl in Hlogs, Hr.
    destruct connected; cbv beta iota delta [negb].
    + destruct (wait_ready_times_out poll_fuel (now U (u_world st1)) h1 st1)
        as (st' & Hrun & Hlogs'); try assumption; try (unfold poll_fuel; simpl; lia);
        [congruence|].
      exists h1, st'. rewrite Hrun. split; [reflexivity|]. split; [|congruence].
      destruct Hlogs as (A & B & C), Hlogs' as (A' & B' & C'). repeat split; congruence.
    + exists h1, st1. split; [reflexivity|]. split; [exact Hlogs | congruence].
  - cbv beta iota delta [negb].
    destruct (wait_ready_times_out poll_fuel (now U (u_world st)) h st)
      as (st' & Hrun & Hlogs'); try assumption; try (unfold poll_fuel; simpl; lia).
    exists h, st'. rewrite Hrun. repeat split; try apply Hlogs'. exact Hready.
Qed.

Lemma bridge_start_times_out (b : Bridge) (st : USt World) :
  upstream_silent U ->
  _started b = false ->
  _conversation_ready (handler b) = false ->
  exists b' st',
    bridge_start_conversation U b st = Some (false, b', st') /\
    same_logs st st' /\ _started b' = false /\ _conversation_ready (handler b') = false.
Proof.
  intros Hsilent Hst Hready. unfold bridge_start_conversation. rewrite Hst. simpl.
  destruct (start_conversation_times_out (handler b) st Hsilent Hready)
    as (h' & st' & Hrun & Hlogs & Hr).
  rewrite Hrun. eexists _, st'. split; [reflexivity|]. repeat split; try apply Hlogs.
  exact Hr.
Qed.

(** The three sides of a start that times out.  When the readiness event
    does not arrive, [start_conversation] returns [False] (it returns:
    neither a raise nor an exhausted poll budget).  On the voice-gate path
    of [process_audio] the failed start is followed by no message to the
    client at all, the session stays active and not started, and the gate
    may try again on a later frame.  On the [force_start] path the failure
    is sent to the client as a status event with status "error" and
    [started] false; when the send is delivered the loop goes on with the
    session active, when it is not the loop is left. *)
Theorem readiness_timeout_reporting
    (s : Session) (b : Bridge) (st : USt World) (f : AudioFrame) (reason : string) :
  upstream_silent U ->
  is_active s = true ->
  bridge s = Some b ->
  _started b = false ->
  _conversation_ready (handler b) = false ->
  snd (gate f s) = Some reason ->
  (exists h' st', start_conversation U (handler b) st = Some (false, h', st')) /\
  (exists s' st' b',
     process_audio U f s st = Some (s', st') /\
     u_outbox st' = u_outbox st /\
     is_active s' = true /\
     _conversation_started s' = _conversation_started s /\
     bridge s' = Some b' /\ has_started b' = false) /\
  (exists (s' : Session) (st' : USt World) (delivered : bool),
     force_start U s st = Some ((if delivered then Continue else Break), s', st') /\
     u_outbox st' = u_outbox st ++ [(force_status false, delivered)] /\
     is_status_event (force_status false) = true /\
     force_status false
       = JObj [("type", JStr "status"); ("status", JStr "error");
               ("started", JBool false); ("reason", JStr "force")] /\
     (delivered = true -> is_active s' = true)).
Proof.
  intros Hsilent Hact Hb Hst Hready Hgate.
  destruct (bridge_start_times_out b st Hsilent Hst Hready)
    as (b' & st' & Hrun & (Hsent & Hinv & Hout) & Hst' & Hr').
  split; [|split].
  - destruct (start_conversation_times_out (handler b) st Hsilent Hready)
      as (h' & st1 & Hrun1 & _). exists h', st1. exact Hrun1.
  - unfold process_audio. rewrite Hact, Hb. unfold has_started. rewrite Hst.
    cbv beta iota delta [negb].
    unfold gate in Hgate.
    destruct (_is_speech f) as [speech rms].
    destruct (observe rms s) as [s1 avg_rms] eqn:Hobs.
    simpl in Hgate.
    destruct (should_start speech (_pre_start_chunks s1) avg_rms); [|discriminate].
    rewrite Hrun.
    exists (set_bridge b' s1), st', b'. split; [reflexivity|].
    unfold observe in Hobs. injection Hobs as <- _. simpl.
    repeat split; try assumption.
  - unfold force_start. rewrite Hb. unfold has_started. rewrite Hst. simpl.
    rewrite Hrun. unfold to_client.
    destruct (client_send U (force_status false) (u_world st')) as [delivered w].
    exists (set_bridge b' s),
      {| u_world := w; u_sent := u_sent st'; u_invoked := u_invoked st';
         u_outbox := u_outbox st' ++ [(force_status false, delivered)] |}, delivered.
    split; [destruct delivered; reflexivity|]. simpl.
    rewrite Hout. repeat split. intros _. exact Hact.
Qed.
End ReadinessFacts.

(** C5.  On the voice-gate path a start that times out is not surfaced to
    the client.  With a connected bridge whose upstream never sends the
    readiness event, a loud frame opens the gate, the start attempt
    returns [False] after the five-second wait, and [process_audio] ends
    with nothing sent to the client, the session still active.  From the
    same state the [force_start] branch of the message loop does report
    the failed start, as a status event with status "error". *)
Lemma gate_timeout_sends_nothing :
  snd (gate loud_frame waiting_session) = Some "speech"%string /\
  (exists b' stb s' st',
     bridge_start_conversation silent_upstream waiting_bridge ust0 = Some (false, b', stb) /\
     u_world stb = 5000%Z /\
     process_audio silent_upstream loud_frame waiting_session ust0 = Some (s', st') /\
     u_outbox st' = [] /\
     is_active s' = true) /\
  exists s' st',
    force_start silent_upstream waiting_session ust0 = Some (Continue, s', st') /\
    u_outbox st'
    = [(JObj [("type", JStr "status"); ("status", JStr "error");
              ("started", JBool false); ("reason", JStr "force")], true)].
Proof.
  split; [reflexivity|]. split.
  - eexists _, _, _, _.
    split; [vm_compute; reflexivity|].
    split; [reflexivity|].
    split; [vm_compute; reflexivity|].
    split; reflexivity.
  - eexists _, _. split; [vm_compute; reflexivity|]. reflexivity.
Qed.

Lemma readiness_timeout_reporting_witness :
  (exists h' st', start_conversation silent_upstream connected_handler ust0
                  = Some (false, h', st')) /\
  (exists s' st' b',
     process_audio silent_upstream loud_frame waiting_session ust0 = Some (s', st') /\
     u_outbox st' = u_outbox ust0 /\
     is_active s' = true /\
     _conversation_started s' = _conversation_started waiting_session /\
     bridge s' = Some b' /\ has_started b' = false) /\
  (exists (s' : Session) (st' : USt Z) (delivered : bool),
     force_start silent_upstream waiting_session ust0
     = Some ((if delivered then Continue else Break), s', st') /\
     u_outbox st' = u_outbox ust0 ++ [(force_status false, delivered)] /\
     is_status_event (force_status false) = true /\
     force_status false
       = JObj [("type", JStr "status"); ("status", JStr "error");
               ("started", JBool false); ("reason", JStr "force")] /\
     (delivered = true -> is_active s' = true)).
Proof.
  apply (readiness_timeout_reporting silent_upstream
           waiting_session waiting_bridge ust0 loud_frame "speech").
  - intros w. reflexivity.
  - reflexivity.
  - reflexivity.
  - reflexivity.
  - reflexivity.
  - reflexivity.
Defined.

(** ** The readiness wait always ends *)

Section ReadinessTotal.
Context {World : Type} (U : Upstream World).

Lemma try_variants_ready (vs : list Payload) (idx : nat) (h : Handler) (st : USt World) :
  _conversation_ready (fst (try_variants U idx vs h st)) = _conversation_ready h.
Proof.
  revert idx st. induction vs as [|p rest IH]; intros idx st; [reflexivity|].
  simpl. destruct (send U p st) as [[|] st1]; [reflexivity|].
  destruct rest as [|q rest']; [reflexivity|]. apply IH.
Qed.

Lemma send_chunk_ready (pcm16 : Bytes) (h : Handler) (st : USt World) :
  _conversation_ready (fst (_send_chunk U pcm16 h st)) = _conversation_ready h.
Proof.
  unfold _send_chunk. destruct (negb (websocket h && is_connected h)); [reflexivity|].
  destruct pcm16 as [|b rest]; [reflexivity|].
  destruct (_successful_payload_format h) as [k|]; [|apply try_variants_ready].
  destruct (nth_error (variants (pad_even (b :: rest))) k) as [payload|].
  - destruct (send U payload st) as [[|] st1]; [reflexivity|].
    rewrite try_variants_ready. reflexivity.
  - rewrite try_variants_ready. reflexivity.
Qed.

Lemma flush_ready (h : Handler) (st : USt World) :
  _conversation_ready (fst (flush U h st)) = _conversation_ready h.
Proof.
  unfold flush. destruct (_pcm_buffer h) as [|b rest] eqn:Hbuf; [reflexivity|].
  pose proof (send_chunk_ready (b :: rest) (set_buffer [] h) st) as Hr.
  destruct (_send_chunk U (b :: rest) (set_buffer [] h) st) as [h1 st1].
  simpl in *. exact Hr.
Qed.

Lemma on_ready_ready (metadata : Json) (h : Handler) (st : USt World) :
  _conversation_ready (fst (on_ready U metadata h st)) = true.
Proof.
  unfold on_ready. destruct (_conversation_ready h) eqn:Hr; [exact Hr|].
  simpl. destruct (_pending_audio_before_ready h) as [|p rest]; [reflexivity|].
  rewrite flush_ready. reflexivity.
Qed.

Lemma wait_ready_returns (fuel : nat) (start : Z) (h : Handler) (st : USt World) :
  1 <= fuel ->
  (start + 5000 - now U (u_world st) <= 50 * (Z.of_nat fuel - 1))%Z ->
  exists r, wait_ready U fuel start h st = Some r.
Proof.
  revert h st. induction fuel as [|fuel IH]; intros h st Hfuel Hbudget; [lia|].
  simpl. destruct (now U (u_world st) - start <? 5000)%Z eqn:Hin; [|eexists; reflexivity].
  destruct (_conversation_ready h); [eexists; reflexivity|].
  apply Z.ltb_lt in Hin.
  pose proof (sleep_advances U (u_world st)) as Hadv.
  destruct (sleep U (u_world st)) as [[metadata|] w]; simpl in Hadv.
  - pose proof (on_ready_ready metadata h
                  {| u_world := w; u_sent := u_sent st;
                     u_invoked := u_invoked st; u_outbox := u_outbox st |}) as Hr.
    destruct (on_ready U metadata h _) as [h1 st2]. simpl in Hr.
    destruct fuel as [|fuel']; [lia|].
    simpl. rewrite Hr.
    destruct (now U (u_world st2) - start <? 5000)%Z; eexists; reflexivity.
  - apply IH; [lia | simpl; lia].
Qed.

(** X6.  Whatever the upstream does, [start_conversation] returns a
    boolean: the wait ends by readiness or by the deadline, within the
    poll budget. *)
Lemma start_conversation_returns (h : Handler) (st : USt World) :
  exists r, start_conversation U h st = Some r.
Proof.
  unfold start_conversation.
  destruct (if negb (is_connected h) then connect U h st else (true, h, st))
    as [[connected h1] st1].
  destruct (negb connected); [eexists; reflexivity|].
  apply wait_ready_returns; unfold poll_fuel; simpl; lia.
Qed.
End ReadinessTotal.

(** ** Session end *)

Lemma step_serial_invariant (ev : Event) (s : Life) :
  serial_invariant s -> permitted ev s = true -> serial_invariant (step ev s).
Proof.
  destruct s as [active started transcripts calls main listener].
  unfold serial_invariant, permitted, step, main_finally, end_session_begin,
    end_session_finish, cleanup, suspended, note_started.
  intros (Hle & Hq & Hs & Hone) Hperm. simpl in *.
  destruct ev, main, listener, active, started, transcripts; simpl in *;
    try discriminate;
    repeat split; intros; try discriminate; try lia; try congruence;
    try (specialize (Hq eq_refl eq_refl); lia);
    try (specialize (Hs eq_refl); lia);
    try (destruct (Hone eq_refl); congruence).
Qed.

(** When every invocation of the pipeline returns before the next event
    is taken, the pipeline runs at most once per session. *)
Lemma serial_schedules_invoke_at_most_once (evs : list Event) (s : Life) :
  serial_invariant s -> serial evs s = true -> l_pipeline_calls (run evs s) <= 1.
Proof.
  revert s. induction evs as [|ev rest IH]; intros s Hinv Hser.
  - apply Hinv.
  - simpl in *. apply andb_prop in Hser as [Hperm Hrest].
    apply IH; [apply step_serial_invariant; assumption | exact Hrest].
Qed.

Lemma active_session_invariant (transcripts : bool) : serial_invariant (active_session transcripts).
Proof. unfold serial_invariant. simpl. repeat split; intros; try lia; discriminate. Qed.

(** C1, at failing inputs.  The upstream sends an [end_call] tool
    invocation and, while the listener awaits the pipeline inside
    [_end_session], the client sends "stop" (or disconnects): the guard of
    the second [_end_session] still reads [is_active] as true and the
    pipeline is invoked a second time.  The same happens with the roles
    exchanged. *)
Lemma overlapping_end_requests_invoke_twice :
  l_pipeline_calls (run [UpstreamEndCall; ClientStop] (active_session true)) = 2 /\
  l_pipeline_calls (run [UpstreamEndCall; ClientDisconnect] (active_session true)) = 2 /\
  l_pipeline_calls (run [ClientStop; UpstreamEndCall] (active_session true)) = 2 /\
  l_pipeline_calls
    (run [UpstreamEndCall; ClientStop; PipelineReturnsListener; PipelineReturnsMain]
       (active_session true)) = 2 /\
  serial [UpstreamEndCall; ClientStop] (active_session true) = false.
Proof. repeat split. Qed.

(** ** CLOSED is terminal *)

(** [is_active] is never set again once it is cleared. *)
Lemma inactive_stays_inactive (ev : Event) (s : Life) :
  l_active s = false -> l_active (step ev s) = false.
Proof.
  destruct s as [active started transcripts calls main listener]. simpl. intros ->.
  destruct ev, main, listener, started, transcripts; reflexivity.
Qed.

(** A repeated end request on an inactive session does nothing. *)
Lemma end_session_on_inactive (s : Life) :
  l_active s = false -> end_session_begin s = (s, false).
Proof. intros H. unfold end_session_begin. rewrite H. reflexivity. Qed.

Lemma step_closed (ev : Event) (s : Life) :
  closed s -> closed (step ev s) /\ l_pipeline_calls (step ev s) = l_pipeline_calls s.
Proof.
  destruct s as [active started transcripts calls main listener].
  unfold closed. simpl. intros [-> ->].
  destruct ev, listener, started, transcripts; repeat split.
Qed.

(** X4.  No event sequence takes a closed session back to an earlier place
    or invokes the pipeline again. *)
Lemma closed_is_terminal (evs : list Event) (s : Life) :
  closed s -> closed (run evs s) /\ l_pipeline_calls (run evs s) = l_pipeline_calls s.
Proof.
  revert s. induction evs as [|ev rest IH]; intros s Hc; [split; [exact Hc | reflexivity]|].
  simpl. destruct (step_closed ev s Hc) as [Hc1 Hn1].
  destruct (IH (step ev s) Hc1) as [Hc2 Hn2]. split; [exact Hc2 | congruence].
Qed.

Example stop_then_disconnect_closes :
  closed (run [ClientStop; PipelineReturnsMain] (active_session true)) /\
  l_pipeline_calls (run [ClientStop; PipelineReturnsMain; ClientStop; UpstreamEndCall]
                      (active_session true)) = 1.
Proof. repeat split. Qed.

(** ** Silence and the automatic start *)

Lemma quiet_frame_bound (f : AudioFrame) :
  fst (_is_speech f) = false -> (snd (_is_speech f) <= 0.002)%Q.
Proof.
  unfold _is_speech.
  destruct (pcm f); simpl; [lra|].
  destruct (_ =? 0); simpl; [lra|].
  destruct (_ =? 0); simpl; [lra|].
  intros H. destruct (Qlt_le_dec 0.002 (energy f)) as [Hlt|Hle]; [|exact Hle].
  apply Qltb_lt in Hlt. congruence.
Qed.

(** On a frame without speech the counters stay quiet and the gate
    signals only by the frame count, with reason "auto". *)
Lemma gate_on_quiet_frame (f : AudioFrame) (s : Session) :
  quiet_counters s ->
  fst (_is_speech f) = false ->
  quiet_counters (fst (gate f s)) /\
  _pre_start_chunks (fst (gate f s)) = S (_pre_start_chunks s) /\
  snd (gate f s) = if 100 <=? S (_pre_start_chunks s) then Some "auto"%string else None.
Proof.
  intros [Hsame Hacc] Hquiet.
  pose proof (quiet_frame_bound f Hquiet) as Hrms.
  unfold gate. destruct (_is_speech f) as [speech rms]. simpl in Hquiet, Hrms. subst speech.
  unfold observe. cbv zeta.
  set (n := _rms_samples s) in *.
  assert (Hinj : (inject_Z (Z.of_nat (S n)) == inject_Z (Z.of_nat n) + 1)%Q).
  { rewrite Nat2Z.inj_succ. unfold Z.succ. rewrite inject_Z_plus. reflexivity. }
  assert (Hpos : (0 < inject_Z (Z.of_nat (S n)))%Q).
  { change (inject_Z 0 < inject_Z (Z.of_nat (S n)))%Q. rewrite <- Zlt_Qlt. lia. }
  assert (Hacc' : (_rms_accum s + rms <= 0.002 * inject_Z (Z.of_nat (S n)))%Q).
  { rewrite Hinj. lra. }
  assert (Havg : Qltb 0.008 ((_rms_accum s + rms) / inject_Z (Z.of_nat (S n))) = false).
  { destruct (Qltb 0.008 _) eqn:Hb; [|reflexivity].
    apply Qltb_lt in Hb.
    pose proof (Qle_shift_div_r _ _ _ Hpos Hacc') as Hle. lra. }
  simpl. unfold should_start, start_reason. simpl. rewrite Havg.
  rewrite andb_false_r. simpl.
  split; [|split].
  - split; simpl; [congruence | exact Hacc'].
  - reflexivity.
  - reflexivity.
Qed.

Lemma first_signal_on_silence (frames : list AudioFrame) (s : Session) (k : nat) :
  quiet_counters s ->
  Forall (fun f => fst (_is_speech f) = false) frames ->
  _pre_start_chunks s < 100 ->
  first_signal k frames s =
    if _pre_start_chunks s + length frames <? 100 then None
    else Some (k + (99 - _pre_start_chunks s), "auto"%string).
Proof.
  revert s k. induction frames as [|f rest IH]; intros s k Hq Hall Hlt.
  - simpl. replace (_pre_start_chunks s + 0 <? 100) with true; [reflexivity|].
    symmetry. apply Nat.ltb_lt. lia.
  - apply Forall_cons in Hall as [Hf Hrest].
    destruct (gate_on_quiet_frame f s Hq Hf) as (Hq1 & Hn1 & Hsig).
    cbn [first_signal length]. destruct (gate f s) as [s1 signal].
    cbn [fst snd] in Hq1, Hn1, Hsig. subst signal.
    destruct (100 <=? S (_pre_start_chunks s)) eqn:Hauto.
    + apply Nat.leb_le in Hauto.
      replace (_pre_start_chunks s + S (length rest) <? 100) with false
        by (symmetry; apply Nat.ltb_ge; lia).
      f_equal. f_equal. lia.
    + apply Nat.leb_gt in Hauto.
      rewrite (IH s1 (S k) Hq1 Hrest) by lia. rewrite Hn1.
      replace (S (_pre_start_chunks s) + length rest) with (_pre_start_chunks s + S (length rest)) by lia.
      destruct (_pre_start_chunks s + S (length rest) <? 100); [reflexivity|].
      f_equal. f_equal. lia.
Qed.

(** X1.  From a fresh session, frames without speech (all-zero and
    degenerate frames among them) never make the gate signal before the
    100th frame; at the 100th it signals with reason "auto". *)
Theorem silence_starts_only_at_frame_100 (frames : list AudioFrame) (s : Session) :
  _pre_start_chunks s = 0 -> _rms_samples s = 0 -> (_rms_accum s == 0)%Q ->
  Forall (fun f => fst (_is_speech f) = false) frames ->
  (length frames < 100 -> first_signal 1 frames s = None) /\
  (100 <= length frames -> first_signal 1 frames s = Some (100, "auto"%string)).
Proof.
  intros Hc Hs Ha Hall.
  assert (Hq : quiet_counters s).
  { split; [congruence|]. rewrite Hs, Ha. unfold Qle. simpl. lia. }
  rewrite (first_signal_on_silence frames s 1 Hq Hall) by lia.
  rewrite Hc. simpl. split; intros Hlen.
  - apply Nat.ltb_lt in Hlen. rewrite Hlen. reflexivity.
  - apply Nat.ltb_ge in Hlen. rewrite Hlen. reflexivity.
Qed.

Lemma silence_starts_only_at_frame_100_witness :
  (length (repeat zero_frame 120) < 100 ->
     first_signal 1 (repeat zero_frame 120) (session_with None 0 0) = None) /\
  (100 <= length (repeat zero_frame 120) ->
     first_signal 1 (repeat zero_frame 120) (session_with None 0 0) = Some (100, "auto"%string)).
Proof.
  apply (silence_starts_only_at_frame_100 (repeat zero_frame 120) (session_with None 0 0)).
  - reflexivity.
  - reflexivity.
  - reflexivity.
  - apply repeat_Forall. reflexivity.
Defined.

(** ** The flush rule *)

Section FlushFacts.
Context {World : Type} (U : Upstream World).

(** Flushing an empty buffer sends nothing and changes nothing. *)
Theorem flush_empty_buffer (h : Handler) (st : USt World) :
  _pcm_buffer h = [] -> flush U h st = (h, st).
Proof. intros H. unfold flush. rewrite H. reflexivity. Qed.

Lemma try_variants_buffer (vs : list Payload) (idx : nat) (h : Handler) (st : USt World) :
  _pcm_buffer (fst (try_variants U idx vs h st)) = _pcm_buffer h.
Proof.
  revert idx st. induction vs as [|p rest IH]; intros idx st; [reflexivity|].
  simpl. destruct (send U p st) as [[|] st1]; [reflexivity|].
  destruct rest as [|q rest']; [reflexivity|]. apply IH.
Qed.

Lemma send_chunk_buffer (pcm16 : Bytes) (h : Handler) (st : USt World) :
  _pcm_buffer (fst (_send_chunk U pcm16 h st)) = _pcm_buffer h.
Proof.
  unfold _send_chunk. destruct (negb (websocket h && is_connected h)); [reflexivity|].
  destruct pcm16 as [|b rest]; [reflexivity|].
  destruct (_successful_payload_format h) as [k|]; [|apply try_variants_buffer].
  destruct (nth_error (variants (pad_even (b :: rest))) k) as [payload|].
  - destruct (send U payload st) as [[|] st1]; [reflexivity|].
    rewrite try_variants_buffer. reflexivity.
  - rewrite try_variants_buffer. reflexivity.
Qed.

(** Whatever the sends do, a flush leaves the accumulation buffer empty. *)
Lemma flush_clears_buffer (h : Handler) (st : USt World) :
  _pcm_buffer (fst (flush U h st)) = [].
Proof.
  unfold flush. destruct (_pcm_buffer h) as [|b rest] eqn:Hbuf; [exact Hbuf|].
  pose proof (send_chunk_buffer (b :: rest) (set_buffer [] h) st) as Hb.
  destruct (_send_chunk U (b :: rest) (set_buffer [] h) st) as [h1 st1].
  simpl in *. exact Hb.
Qed.

(** X3.  On a connected and ready handler, an appended frame triggers a flush
    exactly when the buffer has reached [_flush_bytes] or more than 100 ms
    have passed since the last flush; the flush takes the whole buffer, so
    the next append starts from an empty one.  Otherwise the frame is only
    appended and nothing is sent. *)
Theorem queue_pcm_flush_rule (pcm16 : Bytes) (h : Handler) (st : USt World) :
  is_connected h = true ->
  _conversation_ready h = true ->
  pcm16 <> [] ->
  (_flush_bytes h <= length (_pcm_buffer h ++ pcm16) \/
   (100 < now U (u_world st) - _last_flush h)%Z ->
     queue_pcm U pcm16 h st = flush U (set_buffer (_pcm_buffer h ++ pcm16) h) st /\
     _pcm_buffer (fst (queue_pcm U pcm16 h st)) = []) /\
  (length (_pcm_buffer h ++ pcm16) < _flush_bytes h ->
   (now U (u_world st) - _last_flush h <= 100)%Z ->
     queue_pcm U pcm16 h st = (set_buffer (_pcm_buffer h ++ pcm16) h, st)).
Proof.
  intros Hc Hr Hne.
  assert (Hq : queue_pcm U pcm16 h st =
               if (_flush_bytes h <=? length (_pcm_buffer h ++ pcm16))
                  || (100 <? now U (u_world st) - _last_flush h)%Z
               then flush U (set_buffer (_pcm_buffer h ++ pcm16) h) st
               else (set_buffer (_pcm_buffer h ++ pcm16) h, st)).
  { unfold queue_pcm. rewrite Hc, Hr. destruct pcm16; [contradiction|reflexivity]. }
  split.
  - intros Hcross.
    assert (Hb : (_flush_bytes h <=? length (_pcm_buffer h ++ pcm16))
                 || (100 <? now U (u_world st) - _last_flush h)%Z = true).
    { apply orb_true_iff. destruct Hcross as [Hl | Ht];
        [left; apply Nat.leb_le; exact Hl | right; apply Z.ltb_lt; exact Ht]. }
    rewrite Hq, Hb. split; [reflexivity | apply flush_clears_buffer].
  - intros Hl Ht. rewrite Hq.
    replace (_flush_bytes h <=? length (_pcm_buffer h ++ pcm16)) with false
      by (symmetry; apply Nat.leb_gt; exact Hl).
    replace (100 <? now U (u_world st) - _last_flush h)%Z with false
      by (symmetry; apply Z.ltb_ge; exact Ht).
    reflexivity.
Qed.
End FlushFacts.

Lemma flush_empty_buffer_witness :
  flush silent_upstream connected_handler ust0 = (connected_handler, ust0).
Proof. apply (flush_empty_buffer silent_upstream connected_handler ust0). reflexivity. Defined.

Lemma queue_pcm_flush_rule_witness :
  (_flush_bytes (set_ready true connected_handler)
     <= length (_pcm_buffer (set_ready true connected_handler) ++ repeat Byte.x01 3200) \/
   (100 < now silent_upstream (u_world ust0) - _last_flush (set_ready true connected_handler))%Z ->
     queue_pcm silent_upstream (repeat Byte.x01 3200) (set_ready true connected_handler) ust0
       = flush silent_upstream
           (set_buffer (_pcm_buffer (set_ready true connected_handler) ++ repeat Byte.x01 3200)
              (set_ready true connected_handler)) ust0 /\
     _pcm_buffer
       (fst (queue_pcm silent_upstream (repeat Byte.x01 3200)
               (set_ready true connected_handler) ust0)) = []) /\
  (length (_pcm_buffer (set_ready true connected_handler) ++ repeat Byte.x01 3200)
     < _flush_bytes (set_ready true connected_handler) ->
   (now silent_upstream (u_world ust0) - _last_flush (set_ready true connected_handler) <= 100)%Z ->
     queue_pcm silent_upstream (repeat Byte.x01 3200) (set_ready true connected_handler) ust0
       = (set_buffer (_pcm_buffer (set_ready true connected_handler) ++ repeat Byte.x01 3200)
            (set_ready true connected_handler), ust0)).
Proof.
  apply (queue_pcm_flush_rule silent_upstream (repeat Byte.x01 3200)
           (set_ready true connected_handler) ust0).
  - reflexivity.
  - reflexivity.
  - discriminate.
Defined.

(** Two appends of 1600 bytes: the first is only buffered, the second
    crosses the threshold and goes out as one message of 3200 bytes. *)
Example two_appends_one_flush :
  u_sent (snd (queue_pcm silent_upstream (repeat Byte.x01 1600)
                 (set_ready true connected_handler) ust0)) = [] /\
  map (fun a => (variant (fst a), length (audio (fst a)), snd a))
    (u_sent (snd (queue_pcm silent_upstream (repeat Byte.x02 1600)
                    (fst (queue_pcm silent_upstream (repeat Byte.x01 1600)
                            (set_ready true connected_handler) ust0)) ust0)))
    = [(0, 3200, true)].
Proof. split; vm_compute; reflexivity. Qed.

(** ** The transcript merge is chronological *)

Lemma insert_by_timestamp_perm (m : Message) (l : list Message) :
  Permutation (insert_by_timestamp m l) (m :: l).
Proof.
  induction l as [|x rest IH]; simpl; [reflexivity|].
  destruct (timestamp m <=? timestamp x)%Z; [reflexivity|].
  rewrite IH. apply perm_swap.
Qed.

Lemma insert_by_timestamp_sorted (m : Message) (l : list Message) :
  Sorted by_timestamp l -> Sorted by_timestamp (insert_by_timestamp m l).
Proof.
  induction l as [|x rest IH]; intros Hs; simpl.
  - repeat constructor.
  - destruct (timestamp m <=? timestamp x)%Z eqn:Hle.
    + constructor; [exact Hs|]. constructor. apply Z.leb_le. exact Hle.
    + apply Z.leb_gt in Hle. apply Sorted_inv in Hs as [Hrest Hhd].
      constructor; [apply IH; exact Hrest|].
      destruct rest as [|y rest']; simpl.
      * constructor. unfold by_timestamp. lia.
      * destruct (timestamp m <=? timestamp y)%Z.
        -- constructor. unfold by_timestamp. lia.
        -- apply HdRel_inv in Hhd. constructor. exact Hhd.
Qed.

(** X7.  The merged messages are the given ones, ordered by timestamp. *)
Theorem sort_by_timestamp_sorted (l : list Message) :
  Sorted by_timestamp (sort_by_timestamp l) /\ Permutation (sort_by_timestamp l) l.
Proof.
  induction l as [|m rest [IHs IHp]]; simpl.
  - split; constructor.
  - split.
    + apply insert_by_timestamp_sorted. exact IHs.
    + rewrite insert_by_timestamp_perm. constructor. exact IHp.
Qed.

(** Entries with equal timestamps keep their order: the sort is stable. *)
Example equal_timestamps_keep_order :
  _format_conversation [said "first" 5; said "third" 5] [said "second" 5] =
  ("Developer: first" ++ nl ++ "Developer: third" ++ nl ++ "AI Moderator: second")%string.
Proof. reflexivity. Qed.

(** ** Serial schedules, concretely *)

(** X5.  From the ACTIVE state, whatever ends the session and in whatever
    order the end requests arrive, the pipeline is invoked at most once
    provided each invocation returns before the next event is taken. *)
Theorem serial_sessions_invoke_at_most_once (evs : list Event) (transcripts : bool) :
  serial evs (active_session transcripts) = true ->
  l_pipeline_calls (run evs (active_session transcripts)) <= 1.
Proof.
  apply serial_schedules_invoke_at_most_once. apply active_session_invariant.
Qed.

Lemma serial_sessions_invoke_at_most_once_witness :
  l_pipeline_calls
    (run [UpstreamEndCall; PipelineReturnsListener; ClientStop; ClientDisconnect]
       (active_session true)) <= 1.
Proof.
  apply (serial_sessions_invoke_at_most_once
           [UpstreamEndCall; PipelineReturnsListener; ClientStop; ClientDisconnect] true).
  reflexivity.
Defined.

Lemma closed_is_terminal_witness :
  closed (run [ClientStop; UpstreamEndCall; ClientOther]
            (run [ClientStop; PipelineReturnsMain] (active_session true))) /\
  l_pipeline_calls (run [ClientStop; UpstreamEndCall; ClientOther]
                      (run [ClientStop; PipelineReturnsMain] (active_session true)))
    = l_pipeline_calls (run [ClientStop; PipelineReturnsMain] (active_session true)).
Proof.
  apply (closed_is_terminal [ClientStop; UpstreamEndCall; ClientOther]
           (run [ClientStop; PipelineReturnsMain] (active_session true))).
  split; reflexivity.
Defined.

(** ** The tracker client: identifiers *)

Lemma split_on_length (c : ascii) (s : string) :
  length (split_on c s) = S (count_char c s).
Proof.
  induction s as [|a rest IH]; [reflexivity|].
  simpl. destruct (Ascii.eqb a c); simpl.
  - rewrite IH. reflexivity.
  - destruct (split_on c rest) as [|w ws]; simpl in *; [discriminate | exact IH].
Qed.

Lemma split_on_no_separator (c : ascii) (s : string) :
  count_char c s = 0 -> split_on c s = [s].
Proof.
  induction s as [|a rest IH]; [reflexivity|].
  simpl. destruct (Ascii.eqb a c); simpl; [discriminate|].
  intros H. rewrite (IH H). reflexivity.
Qed.

Lemma split_on_one_separator (c : ascii) (key number : string) :
  count_char c key = 0 -> count_char c number = 0 ->
  split_on c (key ++ String c number) = [key; number].
Proof.
  intros Hk Hn. induction key as [|a rest IH]; simpl in *.
  - rewrite Ascii.eqb_refl. rewrite (split_on_no_separator c number Hn). reflexivity.
  - destruct (Ascii.eqb a c); simpl in *; [discriminate|].
    rewrite (IH Hk). reflexivity.
Qed.

(** Joining the pieces with the separator gives the string back. *)
Lemma split_on_join (c : ascii) (s : string) :
  String.concat (String c EmptyString) (split_on c s) = s.
Proof.
  induction s as [|a rest IH]; [reflexivity|].
  simpl. destruct (Ascii.eqb a c) eqn:Hac.
  - apply Ascii.eqb_eq in Hac. subst a.
    destruct (split_on c rest) as [|w ws] eqn:Hs.
    + pose proof (split_on_length c rest) as Hl. rewrite Hs in Hl. discriminate.
    + simpl in *. rewrite IH. reflexivity.
  - destruct (split_on c rest) as [|w ws] eqn:Hs.
    + pose proof (split_on_length c rest) as Hl. rewrite Hs in Hl. discriminate.
    + simpl in *. rewrite <- IH. destruct ws; reflexivity.
Qed.

Section IdentifierFacts.
Context {World : Type} (T : Tracker World).

(** An identifier that does not split into two parts at its hyphens is
    answered [None] without a request. *)
Lemma identifier_without_one_hyphen (s : string) (w : World) :
  count_char "-" s <> 1 -> linear_get_issue_by_identifier T (JStr s) w = (Ok JNull, w).
Proof.
  intros Hcount. unfold linear_get_issue_by_identifier.
  pose proof (split_on_length "-" s) as Hlen.
  destruct (split_on "-" s) as [|a [|b [|c rest]]]; try reflexivity.
  simpl in Hlen. congruence.
Qed.

(** X8.  Only an identifier with exactly one hyphen whose second part
    [int] accepts is looked up.  Any other string (the default "UNKNOWN",
    a key that itself contains a hyphen, a number part that is no integer
    literal) is answered [None] at once, without a request: the world is
    returned as it was.  A well-formed identifier costs exactly one
    request, for that team key and number. *)
Theorem malformed_identifier_is_not_looked_up (s key number : string) (w : World) :
  (count_char "-" s <> 1 -> linear_get_issue_by_identifier T (JStr s) w = (Ok JNull, w)) /\
  (count_char "-" key = 0 -> count_char "-" number = 0 ->
   py_int (int_of_wide T) number = None ->
     linear_get_issue_by_identifier T (JStr (key ++ String "-" number)) w = (Ok JNull, w)) /\
  (forall n log,
     count_char "-" key = 0 -> count_char "-" number = 0 ->
     py_int (int_of_wide T) number = Some n ->
     snd (snd (linear_get_issue_by_identifier (recording T)
                 (JStr (key ++ String "-" number)) (w, log)))
       = log ++ [IssueByNumber key n]).
Proof.
  split; [|split].
  - apply identifier_without_one_hyphen.
  - intros Hk Hn Hint. unfold linear_get_issue_by_identifier.
    rewrite (split_on_one_separator "-" key number Hk Hn), Hint. reflexivity.
  - intros n log Hk Hn Hint. unfold linear_get_issue_by_identifier.
    rewrite (split_on_one_separator "-" key number Hk Hn).
    change (int_of_wide (recording T)) with (int_of_wide T). rewrite Hint.
    cbn [_execute_query recording fst snd].
    destruct (_execute_query T (IssueByNumber key n) w) as [[result|e] w1];
      cbn [fst snd]; [|reflexivity].
    destruct (dig ["data"; "issues"; "nodes"] (JArr []) result); reflexivity.
Qed.
End IdentifierFacts.

Lemma malformed_identifier_is_not_looked_up_witness :
  linear_get_issue_by_identifier (scripted_tracker healthy_reply) (JStr "WEB-APP-12") tt
    = (Ok JNull, tt) /\
  linear_get_issue_by_identifier (scripted_tracker healthy_reply) (JStr "ENG-12a") tt
    = (Ok JNull, tt) /\
  linear_get_issue_by_identifier (scripted_tracker healthy_reply)
    (JStr ("ENG" ++ String "-" file_separator_5)) tt
    = (Ok JNull, tt) /\
  snd (snd (linear_get_issue_by_identifier (recording (scripted_tracker healthy_reply))
              (JStr "ENG-123") (tt, [])))
    = [] ++ [IssueByNumber "ENG" 123].
Proof.
  split; [|split; [|split]].
  - apply (proj1 (malformed_identifier_is_not_looked_up (scripted_tracker healthy_reply)
                    "WEB-APP-12" "" "" tt)).
    vm_compute. discriminate.
  - apply (proj1 (proj2 (malformed_identifier_is_not_looked_up (scripted_tracker healthy_reply)
                           "" "ENG" "12a" tt))); reflexivity.
  - apply (proj1 (proj2 (malformed_identifier_is_not_looked_up (scripted_tracker healthy_reply)
                           "" "ENG" file_separator_5 tt))); reflexivity.
  - apply (proj2 (proj2 (malformed_identifier_is_not_looked_up (scripted_tracker healthy_reply)
                           "" "ENG" "123" tt)) 123%Z []); reflexivity.
Defined.

(** [int] skips TAB..CR and the blank around a literal, but not the
    separators FS..US, although [str.strip] removes those too. *)
Example py_int_examples :
  py_int_ascii "123" = Some 123%Z /\ py_int_ascii " 007 " = Some 7%Z /\
  py_int_ascii "+1_000" = Some 1000%Z /\ py_int_ascii "-12" = Some (-12)%Z /\
  py_int_ascii "" = None /\ py_int_ascii "1__0" = None /\ py_int_ascii "_1" = None /\
  py_int_ascii "1_" = None /\ py_int_ascii "12a" = None /\ py_int_ascii "+ 1" = None /\
  py_int_ascii "1.5" = None /\
  py_int_ascii file_separator_5 = None /\ strip file_separator_5 = "5"%string.
Proof. repeat split. Qed.

(** ** The pipeline over the tracker client *)

Section TrackerPipelineFacts.
Context {World : Type} (T : Tracker World) (E : Env World).

(** X9.  An update without a handle whose identifier is not of the form
    KEY-NUMBER (the default "UNKNOWN" of an omitted identifier among
    them) passes through the dispatch loop without a trace: no request
    reaches the tracker, no comment is posted or counted, no error is
    recorded, and the update keeps its empty handle. *)
Theorem unresolvable_update_is_skipped_silently
    (team s : string) (u : IssueUpdate) (a : Acc) (st : St World) :
  truthy (issue_id u) = false ->
  issue_identifier u = JStr s ->
  count_char "-" s <> 1 ->
  exists st',
    process_update (over_linear T E) team u a st = (u, a, st') /\
    world st' = world st /\
    (forall c, In c (trace st') -> In c (trace st) \/ c = CallLookup (JStr s)).
Proof.
  intros Hid Hs Hcount.
  unfold process_update, resolve_issue. rewrite Hid, Hs.
  change (negb false && truthy (JStr s)) with (truthy (JStr s)).
  destruct (truthy (JStr s)).
  - rewrite call_spec.
    change (get_issue_by_identifier (over_linear T E)) with (lookup_step T).
    unfold lookup_step.
    rewrite (identifier_without_one_hyphen T s (world st) Hcount).
    change (truthy JNull) with false. cbv beta iota delta [fst snd].
    unfold dispatch_update. rewrite Hid.
    eexists. split; [reflexivity|]. split; [reflexivity|].
    simpl. intros c Hin. apply in_app_or in Hin as [Hin | [<- | []]]; [left; exact Hin | right; reflexivity].
  - unfold dispatch_update. rewrite Hid.
    exists st. split; [reflexivity|]. split; [reflexivity|]. intros c Hin. left. exact Hin.
Qed.

(** An update that reaches its comment post and asks for neither an
    estimate nor an escalation is settled by the comment step alone. *)
Lemma process_update_by_comment_step
    (team : string) (u : IssueUpdate) (id title : Json) (comment : string)
    (a : Acc) (st : St World) :
  reaches_comment (over_linear T E) u id title comment ->
  truthy (estimate_days u) = false ->
  truthy (escalation_needed u) = false ->
  exists st1,
    process_update (over_linear T E) team u a st =
    match comment_step T id comment (world st1) with
    | (Ok success, w') =>
        (with_issue u id title, if success then bump_comments a else a,
         {| world := w'; trace := trace st1 ++ [CallComment id comment] |})
    | (Raise e, w') =>
        (with_issue u id title, add_error (error_entry E (with_issue u id title) e) a,
         {| world := w'; trace := trace st1 ++ [CallComment id comment] |})
    end.
Proof.
  intros Hreach Hest Hesc.
  destruct (resolve_issue_found (over_linear T E) u id title comment st Hreach)
    as (st1 & Hres & _).
  destruct Hreach as (_ & _ & Hid & _ & Hgen).
  exists st1.
  unfold process_update. rewrite Hres.
  unfold dispatch_update. simpl issue_id. rewrite Hid, Hgen.
  rewrite call_spec.
  change (add_comment (over_linear T E)) with (comment_step T).
  destruct (comment_step T id comment (world st1)) as [[success|e] w'];
    cbv beta iota delta [fst snd]; [|reflexivity].
  unfold estimate_then_escalate, escalate. simpl estimate_days. simpl escalation_needed.
  rewrite Hest, Hesc. reflexivity.
Qed.

(** X10.  How the reply to a comment request is read.  A GraphQL error
    reply, whose ["data"] is null, raises inside the update's [try]
    ([None.get]) and is recorded as that update's error entry, "Error
    processing <identifier>: 'NoneType' object has no attribute 'get'".
    A reply without ["data"], and
    a reply whose mutation reports no success, are taken for "not
    posted": the comment is not counted and nothing is recorded. *)
Theorem comment_reply_is_read_leniently
    (team : string) (u : IssueUpdate) (id title : Json) (comment : string)
    (reply : list (string * Json)) (a : Acc) (st : St World) :
  reaches_comment (over_linear T E) u id title comment ->
  (forall w, exists w', _execute_query T (CommentCreate id comment) w = (Ok (JObj reply), w')) ->
  truthy (estimate_days u) = false ->
  truthy (escalation_needed u) = false ->
  (dict_lookup "data" reply = Some JNull ->
     exists st', process_update (over_linear T E) team u a st
                 = (with_issue u id title,
                    add_error
                      (error_entry E (with_issue u id title)
                         "'NoneType' object has no attribute 'get'") a, st')) /\
  (dict_lookup "data" reply = None ->
     exists st', process_update (over_linear T E) team u a st
                 = (with_issue u id title, a, st')) /\
  (dict_lookup "data" reply
     = Some (JObj [("commentCreate", JObj [("success", JBool false)])]) ->
     exists st', process_update (over_linear T E) team u a st
                 = (with_issue u id title, a, st')).
Proof.
  intros Hreach Hreply Hest Hesc.
  destruct (process_update_by_comment_step team u id title comment a st Hreach Hest Hesc)
    as [st1 Heq].
  rewrite Heq. clear Heq.
  unfold comment_step, linear_add_comment.
  destruct (Hreply (world st1)) as [w' Hw]. rewrite Hw.
  split; [|split]; intros Hd; eexists;
    unfold dig, py_get at 1; unfold dict_get; rewrite Hd; reflexivity.
Qed.

(** X11.  An estimate that [float] cannot read stops the update after its
    comment: the comment is posted and counted, the estimate request is
    never sent (the conversion raises while the request is built), the
    error is recorded, and the escalation the update asks for is not
    attempted; the world is left as the comment request left it. *)
Theorem unreadable_estimate_skips_escalation
    (team : string) (u : IssueUpdate) (id title : Json) (comment e : string)
    (a : Acc) (st : St World) :
  reaches_comment (over_linear T E) u id title comment ->
  comment_post_succeeds (over_linear T E) id comment ->
  truthy (estimate_days u) = true ->
  py_float_check (float_of_str T) (estimate_days u) = Raise e ->
  exists st1 w',
    resolve_issue (over_linear T E) u st = (Ok (with_issue u id title), st1) /\
    comment_step T id comment (world st1) = (Ok true, w') /\
    process_update (over_linear T E) team u a st
      = (with_issue u id title,
         add_error (error_entry E (with_issue u id title) e) (bump_comments a),
         {| world := w';
            trace := (trace st1 ++ [CallComment id comment])
                     ++ [CallEstimate id (estimate_days u)] |}).
Proof.
  intros Hreach Hpost Hest Hfloat.
  destruct (resolve_issue_found (over_linear T E) u id title comment st Hreach)
    as (st1 & Hres & _).
  destruct Hreach as (_ & _ & Hid & _ & Hgen).
  destruct (Hpost (world st1)) as [w' Hw].
  change (add_comment (over_linear T E)) with (comment_step T) in Hw.
  exists st1, w'. split; [exact Hres|]. split; [exact Hw|].
  unfold process_update. rewrite Hres.
  unfold dispatch_update. simpl issue_id. rewrite Hid, Hgen.
  rewrite call_spec.
  change (add_comment (over_linear T E)) with (comment_step T).
  rewrite Hw. cbv beta iota delta [fst snd].
  unfold estimate_then_escalate. simpl estimate_days. rewrite Hest.
  rewrite call_spec. simpl issue_id.
  change (update_issue_estimate (over_linear T E)) with (estimate_step T).
  unfold estimate_step, linear_update_issue_estimate. rewrite Hfloat.
  reflexivity.
Qed.
End TrackerPipelineFacts.

Lemma unresolvable_update_is_skipped_silently_witness :
  exists st',
    process_update (over_linear (scripted_tracker healthy_reply) (scripted_env "" ""))
      "team" (named_update "UNKNOWN") acc0 st0 = (named_update "UNKNOWN", acc0, st') /\
    world st' = world st0 /\
    (forall c, In c (trace st') -> In c (trace st0) \/ c = CallLookup (JStr "UNKNOWN")).
Proof.
  apply (unresolvable_update_is_skipped_silently (scripted_tracker healthy_reply)
           (scripted_env "" "") "team" "UNKNOWN" (named_update "UNKNOWN") acc0 st0);
    [reflexivity | reflexivity | vm_compute; discriminate].
Defined.

Example scripted_update_reaches_comment (u : IssueUpdate) (reply : GraphQL -> Outcome Json) :
  issue_identifier u = JStr "ENG-123" -> issue_id u = JNull ->
  reply (IssueByNumber "ENG" 123) = healthy_reply (IssueByNumber "ENG" 123) ->
  reaches_comment (over_linear (scripted_tracker reply) (scripted_env "" ""))
    u (JStr "uuid-1") (JStr "Fix login") "Standup Update".
Proof.
  intros Hident Hid Hreply. unfold reaches_comment. rewrite Hident, Hid.
  repeat split. intros []. exists tt.
  cbn [get_issue_by_identifier over_linear]. unfold lookup_step, linear_get_issue_by_identifier.
  change (split_on "-" "ENG-123") with ["ENG"%string; "123"%string]. cbv beta iota.
  change (py_int (int_of_wide (scripted_tracker reply)) "123") with (Some 123%Z).
  cbv beta iota.
  cbn [_execute_query scripted_tracker]. rewrite Hreply. reflexivity.
Qed.

Lemma comment_reply_is_read_leniently_witness :
  (exists st',
     process_update
       (over_linear (scripted_tracker (comment_answered (JObj reply_with_errors)))
          (scripted_env "" ""))
       "team" (named_update "ENG-123") acc0 st0
     = (with_issue (named_update "ENG-123") (JStr "uuid-1") (JStr "Fix login"),
        add_error
          (error_entry (scripted_env "" "")
             (with_issue (named_update "ENG-123") (JStr "uuid-1") (JStr "Fix login"))
             "'NoneType' object has no attribute 'get'") acc0, st')) /\
  (exists st',
     process_update
       (over_linear (scripted_tracker (comment_answered (JObj []))) (scripted_env "" ""))
       "team" (named_update "ENG-123") acc0 st0
     = (with_issue (named_update "ENG-123") (JStr "uuid-1") (JStr "Fix login"), acc0, st')) /\
  (exists st',
     process_update
       (over_linear (scripted_tracker (comment_answered (JObj reply_not_posted)))
          (scripted_env "" ""))
       "team" (named_update "ENG-123") acc0 st0
     = (with_issue (named_update "ENG-123") (JStr "uuid-1") (JStr "Fix login"), acc0, st')).
Proof.
  split; [|split].
  - refine (proj1 (comment_reply_is_read_leniently
             (scripted_tracker (comment_answered (JObj reply_with_errors)))
             (scripted_env "" "") "team" (named_update "ENG-123")
             (JStr "uuid-1") (JStr "Fix login") "Standup Update"
             reply_with_errors acc0 st0 _ _ _ _) _);
      [apply scripted_update_reaches_comment; reflexivity
      | intros []; exists tt; reflexivity | reflexivity | reflexivity | reflexivity].
  - refine (proj1 (proj2 (comment_reply_is_read_leniently
             (scripted_tracker (comment_answered (JObj [])))
             (scripted_env "" "") "team" (named_update "ENG-123")
             (JStr "uuid-1") (JStr "Fix login") "Standup Update"
             [] acc0 st0 _ _ _ _)) _);
      [apply scripted_update_reaches_comment; reflexivity
      | intros []; exists tt; reflexivity | reflexivity | reflexivity | reflexivity].
  - refine (proj2 (proj2 (comment_reply_is_read_leniently
             (scripted_tracker (comment_answered (JObj reply_not_posted)))
             (scripted_env "" "") "team" (named_update "ENG-123")
             (JStr "uuid-1") (JStr "Fix login") "Standup Update"
             reply_not_posted acc0 st0 _ _ _ _)) _);
      [apply scripted_update_reaches_comment; reflexivity
      | intros []; exists tt; reflexivity | reflexivity | reflexivity | reflexivity].
Defined.

Lemma unreadable_estimate_skips_escalation_witness :
  exists st1 w',
    resolve_issue (over_linear (scripted_tracker healthy_reply) (scripted_env "" ""))
      vague_estimate_update st0
      = (Ok (with_issue vague_estimate_update (JStr "uuid-1") (JStr "Fix login")), st1) /\
    comment_step (scripted_tracker healthy_reply) (JStr "uuid-1") "Standup Update" (world st1)
      = (Ok true, w') /\
    process_update (over_linear (scripted_tracker healthy_reply) (scripted_env "" ""))
      "team" vague_estimate_update acc0 st0
      = (with_issue vague_estimate_update (JStr "uuid-1") (JStr "Fix login"),
         add_error
           (error_entry (scripted_env "" "")
              (with_issue vague_estimate_update (JStr "uuid-1") (JStr "Fix login"))
              "could not convert string to float: 'a few days'") (bump_comments acc0),
         {| world := w';
            trace := (trace st1 ++ [CallComment (JStr "uuid-1") "Standup Update"])
                     ++ [CallEstimate (JStr "uuid-1") (estimate_days vague_estimate_update)] |}).
Proof.
  apply (unreadable_estimate_skips_escalation (scripted_tracker healthy_reply)
           (scripted_env "" "") "team" vague_estimate_update
           (JStr "uuid-1") (JStr "Fix login") "Standup Update"
           "could not convert string to float: 'a few days'" acc0 st0).
  - apply scripted_update_reaches_comment; reflexivity.
  - intros []. exists tt. reflexivity.
  - reflexivity.
  - reflexivity.
Defined.

(** ** Where error entries come from *)

Section ErrorEntryFacts.
Context {World : Type} (E : Env World).

(** The dispatch of one update leaves the error list alone; the entry
    for a raise is added by its caller. *)
Lemma dispatch_update_errors (team : string) (u : IssueUpdate) (a : Acc) (st : St World) :
  acc_errors (fst (fst (dispatch_update E team u a st))) = acc_errors a.
Proof.
  unfold dispatch_update.
  destruct (truthy (issue_id u)); [|reflexivity].
  destruct (generate_linear_comment E u) as [comment|e]; [|reflexivity].
  destruct (call _ _ st) as [[success|e] st1]; [|reflexivity].
  assert (Hesc : forall a' st', acc_errors (match escalate E team u a' st' with
                                             | (Ok a2, _) => a2
                                             | (Raise _, _) => a'
                                             end) = acc_errors a').
  { intros a' st'. unfold escalate.
    destruct (truthy (escalation_needed u)); [|reflexivity].
    destruct (_create_escalation E team u st') as [[[esc|]|e] st2]; reflexivity. }
  unfold estimate_then_escalate.
  destruct (truthy (estimate_days u)).
  - destruct (call _ _ st1) as [[[]|e] st2]; [|destruct success; reflexivity].
    specialize (Hesc (if success then bump_comments a else a) st2).
    destruct (escalate E team u _ st2) as [[a2|e] st3]; simpl in *;
      [rewrite Hesc|]; destruct success; reflexivity.
  - specialize (Hesc (if success then bump_comments a else a) st1).
    destruct (escalate E team u _ st1) as [[a2|e] st3]; simpl in *;
      [rewrite Hesc|]; destruct success; reflexivity.
Qed.

Lemma process_update_errors (team : string) (u : IssueUpdate) (a : Acc) (st : St World) :
  Forall not_from_summary (acc_errors a) ->
  Forall not_from_summary (acc_errors (snd (fst (process_update E team u a st)))).
Proof.
  intros Ha. unfold process_update.
  destruct (resolve_issue E u st) as [[u1|e] st1]; simpl.
  - pose proof (dispatch_update_errors team u1 a st1) as Hd.
    destruct (dispatch_update E team u1 a st1) as [[a1 [e|]] st2]; simpl in *.
    + apply Forall_app. split; [rewrite Hd; exact Ha|]. repeat constructor.
    + rewrite Hd. exact Ha.
  - apply Forall_app. split; [exact Ha|]. repeat constructor.
Qed.

Lemma process_updates_errors (team : string) (us : list IssueUpdate) (a : Acc)
    (st : St World) :
  Forall not_from_summary (acc_errors a) ->
  Forall not_from_summary (acc_errors (snd (fst (process_updates E team us a st)))).
Proof.
  revert a st. induction us as [|u rest IH]; intros a st Ha; [exact Ha|].
  simpl. pose proof (process_update_errors team u a st Ha) as H1.
  destruct (process_update E team u a st) as [[u1 a1] st1]. simpl in H1.
  specialize (IH a1 st1 H1).
  destruct (process_updates E team rest a1 st1) as [[rest1 a2] st2]. exact IH.
Qed.


Lemma first_non_str_status_some (us : list IssueUpdate) (u : IssueUpdate) :
  In u us -> is_str (status u) = false ->
  exists v, first_non_str_status us = Some v /\ In v (map status us) /\ is_str v = false.
Proof.
  induction us as [|x rest IH]; [intros []|].
  intros Hin Hu. simpl. destruct (is_str (status x)) eqn:Hx.
  - destruct Hin as [->|Hin]; [congruence|].
    destruct (IH Hin Hu) as (v & Hv & Hm & Hs).
    exists v. repeat split; [exact Hv | right; exact Hm | exact Hs].
  - exists (status x). repeat split; [left; reflexivity | exact Hx].
Qed.

(** X15.  One update whose status is no string blocks the digest of the
    whole standup: the digest lines are built before anything is sent,
    the status line of the first such update raises ([status.title()]),
    and the step-5 handler records "Slack error: '<type>' object has no
    attribute 'title'", where <type> is the type of that status; the
    channel is never contacted. *)
Theorem non_string_status_blocks_the_digest
    (slack : string) (us : list IssueUpdate) (u : IssueUpdate) (a : Acc) (st : St World) :
  In u us -> is_str (status u) = false -> slack <> "" ->
  exists v,
    first_non_str_status us = Some v /\ In v (map status us) /\ is_str v = false /\
    slack_step E slack us a st
    = (false,
       add_error ("Slack error: '" ++ type_name v ++ "' object has no attribute 'title'") a,
       st).
Proof.
  intros Hin Hstatus Hslack. unfold slack_step, _post_slack_summary.
  apply String.eqb_neq in Hslack. rewrite Hslack. simpl negb. cbv iota.
  destruct (first_non_str_status_some us u Hin Hstatus) as (v & Hv & Hm & Hs).
  exists v. rewrite Hv. repeat split; [exact Hm | exact Hs].
Qed.
End ErrorEntryFacts.

Lemma non_string_status_blocks_the_digest_witness :
  exists v,
    first_non_str_status [named_update "ENG-1"; null_status_update; named_update "ENG-3"]
    = Some v /\
    In v (map status [named_update "ENG-1"; null_status_update; named_update "ENG-3"]) /\
    is_str v = false /\
    slack_step (scripted_env "" "") "C042"
      [named_update "ENG-1"; null_status_update; named_update "ENG-3"] acc0 st0
    = (false,
       add_error ("Slack error: '" ++ type_name v ++ "' object has no attribute 'title'") acc0,
       st0).
Proof.
  apply (non_string_status_blocks_the_digest (scripted_env "" "") "C042"
           [named_update "ENG-1"; null_status_update; named_update "ENG-3"]
           null_status_update acc0 st0).
  - right. left. reflexivity.
  - reflexivity.
  - discriminate.
Defined.

Example null_status_digest_error :
  slack_step (scripted_env "" "") "C042"
    [named_update "ENG-1"; null_status_update; named_update "ENG-3"] acc0 st0
  = (false, add_error "Slack error: 'NoneType' object has no attribute 'title'" acc0, st0).
Proof. reflexivity. Qed.

(** ** The pipeline over the reasoning client *)

Section ReasoningPipelineFacts.
Context {World : Type} (R : Reasoner World) (title_of : string -> string) (stamp : string)
  (E : Env World).

(** Without any key no provider is contacted: the call raises at once. *)
Lemma call_llm_without_key (p : Prompt) (w : World) :
  anthropic_key R = "" -> openai_key R = "" ->
  _call_llm R p w = (Raise no_key_message, w).
Proof.
  intros Ha Ho. unfold _call_llm. rewrite Ha, Ho. simpl.
  rewrite !andb_false_r. reflexivity.
Qed.

(** The summary step of the pipeline cannot fail over the client, whose
    own handler answers first. *)
Lemma summary_step_over_reasoning (us : list IssueUpdate) (team : string) (a : Acc)
    (st : St World) :
  exists summary st',
    summary_step (over_reasoning R title_of stamp E) us team a st = (Ok (summary, a), st').
Proof.
  unfold summary_step. rewrite call_spec.
  change (generate_standup_summary (over_reasoning R title_of stamp E))
    with (reasoning_generate_standup_summary R).
  unfold reasoning_generate_standup_summary.
  destruct (_call_llm R (SummaryPrompt us team) (world st)) as [[summary|e] w];
    eexists _, _; reflexivity.
Qed.

(** X12.  Over the reasoning client [process_session_end] always returns a
    result: the only raise that could leave it, a failing summary whose
    fallback digest fails too, is unreachable, because
    [generate_standup_summary] catches its own failures.  For the same
    reason the step-4 handler never runs: no error entry of the result
    comes from the summary. *)
Theorem session_end_always_returns_over_reasoning
    (sid : string) (user agent : list Transcript) (team_id slack_channel_id : string)
    (issues_discussed : list Json) (st : St World) :
  exists r st',
    process_session_end (over_reasoning R title_of stamp E) sid user agent team_id
      slack_channel_id issues_discussed st = (Ok r, st') /\
    Forall not_from_summary (errors r).
Proof.
  unfold process_session_end.
  destruct (py_len (_format_conversation user agent) <? 50).
  { eexists _, _. split; [reflexivity|]. repeat constructor. }
  assert (H0 : Forall not_from_summary
            (acc_errors (snd (fst (extract_step (over_reasoning R title_of stamp E)
               (_format_conversation user agent) issues_discussed st))))).
  { unfold extract_step.
    destruct (_extract_issue_updates _ _ _ st) as [[updates|e] st1]; repeat constructor. }
  destruct (extract_step _ _ _ st) as [[extracted a0] st1]. simpl in H0.
  pose proof (process_updates_errors (over_reasoning R title_of stamp E)
                team_id extracted a0 st1 H0) as H1.
  destruct (process_updates _ team_id extracted a0 st1) as [[updates a1] st2]. simpl in H1.
  destruct (summary_step_over_reasoning updates team_id a1 st2) as (summary & st3 & Hs).
  rewrite Hs.
  unfold slack_step.
  destruct (negb (slack_channel_id =? "")%string).
  - destruct (_post_slack_summary _ slack_channel_id updates (acc_escalations a1) st3)
      as [[posted|e] st4]; eexists _, _; (split; [reflexivity|]); simpl.
    + exact H1.
    + apply Forall_app. split; [exact H1|]. repeat constructor.
  - eexists _, _. split; [reflexivity|]. exact H1.
Qed.

(** X13.  A deployment without any provider key fails silently.  For a
    conversation long enough to be processed, the extraction finds no
    update, nothing is sent to a provider or to the tracker, the summary
    is the fixed sentence, and the result carries no error about the
    missing keys: what errors it has come from the channel post alone. *)
Theorem missing_keys_give_an_empty_result
    (sid : string) (user agent : list Transcript) (team_id slack_channel_id : string)
    (issues_discussed : list Json) (st : St World) :
  anthropic_key R = "" -> openai_key R = "" ->
  50 <= py_len (_format_conversation user agent) ->
  forallb is_obj issues_discussed = true ->
  exists st2,
    world st2 = world st /\
    trace st2 = trace st ++ [CallLLM (_format_conversation user agent) issues_discussed;
                             CallSummary [] team_id] /\
    process_session_end (over_reasoning R title_of stamp E) sid user agent team_id
      slack_channel_id issues_discussed st
    = (Ok {| standup_id := sid;
             total_updates := 0;
             linear_comments_posted := 0;
             escalations_created := [];
             slack_posted :=
               fst (fst (slack_step (over_reasoning R title_of stamp E)
                           slack_channel_id [] acc0 st2));
             summary_text :=
               ("Standup completed for " ++ team_id
                ++ ". Please review individual issue updates for details.")%string;
             issue_updates := [];
             errors :=
               acc_errors (snd (fst (slack_step (over_reasoning R title_of stamp E)
                                       slack_channel_id [] acc0 st2))) |},
       snd (slack_step (over_reasoning R title_of stamp E) slack_channel_id [] acc0 st2)).
Proof.
  intros Ha Ho Hlen Hknown.
  exists {| world := world st;
            trace := trace st ++ [CallLLM (_format_conversation user agent) issues_discussed;
                                  CallSummary [] team_id] |}.
  split; [reflexivity|]. split; [reflexivity|].
  unfold process_session_end.
  apply Nat.ltb_ge in Hlen. rewrite Hlen.
  unfold extract_step, _extract_issue_updates.
  rewrite (first_non_obj_none _ Hknown), call_spec.
  change (call_llm (over_reasoning R title_of stamp E)
            (_format_conversation user agent) issues_discussed)
    with (_call_llm R (ExtractionPrompt (_format_conversation user agent) issues_discussed)).
  rewrite (call_llm_without_key _ _ Ha Ho).
  cbv beta iota delta [fst snd process_updates].
  unfold summary_step. rewrite call_spec.
  change (generate_standup_summary (over_reasoning R title_of stamp E))
    with (reasoning_generate_standup_summary R).
  unfold reasoning_generate_standup_summary.
  rewrite (call_llm_without_key _ _ Ha Ho).
  cbv beta iota delta [fst snd world trace].
  rewrite <- app_assoc. cbn [app].
  unfold slack_step.
  destruct (negb (slack_channel_id =? "")%string); [|reflexivity].
  destruct (_post_slack_summary _ slack_channel_id [] _ _) as [[posted|e] st4]; reflexivity.
Qed.

(** X14.  An update whose status is no string is never commented: building the
    comment raises before anything is sent, so after the look-up the
    update only leaves its error entry. *)
Theorem non_string_status_is_never_commented
    (team : string) (u : IssueUpdate) (id title : Json) (a : Acc) (st st1 : St World) :
  resolve_issue (over_reasoning R title_of stamp E) u st = (Ok (with_issue u id title), st1) ->
  truthy id = true ->
  is_str (status u) = false ->
  exists e,
    process_update (over_reasoning R title_of stamp E) team u a st
      = (with_issue u id title, add_error (error_entry E (with_issue u id title) e) a, st1).
Proof.
  intros Hres Hid Hstatus.
  exists (match status u with
          | JArr _ | JObj _ => unhashable (status u)
          | _ => no_attribute (status u) "title"
          end).
  unfold process_update. rewrite Hres.
  unfold dispatch_update. simpl issue_id. rewrite Hid.
  change (generate_linear_comment (over_reasoning R title_of stamp E))
    with (_generate_linear_comment title_of (fmt E) stamp).
  unfold _generate_linear_comment, reasoning_generate_linear_comment. simpl status.
  destruct (status u); try discriminate; reflexivity.
Qed.
End ReasoningPipelineFacts.

Lemma missing_keys_give_an_empty_result_witness :
  exists st2,
    world st2 = world st0 /\
    trace st2 = trace st0 ++ [CallLLM (_format_conversation long_user long_agent) [];
                              CallSummary [] "team"] /\
    process_session_end (over_reasoning keyless_reasoner (fun s => s) "" (scripted_env "" ""))
      "standup-1" long_user long_agent "team" "C042" [] st0
    = (Ok {| standup_id := "standup-1";
             total_updates := 0;
             linear_comments_posted := 0;
             escalations_created := [];
             slack_posted :=
               fst (fst (slack_step
                           (over_reasoning keyless_reasoner (fun s => s) "" (scripted_env "" ""))
                           "C042" [] acc0 st2));
             summary_text :=
               ("Standup completed for " ++ "team"
                ++ ". Please review individual issue updates for details.")%string;
             issue_updates := [];
             errors :=
               acc_errors (snd (fst (slack_step
                                       (over_reasoning keyless_reasoner (fun s => s) ""
                                          (scripted_env "" ""))
                                       "C042" [] acc0 st2))) |},
       snd (slack_step (over_reasoning keyless_reasoner (fun s => s) "" (scripted_env "" ""))
              "C042" [] acc0 st2)).
Proof.
  apply (missing_keys_give_an_empty_result keyless_reasoner (fun s => s) ""
           (scripted_env "" "") "standup-1" long_user long_agent "team" "C042" [] st0).
  - reflexivity.
  - reflexivity.
  - vm_compute. lia.
  - reflexivity.
Defined.

Example missing_keys_run :
  fst (process_session_end
         (over_reasoning keyless_reasoner (fun s => s) "" (scripted_env "" ""))
         "standup-1" long_user long_agent "team" "C042" [] st0)
  = Ok {| standup_id := "standup-1"; total_updates := 0; linear_comments_posted := 0;
          escalations_created := []; slack_posted := true;
          summary_text :=
            "Standup completed for team. Please review individual issue updates for details.";
          issue_updates := []; errors := [] |}.
Proof. reflexivity. Qed.

Lemma non_string_status_is_never_commented_witness :
  exists e,
    process_update
      (over_reasoning keyless_reasoner (fun s => s) ""
         (over_linear (scripted_tracker healthy_reply) (scripted_env "" "")))
      "team" null_status_update acc0 st0
    = (with_issue null_status_update (JStr "uuid-1") (JStr "Fix login"),
       add_error
         (error_entry (over_linear (scripted_tracker healthy_reply) (scripted_env "" ""))
            (with_issue null_status_update (JStr "uuid-1") (JStr "Fix login")) e) acc0,
       {| world := tt; trace := [CallLookup (JStr "ENG-123")] |}).
Proof.
  apply (non_string_status_is_never_commented keyless_reasoner (fun s => s) ""
           (over_linear (scripted_tracker healthy_reply) (scripted_env "" ""))
           "team" null_status_update (JStr "uuid-1") (JStr "Fix login") acc0 st0
           {| world := tt; trace := [CallLookup (JStr "ENG-123")] |}).
  - vm_compute. reflexivity.
  - reflexivity.
  - reflexivity.
Defined.

(** ** A disconnect first seen by the audio callback *)

Lemma inactive_never_invokes (sig : Signal) (s : Life) :
  l_active s = false ->
  l_active (step_signal sig s) = false /\
  l_pipeline_calls (step_signal sig s) = l_pipeline_calls s.
Proof.
  destruct s as [active started transcripts calls main listener]. simpl. intros ->.
  destruct sig as [ev|delivered].
  - destruct ev, main, listener, started, transcripts; split; reflexivity.
  - destruct listener; split; reflexivity.
Qed.

Lemma inactive_run_never_invokes (sigs : list Signal) (s : Life) :
  l_active s = false ->
  l_pipeline_calls (run_signals sigs s) = l_pipeline_calls s.
Proof.
  revert s. induction sigs as [|sig rest IH]; intros s Hs; [reflexivity|].
  simpl. destruct (inactive_never_invokes sig s Hs) as [Ha Hn].
  change (fold_left (fun s0 sig0 => step_signal sig0 s0) rest (step_signal sig s))
    with (run_signals rest (step_signal sig s)).
  rewrite (IH _ Ha). exact Hn.
Qed.

(** X16.  When the client goes away while the agent is speaking, the audio
    callback is the first to notice: it clears [is_active], and from then
    on nothing invokes the pipeline any more, whatever the client, the
    upstream and the message loop do.  The standup is not summarised,
    although the same disconnect seen by the message loop would have
    triggered the summary. *)
Theorem lost_audio_reply_loses_the_summary (sigs : list Signal) (s : Life) :
  l_listener s = LIdle ->
  l_pipeline_calls (run_signals (UpstreamAudio false :: sigs) s) = l_pipeline_calls s.
Proof.
  intros Hidle. simpl. rewrite Hidle.
  change (fold_left (fun s0 sig0 => step_signal sig0 s0) sigs (_on_audio_response false s))
    with (run_signals sigs (_on_audio_response false s)).
  unfold _on_audio_response.
  destruct (l_active s) eqn:Ha; simpl.
  - rewrite inactive_run_never_invokes; reflexivity.
  - rewrite inactive_run_never_invokes; [reflexivity | exact Ha].
Qed.

Lemma lost_audio_reply_loses_the_summary_witness :
  l_pipeline_calls
    (run_signals [UpstreamAudio false; Scheduled ClientDisconnect; Scheduled UpstreamEndCall]
       (active_session true))
  = l_pipeline_calls (active_session true).
Proof.
  apply (lost_audio_reply_loses_the_summary
           [Scheduled ClientDisconnect; Scheduled UpstreamEndCall] (active_session true)).
  reflexivity.
Defined.

Example disconnect_seen_by_the_loop_is_summarised :
  l_pipeline_calls (run_signals [Scheduled ClientDisconnect] (active_session true)) = 1 /\
  l_pipeline_calls
    (run_signals [UpstreamAudio false; Scheduled ClientDisconnect] (active_session true)) = 0.
Proof. split; reflexivity. Qed.

(** ** Audio that arrives before the upstream is ready *)

(** The pending list keeps the ten latest chunks. *)
Lemma push_pending_keeps_latest (pcm16 : Bytes) (earlier : list Bytes) :
  push_pending pcm16 (drop (length earlier - 10) earlier)
  = drop (length (earlier ++ [pcm16]) - 10) (earlier ++ [pcm16]).
Proof.
  unfold push_pending.
  assert (Hlen : length (drop (length earlier - 10) earlier ++ [pcm16])
                 = S (length earlier - (length earlier - 10))).
  { rewrite length_app, length_drop. simpl. lia. }
  rewrite Hlen, length_app. simpl length.
  destruct (10 <? S (length earlier - (length earlier - 10))) eqn:Hcmp.
  - apply Nat.ltb_lt in Hcmp.
    replace (length earlier + 1 - 10) with (S (length earlier - 10)) by lia.
    rewrite (drop_app_le earlier [pcm16] (S (length earlier - 10))) by lia.
    destruct (drop (length earlier - 10) earlier) as [|x rest] eqn:Hd.
    + apply (f_equal length) in Hd. rewrite length_drop in Hd. simpl in Hd. lia.
    + simpl. f_equal.
      replace (S (length earlier - 10)) with (length earlier - 10 + 1) by lia.
      rewrite <- drop_drop, Hd. reflexivity.
  - apply Nat.ltb_ge in Hcmp.
    replace (length earlier + 1 - 10) with 0 by lia.
    replace (length earlier - 10) with 0 by lia. reflexivity.
Qed.

Section EarlyAudio.
Context {World : Type} (U : Upstream World).

Lemma queue_all_before_ready (chunks earlier : list Bytes) (h : Handler) (st : USt World) :
  is_connected h = true ->
  _conversation_ready h = false ->
  Forall (fun c => c <> []) chunks ->
  _pending_audio_before_ready h = drop (length earlier - 10) earlier ->
  exists h1,
    queue_all U chunks h st = (h1, st) /\
    _pending_audio_before_ready h1
      = drop (length (earlier ++ chunks) - 10) (earlier ++ chunks) /\
    is_connected h1 = true /\ websocket h1 = websocket h /\
    _conversation_ready h1 = false /\ _pcm_buffer h1 = _pcm_buffer h /\
    response_callbacks h1 = response_callbacks h.
Proof.
  revert earlier h. induction chunks as [|c rest IH]; intros earlier h Hconn Hready Hne Hpend.
  - exists h. rewrite app_nil_r. repeat split; assumption.
  - apply Forall_cons in Hne as [Hc Hrest].
    simpl. unfold queue_pcm. rewrite Hconn, Hready. simpl.
    destruct c as [|b c']; [contradiction|]. rewrite Hpend, push_pending_keeps_latest.
    destruct (IH (earlier ++ [b :: c'])
                (set_pending (drop (length (earlier ++ [b :: c']) - 10) (earlier ++ [b :: c'])) h)
                Hconn Hready Hrest eq_refl)
      as (h1 & Hq & Hp & H1 & H2 & H3 & H4 & H5).
    exists h1. rewrite <- app_assoc in Hp. split; [exact Hq|]. repeat split; assumption.
Qed.

Lemma try_variants_sends (vs : list Payload) (idx : nat) (h : Handler) (st : USt World) :
  vs <> [] ->
  exists news,
    u_sent (snd (try_variants U idx vs h st)) = u_sent st ++ news /\
    news <> [] /\
    Forall (fun p => In (fst p) vs) news.
Proof.
  revert idx st. induction vs as [|p rest IH]; intros idx st Hne; [contradiction|].
  simpl. rewrite send_spec.
  destruct (fst (ws_send U p (u_world st))) eqn:Hok.
  - exists [(p, true)]. simpl. repeat split; [discriminate|].
    constructor; [left; reflexivity | constructor].
  - destruct rest as [|q rest'].
    + exists [(p, false)]. simpl. repeat split; [discriminate|].
      constructor; [left; reflexivity | constructor].
    + destruct (IH (S idx)
                  {| u_world := snd (ws_send U p (u_world st));
                     u_sent := u_sent st ++ [(p, false)];
                     u_invoked := u_invoked st; u_outbox := u_outbox st |})
        as (news & Hs & Hn & Hall); [discriminate|].
      exists ((p, false) :: news). rewrite Hs. simpl. rewrite <- app_assoc.
      repeat split; [discriminate|].
      constructor; [left; reflexivity|].
      eapply Forall_impl; [exact Hall|]. intros x Hx. right. exact Hx.
Qed.

Lemma try_variants_pending (vs : list Payload) (idx : nat) (h : Handler) (st : USt World) :
  _pending_audio_before_ready (fst (try_variants U idx vs h st))
  = _pending_audio_before_ready h.
Proof.
  revert idx st. induction vs as [|p rest IH]; intros idx st; [reflexivity|].
  simpl. destruct (send U p st) as [[|] st1]; [reflexivity|].
  destruct rest as [|q rest']; [reflexivity|]. apply IH.
Qed.

Lemma send_chunk_pending (pcm16 : Bytes) (h : Handler) (st : USt World) :
  _pending_audio_before_ready (fst (_send_chunk U pcm16 h st))
  = _pending_audio_before_ready h.
Proof.
  unfold _send_chunk. destruct (negb (websocket h && is_connected h)); [reflexivity|].
  destruct pcm16 as [|b rest]; [reflexivity|].
  destruct (_successful_payload_format h) as [k|]; [|apply try_variants_pending].
  destruct (nth_error (variants (pad_even (b :: rest))) k) as [payload|].
  - destruct (send U payload st) as [[|] st1]; [reflexivity|].
    rewrite try_variants_pending. reflexivity.
  - rewrite try_variants_pending. reflexivity.
Qed.

Lemma variants_audio (pcm16 : Bytes) (p : Payload) :
  In p (variants pcm16) -> audio p = pcm16.
Proof. simpl. intros [<-|[<-|[<-|[<-|[]]]]]; reflexivity. Qed.

Lemma send_chunk_sends (pcm16 : Bytes) (h : Handler) (st : USt World) :
  is_connected h = true -> websocket h = true -> pcm16 <> [] ->
  exists news,
    u_sent (snd (_send_chunk U pcm16 h st)) = u_sent st ++ news /\
    news <> [] /\
    Forall (fun p => audio (fst p) = pad_even pcm16) news.
Proof.
  intros Hconn Hsock Hne. unfold _send_chunk. rewrite Hconn, Hsock. cbn [negb andb].
  destruct pcm16 as [|b rest]; [contradiction|].
  assert (Hvs : variants (pad_even (b :: rest)) <> []) by discriminate.
  assert (Haudio : forall news : list (Payload * bool),
            Forall (fun p => In (fst p) (variants (pad_even (b :: rest)))) news ->
            Forall (fun p => audio (fst p) = pad_even (b :: rest)) news).
  { intros news Hall. eapply Forall_impl; [exact Hall|].
    intros x Hx. apply variants_audio. exact Hx. }
  destruct (_successful_payload_format h) as [k|].
  - destruct (nth_error (variants (pad_even (b :: rest))) k) as [payload|] eqn:Hnth.
    + rewrite send_spec.
      destruct (fst (ws_send U payload (u_world st))) eqn:Hok.
      * exists [(payload, true)]. simpl. repeat split; [discriminate|].
        constructor; [|constructor]. apply variants_audio.
        eapply nth_error_In. exact Hnth.
      * destruct (try_variants_sends (variants (pad_even (b :: rest))) 0 (set_format None h)
                    {| u_world := snd (ws_send U payload (u_world st));
                       u_sent := u_sent st ++ [(payload, false)];
                       u_invoked := u_invoked st; u_outbox := u_outbox st |} Hvs)
          as (news & Hs & Hn & Hall).
        exists ((payload, false) :: news). cbv beta iota. rewrite Hs. simpl. rewrite <- app_assoc.
        repeat split; [discriminate|].
        constructor; [|apply Haudio; exact Hall].
        apply variants_audio. eapply nth_error_In. exact Hnth.
    + destruct (try_variants_sends (variants (pad_even (b :: rest))) 0 (set_format None h) st Hvs)
        as (news & Hs & Hn & Hall).
      exists news. repeat split; [exact Hs | exact Hn | apply Haudio; exact Hall].
  - destruct (try_variants_sends (variants (pad_even (b :: rest))) 0 h st Hvs)
      as (news & Hs & Hn & Hall).
    exists news. repeat split; [exact Hs | exact Hn | apply Haudio; exact Hall].
Qed.

Lemma on_ready_sends_pending (metadata : Json) (h : Handler) (st : USt World) :
  is_connected h = true -> websocket h = true ->
  _conversation_ready h = false -> _pcm_buffer h = [] ->
  concat (_pending_audio_before_ready h) <> [] ->
  exists news,
    u_sent (snd (on_ready U metadata h st)) = u_sent st ++ news /\
    news <> [] /\
    Forall (fun p => audio (fst p) = pad_even (concat (_pending_audio_before_ready h))) news /\
    _pending_audio_before_ready (fst (on_ready U metadata h st)) = [].
Proof.
  intros Hconn Hsock Hready Hbuf Hcat.
  assert (Hst1 : u_sent (_notify "status" (EvJson metadata) h st) = u_sent st).
  { unfold _notify. destruct (response_callbacks h !! _); reflexivity. }
  unfold on_ready. rewrite Hready.
  cbn [set_ready _pending_audio_before_ready _pcm_buffer]. rewrite Hbuf.
  destruct (_pending_audio_before_ready h) as [|c rest] eqn:Hd; [contradiction|].
  cbn [app].
  unfold flush. cbn [set_pending set_buffer _pcm_buffer].
  destruct (concat (c :: rest)) as [|x xs] eqn:Hx; [contradiction|].
  match goal with
  | |- context [_send_chunk U ?pcm ?hh ?ss] =>
      destruct (send_chunk_sends pcm hh ss Hconn Hsock Hcat) as (news & Hs & Hn & Hf);
      pose proof (send_chunk_pending pcm hh ss) as Hpend;
      destruct (_send_chunk U pcm hh ss) as [h2 st2] eqn:Hsend
  end.
  exists news. simpl in *.
  rewrite Hs, Hst1. repeat split; assumption.
Qed.

(** X2.  Audio queued before the upstream is ready is not lost and not
    reordered, up to the ten latest chunks: nothing is sent while the
    chunks are queued, and when the readiness event arrives, every send
    that is attempted carries the ten latest chunks (all of them, when
    there are at most ten), concatenated in arrival order as one chunk.
    Older chunks are dropped without a trace. *)
Theorem early_audio_is_sent_in_order_at_readiness
    (chunks : list Bytes) (metadata : Json) (h : Handler) (st : USt World) :
  is_connected h = true -> websocket h = true ->
  _conversation_ready h = false ->
  _pending_audio_before_ready h = [] -> _pcm_buffer h = [] ->
  chunks <> [] -> Forall (fun c => c <> []) chunks ->
  exists h1 news,
    queue_all U chunks h st = (h1, st) /\
    u_sent (snd (on_ready U metadata h1 st)) = u_sent st ++ news /\
    news <> [] /\
    Forall (fun p => audio (fst p)
                     = pad_even (concat (drop (length chunks - 10) chunks))) news /\
    _pending_audio_before_ready (fst (on_ready U metadata h1 st)) = [] /\
    _conversation_ready (fst (on_ready U metadata h1 st)) = true.
Proof.
  intros Hconn Hsock Hready Hpend Hbuf Hne Hall.
  destruct (queue_all_before_ready chunks [] h st Hconn Hready Hall Hpend)
    as (h1 & Hq & Hp & Hc1 & Hs1 & Hr1 & Hb1 & _).
  simpl in Hp. rewrite Hsock in Hs1. rewrite Hbuf in Hb1.
  assert (Hdrop : drop (length chunks - 10) chunks <> []).
  { intros Hd. apply (f_equal length) in Hd. rewrite length_drop in Hd.
    destruct chunks; [contradiction|]. simpl in Hd. lia. }
  assert (Hcat : concat (_pending_audio_before_ready h1) <> []).
  { rewrite Hp. apply (Forall_drop _ (length chunks - 10)) in Hall. unfold Bytes in *.
    destruct (drop (length chunks - 10) chunks) as [|c rest]; [contradiction|].
    apply Forall_cons in Hall as [Hc _]. simpl.
    destruct c; [contradiction | discriminate]. }
  destruct (on_ready_sends_pending metadata h1 st Hc1 Hs1 Hr1 Hb1 Hcat)
    as (news & Hs & Hn & Hf & Hp').
  exists h1, news. rewrite Hp in Hf.
  repeat split; try assumption. apply on_ready_ready.
Qed.
End EarlyAudio.

Lemma early_audio_is_sent_in_order_at_readiness_witness :
  exists h1 news,
    queue_all silent_upstream eleven_chunks connected_handler ust0 = (h1, ust0) /\
    u_sent (snd (on_ready silent_upstream JNull h1 ust0)) = u_sent ust0 ++ news /\
    news <> [] /\
    Forall (fun p => audio (fst p)
                     = pad_even (concat (drop (length eleven_chunks - 10) eleven_chunks)))
      news /\
    _pending_audio_before_ready (fst (on_ready silent_upstream JNull h1 ust0)) = [] /\
    _conversation_ready (fst (on_ready silent_upstream JNull h1 ust0)) = true.
Proof.
  apply (early_audio_is_sent_in_order_at_readiness silent_upstream eleven_chunks JNull
           connected_handler ust0); try reflexivity.
  - discriminate.
  - repeat constructor; discriminate.
Defined.

Example eleven_early_chunks_lose_the_first :
  u_sent (snd (on_ready silent_upstream JNull
                 (fst (queue_all silent_upstream eleven_chunks connected_handler ust0)) ust0))
  = [({| variant := 0;
         audio := [Byte.x02; Byte.x00; Byte.x03; Byte.x00; Byte.x04; Byte.x00;
                   Byte.x05; Byte.x00; Byte.x06; Byte.x00; Byte.x07; Byte.x00;
                   Byte.x08; Byte.x00; Byte.x09; Byte.x00; Byte.x0a; Byte.x00;
                   Byte.x0b; Byte.x00] |}, true)].
Proof. reflexivity. Qed.

(** ** The listener *)

Section ListenerFacts.
Context {World : Type} (U : Upstream World) (b64decode : string -> option Bytes)
  (json_loads : string -> option Json).

Lemma on_frame_unreadable (raw : string) (hs : Handler * USt World) :
  readable json_loads raw = false -> on_frame U b64decode json_loads raw hs = hs.
Proof.
  unfold readable, on_frame. destruct (json_loads raw) as [[]|]; try discriminate;
    intros _; destruct hs; reflexivity.
Qed.

Lemma frames_skip_unreadable (frames : list string) (hs : Handler * USt World) :
  fold_left (fun hs raw => on_frame U b64decode json_loads raw hs) frames hs
  = fold_left (fun hs raw => on_frame U b64decode json_loads raw hs)
      (List.filter (readable json_loads) frames) hs.
Proof.
  revert hs. induction frames as [|raw rest IH]; intros hs; [reflexivity|].
  simpl. destruct (readable json_loads raw) eqn:Hr; simpl.
  - apply IH.
  - rewrite (on_frame_unreadable raw hs Hr). apply IH.
Qed.

(** X17.  The listener survives what it cannot read: frames that do not
    decode, and frames that decode to something other than an object,
    are skipped, and the frames after them are handled as if the skipped
    ones had never arrived. *)
Theorem listener_skips_unreadable_frames (frames : list string) (h : Handler)
    (st : USt World) :
  _listen U b64decode json_loads frames h st
  = _listen U b64decode json_loads (List.filter (readable json_loads) frames) h st.
Proof.
  unfold _listen. destruct (negb (websocket h)); [reflexivity|].
  rewrite frames_skip_unreadable. reflexivity.
Qed.

(** X18.  Once the listener has returned the handler is disconnected, and
    every chunk queued from then on is dropped: nothing is sent and
    nothing is buffered. *)
Theorem audio_after_the_listener_ended_is_dropped (frames : list string) (pcm16 : Bytes)
    (h : Handler) (st : USt World) :
  websocket h = true ->
  is_connected (fst (_listen U b64decode json_loads frames h st)) = false /\
  queue_pcm U pcm16 (fst (_listen U b64decode json_loads frames h st))
    (snd (_listen U b64decode json_loads frames h st))
  = _listen U b64decode json_loads frames h st.
Proof.
  intros Hsock. unfold _listen. rewrite Hsock. simpl negb. cbv iota.
  destruct (fold_left _ frames (h, st)) as [h1 st1]. simpl.
  split; [reflexivity|]. unfold queue_pcm. reflexivity.
Qed.

Lemma step_names (data : list (string * Json)) (step : Outcome (list Notification)) :
  In step [audio_step b64decode data; text_step data; ping_step data;
           user_step data; tool_step data] ->
  forall ns, step = Ok ns -> Forall (fun n => fst n <> "error"%string) ns.
Proof.
  assert (Htools : forall v ns, tool_calls_of v = Ok ns ->
                     Forall (fun n => fst n <> "error"%string) ns).
  { intros v ns. unfold tool_calls_of. destruct (py_iter v) as [items|e]; [|discriminate].
    intros [= <-]. induction items as [|x rest IH]; constructor; [discriminate | exact IH]. }
  intros [<-|[<-|[<-|[<-|[<-|[]]]]]] ns.
  - unfold audio_step. destruct (audio_b64_of data) as [[| | |s| |]|e]; try discriminate;
      try (intros [= <-]; constructor).
    destruct (truthy (JStr s)); [|intros [= <-]; constructor].
    destruct (b64decode s); intros [= <-]; repeat constructor; discriminate.
  - unfold text_step. destruct (has_key "agent_response_event" data).
    + destruct (dict_get "agent_response_event" data JNull) as [| | | | |ev]; try discriminate.
      destruct (truthy _); [|intros [= <-]; constructor].
      destruct (py_or _ _); try discriminate; intros [= <-]; repeat constructor; discriminate.
    + destruct (dict_get "text" data JNull); intros [= <-]; repeat constructor; discriminate.
  - unfold ping_step. destruct (type_is "ping" data); intros [= <-];
      repeat constructor; discriminate.
  - unfold user_step.
    destruct (if has_key "user_transcript" data then _ else _) as [v|e]; [|discriminate].
    destruct (truthy v); intros [= <-]; repeat constructor; discriminate.
  - unfold tool_step.
    destruct (has_key "tool_call" data); [intros [= <-]; repeat constructor; discriminate|].
    destruct (has_key "tool_calls" data); [apply Htools|].
    destruct (has_key "function_call" data); [intros [= <-]; repeat constructor; discriminate|].
    destruct (has_key "function_calls" data); [apply Htools|].
    destruct (has_key "agent_response_event" data); [|intros [= <-]; constructor].
    destruct (dict_get "agent_response_event" data JNull) as [| | | | |ev]; try discriminate.
    destruct (has_key "tool_call" ev); [intros [= <-]; repeat constructor; discriminate|].
    destruct (has_key "tool_calls" ev); [apply Htools|]. intros [= <-]; constructor.
Qed.

(** X19.  An event with a malformed part loses the error report it carries:
    when one of the earlier steps raises (an audio or agent-response
    part that is no object, a text that cannot be sliced, tool calls
    that cannot be iterated), the handler of [_handle_event] ends the
    method, and the ["error"] callback is not invoked for this event,
    whether or not the event has an ["error"] key. *)
Theorem malformed_event_part_swallows_error_report (data : list (string * Json)) :
  malformed_part b64decode data ->
  Forall (fun n => fst n <> "error"%string) (notifications b64decode data).
Proof.
  intros [e He]. unfold notifications.
  pose proof (step_names data _ (or_introl eq_refl)) as H1.
  pose proof (step_names data _ (or_intror (or_introl eq_refl))) as H2.
  pose proof (step_names data _ (or_intror (or_intror (or_introl eq_refl)))) as H3.
  pose proof (step_names data _ (or_intror (or_intror (or_intror (or_introl eq_refl))))) as H4.
  pose proof (step_names data _
                (or_intror (or_intror (or_intror (or_intror (or_introl eq_refl)))))) as H5.
  cbn [until_raise].
  destruct (audio_step b64decode data) as [n1|e1]; [specialize (H1 n1 eq_refl)|constructor].
  apply Forall_app; split; [exact H1|].
  destruct (text_step data) as [n2|e2]; [specialize (H2 n2 eq_refl)|constructor].
  apply Forall_app; split; [exact H2|].
  destruct (ping_step data) as [n3|e3]; [specialize (H3 n3 eq_refl)|constructor].
  apply Forall_app; split; [exact H3|].
  destruct (user_step data) as [n4|e4]; [specialize (H4 n4 eq_refl)|constructor].
  apply Forall_app; split; [exact H4|].
  destruct (tool_step data) as [n5|e5]; [specialize (H5 n5 eq_refl)|constructor].
  exfalso. destruct He as [H|[H|[H|[H|[H|[]]]]]]; discriminate.
Qed.

Lemma notify_all_invoked (ns : list Notification) (h : Handler) (st : USt World) :
  exists later, u_invoked (notify_all ns h st) = u_invoked st ++ later.
Proof.
  revert st. induction ns as [|n rest IH]; intros st.
  - exists []. rewrite app_nil_r. reflexivity.
  - destruct (IH (_notify (fst n) (snd n) h st)) as [later Hl].
    change (notify_all (n :: rest) h st)
      with (notify_all rest h (_notify (fst n) (snd n) h st)).
    rewrite Hl. unfold _notify.
    destruct (response_callbacks h !! fst n).
    + exists ((c, snd n) :: later). simpl. rewrite <- app_assoc. reflexivity.
    + exists later. reflexivity.
Qed.

Lemma type_is_exclusive (name other : string) (data : list (string * Json)) :
  type_is name data = true -> name <> other -> type_is other data = false.
Proof.
  unfold type_is. destruct (dict_get "type" data JNull); try discriminate.
  intros Hn Hne. apply String.eqb_eq in Hn. subst. apply String.eqb_neq.
  exact Hne.
Qed.

(** X20.  The upstream's flat transcript event, [{"type": "user_transcript",
    "text": t}], is reported twice: first to the ["text_response"]
    callback, which takes it for the agent's words, then to the
    ["user_transcript"] callback, both with the same text. *)
Theorem flat_user_transcript_is_reported_as_agent_text_too
    (data : list (string * Json)) (t : string) (cb_text cb_user : Callback)
    (h : Handler) (st : USt World) :
  type_is "user_transcript" data = true ->
  dict_lookup "text" data = Some (JStr t) -> t <> ""%string ->
  has_key "audio_event" data = false -> has_key "audio_base64" data = false ->
  has_key "audio" data = false ->
  has_key "agent_response_event" data = false ->
  has_key "user_transcript" data = false ->
  has_key "user_transcription_event" data = false ->
  response_callbacks h !! "text_response"%string = Some cb_text ->
  response_callbacks h !! "user_transcript"%string = Some cb_user ->
  exists later,
    u_invoked (snd (_handle_event U b64decode (JObj data) h st))
    = u_invoked st ++ [(cb_text, EvText t); (cb_user, EvText t)] ++ later.
Proof.
  intros Htype Htext Ht Ha1 Ha2 Ha3 Hagent Hu1 Hu2 Hcb1 Hcb2.
  unfold _handle_event.
  rewrite (type_is_exclusive _ "conversation_initiation_metadata" data Htype) by discriminate.
  assert (Hget : dict_get "text" data JNull = JStr t).
  { unfold dict_get. rewrite Htext. reflexivity. }
  assert (Htruthy : truthy (JStr t) = true).
  { simpl. apply String.eqb_neq in Ht. rewrite Ht. reflexivity. }
  assert (Haudio : audio_step b64decode data = Ok []).
  { unfold audio_step, audio_b64_of. rewrite Ha1, Ha2, Ha3. reflexivity. }
  assert (Htxt : text_step data = Ok [("text_response"%string, EvText t)]).
  { unfold text_step. rewrite Hagent, Hget. reflexivity. }
  assert (Hping : ping_step data = Ok []).
  { unfold ping_step.
    rewrite (type_is_exclusive _ "ping" data Htype) by discriminate. reflexivity. }
  assert (Huser : user_step data = Ok [("user_transcript"%string, EvText t)]).
  { unfold user_step. rewrite Hu1, Hu2, Htype, Hget. unfold py_or. rewrite Htruthy.
    rewrite Htruthy. reflexivity. }
  unfold notifications. cbn [until_raise]. rewrite Haudio, Htxt, Hping, Huser.
  cbn [app snd]. unfold notify_all. cbn [fold_left fst snd].
  match goal with
  | |- context [fold_left ?f ?ns ?st0] =>
      destruct (notify_all_invoked ns h st0) as [later Hl]; unfold notify_all in Hl;
      rewrite Hl
  end.
  exists later. unfold _notify. rewrite Hcb1. cbn [u_invoked response_callbacks].
  rewrite Hcb2. cbn [u_invoked]. rewrite <- !app_assoc. reflexivity.
Qed.
End ListenerFacts.

Lemma audio_after_the_listener_ended_is_dropped_witness :
  is_connected
    (fst (_listen silent_upstream scripted_b64decode scripted_loads
            ["not json"%string; three_updates_text] session_handler ust0)) = false /\
  queue_pcm silent_upstream [Byte.x01; Byte.x02]
    (fst (_listen silent_upstream scripted_b64decode scripted_loads
            ["not json"%string; three_updates_text] session_handler ust0))
    (snd (_listen silent_upstream scripted_b64decode scripted_loads
            ["not json"%string; three_updates_text] session_handler ust0))
  = _listen silent_upstream scripted_b64decode scripted_loads
      ["not json"%string; three_updates_text] session_handler ust0.
Proof.
  apply (audio_after_the_listener_ended_is_dropped silent_upstream scripted_b64decode
           scripted_loads ["not json"%string; three_updates_text] [Byte.x01; Byte.x02]
           session_handler ust0).
  reflexivity.
Defined.

Lemma malformed_event_part_swallows_error_report_witness :
  Forall (fun n => fst n <> "error"%string)
    (notifications scripted_b64decode
       [("tool_calls"%string, JNum 5); ("error"%string, JStr "quota exceeded")]).
Proof.
  apply (malformed_event_part_swallows_error_report scripted_b64decode
           [("tool_calls"%string, JNum 5); ("error"%string, JStr "quota exceeded")]).
  exists "'int' object is not iterable"%string.
  right. right. right. right. left. reflexivity.
Defined.

Example well_formed_event_reports_its_error :
  notifications scripted_b64decode
    [("tool_calls"%string, JArr []); ("error"%string, JStr "quota exceeded")]
  = [("error"%string, EvText "quota exceeded")].
Proof. reflexivity. Qed.

Lemma flat_user_transcript_is_reported_as_agent_text_too_witness :
  exists later,
    u_invoked
      (snd (_handle_event silent_upstream scripted_b64decode
              (JObj [("type"%string, JStr "user_transcript");
                     ("text"%string, JStr "I am blocked on A-2")])
              session_handler ust0))
    = u_invoked ust0
      ++ [(1, EvText "I am blocked on A-2"); (4, EvText "I am blocked on A-2")] ++ later.
Proof.
  apply (flat_user_transcript_is_reported_as_agent_text_too silent_upstream
           scripted_b64decode
           [("type"%string, JStr "user_transcript");
            ("text"%string, JStr "I am blocked on A-2")]
           "I am blocked on A-2" 1 4 session_handler ust0);
    try reflexivity.
  discriminate.
Defined.

(** ** The samples the gate reads *)

Lemma byte_at_range (pcm16 : Bytes) (i : nat) : (0 <= byte_at pcm16 i < 256)%Z.
Proof.
  unfold byte_at. pose proof (Byte.to_N_bounded (nth i pcm16 Byte.x00)) as Hb. lia.
Qed.

Lemma decoding_agrees_everywhere :
  forallb (fun lo => forallb (fun hi => decoding_agrees (Z.of_nat lo) (Z.of_nat hi))
                       (seq 0 256)) (seq 0 256) = true.
Proof. vm_compute. reflexivity. Qed.

(** X21.  Lines 242-246 decode a little-endian two's-complement sample: the
    value read at index [i] is [lo + 256 * hi] when that is below
    [32768] and [lo + 256 * hi - 65536] otherwise, so it always lies
    between [-32768] and [32767]. *)
Theorem sample_at_is_twos_complement (pcm16 : Bytes) (i : nat) :
  sample_at pcm16 i
  = (let v := byte_at pcm16 (2 * i) + 256 * byte_at pcm16 (2 * i + 1) in
     if v <? 32768 then v else v - 65536)%Z /\
  (-32768 <= sample_at pcm16 i <= 32767)%Z.
Proof.
  pose proof (byte_at_range pcm16 (2 * i)) as Hlo.
  pose proof (byte_at_range pcm16 (2 * i + 1)) as Hhi.
  assert (Heq : sample_at pcm16 i
                = (let v := byte_at pcm16 (2 * i) + 256 * byte_at pcm16 (2 * i + 1) in
                   if v <? 32768 then v else v - 65536)%Z).
  { pose proof decoding_agrees_everywhere as Hall.
    rewrite forallb_forall in Hall.
    specialize (Hall (Z.to_nat (byte_at pcm16 (2 * i)))).
    rewrite forallb_forall in Hall.
    assert (H1 : In (Z.to_nat (byte_at pcm16 (2 * i))) (seq 0 256)) by (apply in_seq; lia).
    specialize (Hall H1 (Z.to_nat (byte_at pcm16 (2 * i + 1)))).
    assert (H2 : In (Z.to_nat (byte_at pcm16 (2 * i + 1))) (seq 0 256)) by (apply in_seq; lia).
    specialize (Hall H2). rewrite !Z2Nat.id in Hall by lia.
    unfold decoding_agrees in Hall. apply Z.eqb_eq in Hall. exact Hall. }
  split; [exact Heq|]. rewrite Heq. cbv zeta.
  destruct (byte_at pcm16 (2 * i) + 256 * byte_at pcm16 (2 * i + 1) <? 32768)%Z eqn:Hc.
  - apply Z.ltb_lt in Hc. lia.
  - apply Z.ltb_ge in Hc. lia.
Qed.

(** X22.  A frame of fewer than four samples never counts as speech and has
    energy zero, whatever its bytes. *)
Theorem short_frames_are_never_speech (f : AudioFrame) :
  length (pcm f) < 8 -> _is_speech f = (false, 0%Q).
Proof.
  intros Hlen. unfold _is_speech.
  destruct (pcm f) as [|b rest] eqn:Hp; [reflexivity|].
  assert (Hsc : length (b :: rest) / 2 < 4).
  { apply Nat.Div0.div_lt_upper_bound. lia. }
  destruct (length (b :: rest) / 2 =? 0) eqn:Hz; [reflexivity|].
  rewrite (Nat.mod_small _ 4 Hsc), Nat.sub_diag. reflexivity.
Qed.

Lemma short_frames_are_never_speech_witness :
  _is_speech {| pcm := [Byte.xff; Byte.x7f; Byte.xff; Byte.x7f; Byte.xff; Byte.x7f];
                energy := 1 |} = (false, 0%Q).
Proof.
  apply (short_frames_are_never_speech
           {| pcm := [Byte.xff; Byte.x7f; Byte.xff; Byte.x7f; Byte.xff; Byte.x7f];
              energy := 1 |}).
  simpl. lia.
Defined.

(** ** Shutdown *)

Section ShutdownFacts.
Context {World : Type} (U : Upstream World) (ws_close : World -> World).

(** X23.  [cleanup] delivers what is still buffered and then silences the
    session: with a connected handler and a non-empty buffer, every send
    attempted during cleanup carries the whole buffer as one chunk (and
    at least one is attempted); afterwards the session is inactive, the
    handler disconnected and not ready, the buffer empty, and every
    further frame is ignored. *)
Theorem cleanup_flushes_then_silences (f : AudioFrame) (b : Bridge) (s : Session)
    (st : USt World) :
  bridge s = Some b ->
  is_connected (handler b) = true -> websocket (handler b) = true ->
  _pcm_buffer (handler b) <> [] ->
  exists news b1,
    u_sent (snd (session_cleanup U ws_close s st)) = u_sent st ++ news /\
    news <> [] /\
    Forall (fun p => audio (fst p) = pad_even (_pcm_buffer (handler b))) news /\
    bridge (fst (session_cleanup U ws_close s st)) = Some b1 /\
    is_connected (handler b1) = false /\
    _conversation_ready (handler b1) = false /\
    _pcm_buffer (handler b1) = [] /\
    process_audio U f (fst (session_cleanup U ws_close s st))
      (snd (session_cleanup U ws_close s st))
    = Some (session_cleanup U ws_close s st).
Proof.
  intros Hb Hconn Hsock Hbuf.
  unfold session_cleanup. cbn [set_inactive bridge]. rewrite Hb.
  unfold bridge_cleanup, flush.
  destruct (_pcm_buffer (handler b)) as [|x xs] eqn:Hx; [contradiction|].
  destruct (send_chunk_sends U (x :: xs) (set_buffer [] (handler b)) st Hconn Hsock Hbuf)
    as (news & Hs & Hn & Hf).
  pose proof (send_chunk_buffer U (x :: xs) (set_buffer [] (handler b)) st) as Hbuf'.
  destruct (_send_chunk U (x :: xs) (set_buffer [] (handler b)) st) as [h1 st1].
  unfold disconnect. cbn [fst snd] in *.
  eexists news, _. 
  split; [destruct (websocket (set_last_flush _ h1)); exact Hs|].
  split; [exact Hn|]. split; [exact Hf|].
  split; [reflexivity|]. split; [reflexivity|]. split; [reflexivity|].
  split; [exact Hbuf'|]. reflexivity.
Qed.
End ShutdownFacts.

Lemma cleanup_flushes_then_silences_witness :
  exists news b1,
    u_sent (snd (session_cleanup silent_upstream (fun w => w)
                   (session_with (Some buffered_bridge) 0 0) ust0)) = u_sent ust0 ++ news /\
    news <> [] /\
    Forall (fun p => audio (fst p) = pad_even (_pcm_buffer (handler buffered_bridge))) news /\
    bridge (fst (session_cleanup silent_upstream (fun w => w)
                   (session_with (Some buffered_bridge) 0 0) ust0)) = Some b1 /\
    is_connected (handler b1) = false /\
    _conversation_ready (handler b1) = false /\
    _pcm_buffer (handler b1) = [] /\
    process_audio silent_upstream loud_frame
      (fst (session_cleanup silent_upstream (fun w => w)
              (session_with (Some buffered_bridge) 0 0) ust0))
      (snd (session_cleanup silent_upstream (fun w => w)
              (session_with (Some buffered_bridge) 0 0) ust0))
    = Some (session_cleanup silent_upstream (fun w => w)
              (session_with (Some buffered_bridge) 0 0) ust0).
Proof.
  apply (cleanup_flushes_then_silences silent_upstream (fun w => w) loud_frame
           buffered_bridge (session_with (Some buffered_bridge) 0 0) ust0).
  - reflexivity.
  - reflexivity.
  - reflexivity.
  - discriminate.
Defined.

(** ** The registry *)

(** X24.  The registry has one slot per standup: a second connection for the
    same standup replaces the first in it, and when either of the two
    ends, the slot is removed, so the one still running is no longer
    counted and its status reads as absent; its own end then finds
    nothing to remove. *)
Theorem twin_connections_share_one_slot
    (standup_id : string) (first second : Session) (t : Z) (reg : Registry) :
  get_voice_session_status standup_id t
    (register_session standup_id second (register_session standup_id first reg))
  = get_voice_session_status standup_id t (register_session standup_id second reg) /\
  get_active_voice_session_count
    (register_session standup_id second (register_session standup_id first reg))
  = get_active_voice_session_count (register_session standup_id first reg) /\
  get_voice_session_status standup_id t
    (unregister_session standup_id
       (register_session standup_id second (register_session standup_id first reg)))
  = None /\
  unregister_session standup_id
    (unregister_session standup_id
       (register_session standup_id second (register_session standup_id first reg)))
  = unregister_session standup_id
      (register_session standup_id second (register_session standup_id first reg)).
Proof.
  unfold get_voice_session_status, get_active_voice_session_count, register_session,
    unregister_session.
  rewrite !lookup_insert_eq, !lookup_delete_eq.
  repeat split.
  rewrite !map_size_insert, lookup_insert_eq. reflexivity.
Qed.

(** ** Where an extraction error comes from *)

Section ExtractionErrorFacts.
Context {World : Type} (E : Env World).

(** X25.  The step-2 handler fires for one reason only, a known issue that is
    no object: then the reasoning backend is not called at all, there is
    no update, and the error list starts with "Extraction error: '<type>'
    object has no attribute 'get'", where <type> is the type of the first
    known issue that is no object.  With a well-formed list step 2 never
    records an error, whatever the backend answers. *)
Theorem extraction_error_means_malformed_known_issue
    (conversation : string) (known : list Json) (st : St World) :
  (forallb is_obj known = false ->
   exists v,
     first_non_obj known = Some v /\ In v known /\ is_obj v = false /\
     extract_step E conversation known st
     = ([],
        add_error ("Extraction error: '" ++ type_name v
                   ++ "' object has no attribute 'get'") acc0,
        st)) /\
  (forallb is_obj known = true ->
   acc_errors (snd (fst (extract_step E conversation known st))) = [] /\
   trace (snd (extract_step E conversation known st))
   = trace st ++ [CallLLM conversation known]).
Proof.
  split; intros Hk; unfold extract_step, _extract_issue_updates.
  - destruct (first_non_obj_some _ Hk) as (v & Hv & Hin & Hno).
    exists v. rewrite Hv. repeat split; [exact Hin | exact Hno].
  - rewrite (first_non_obj_none _ Hk), call_spec.
    destruct (fst (call_llm E conversation known (world st))) as [response|e];
      [|split; reflexivity].
    destruct (json_loads E (clean_response response)) as [data|]; [|split; reflexivity].
    destruct (updates_of_json data); split; reflexivity.
Qed.
End ExtractionErrorFacts.

Lemma extraction_error_means_malformed_known_issue_witness :
  (exists v,
     first_non_obj [JStr "ENG-1"] = Some v /\ In v [JStr "ENG-1"] /\ is_obj v = false /\
     extract_step (scripted_env fenced_response "") "conversation" [JStr "ENG-1"] st0
     = ([],
        add_error ("Extraction error: '" ++ type_name v
                   ++ "' object has no attribute 'get'") acc0,
        st0)) /\
  (acc_errors (snd (fst (extract_step (scripted_env prose_answer "") "conversation"
                           [JObj [("identifier", JStr "ENG-1")]] st0))) = [] /\
   trace (snd (extract_step (scripted_env prose_answer "") "conversation"
                 [JObj [("identifier", JStr "ENG-1")]] st0))
   = trace st0 ++ [CallLLM "conversation" [JObj [("identifier", JStr "ENG-1")]]]).
Proof.
  split.
  - apply (proj1 (extraction_error_means_malformed_known_issue
                    (scripted_env fenced_response "") "conversation" [JStr "ENG-1"] st0)).
    reflexivity.
  - apply (proj2 (extraction_error_means_malformed_known_issue
                    (scripted_env prose_answer "") "conversation"
                    [JObj [("identifier", JStr "ENG-1")]] st0)).
    reflexivity.
Defined.

Example string_known_issue_error :
  extract_step (scripted_env fenced_response "") "conversation" [JStr "ENG-1"] st0
  = ([], add_error "Extraction error: 'str' object has no attribute 'get'" acc0, st0).
Proof. reflexivity. Qed.
